(** * emploi-api: authentication, password reset and Completed-record access control

    A shallow embedding of
      - utils/errorHandler.js        (the operational error object),
      - models/userModel.js          (schema defaults and validators, the two
                                      pre-save hooks, the pre-find hook, the
                                      instance methods),
      - controllers/authController.js (token issue, signUp, login,
                                      isAuthenticated, restrictTo,
                                      forgotPassword, resetPassword,
                                      updatePassword, confirmMail,
                                      resendConfirmationMail),
      - the Completed controller     (setCompletedBody, addNewCompleted,
                                      getCompleted, updateCompleted,
                                      deleteCompleted),
    followed by the properties proved about them.

    Conventions.  Times are milliseconds since the epoch, as [Date.now()]
    returns them, in [Z].  A handler is a function of the collections, of what
    the process observes while it runs (clock, random bytes, mail transport) and
    of the request; it returns the collections afterwards, the mails handed to
    the transport and what happened to the request. *)

From Stdlib Require Import ZArith String Ascii List Bool Lia DecimalString.
Import ListNotations.
Open Scope string_scope.
Open Scope Z_scope.

(* ------------------------------------------------------------------ *)
(** ** What lies outside the repository

    The hashing primitives, the email validator, the team-membership helper
    and two functions of the JavaScript runtime are used through their
    interfaces only.  A JavaScript string is held as the bytes of its UTF-8
    encoding. *)

Definition ObjectId := string.

Class Primitives := {
  (** [crypto.createHash('sha256').update(s).digest('hex')] *)
  sha256_hex : string -> string;
  (** [bcrypt.hash(s, cost)], with the salt the call draws made explicit *)
  bcrypt_hash : string -> string -> Z -> string;
  (** [bcrypt.compare(s, hash)] on two strings *)
  bcrypt_compare : string -> string -> bool;
  (** [validator.isEmail] *)
  isEmail : string -> bool;
  (** [utils/checkIfMemberOfSameTeam (testId, userId)] *)
  isMemberOfSameTeam : ObjectId -> ObjectId -> bool;
  (** [String.prototype.toLowerCase] *)
  toLowerCase : string -> string;
  (** [String(n)] for an integer [n] beyond the safe integers, where
      JavaScript writes the shortest digits that read back as [n], and an
      exponent from 1e21 on *)
  Number_toString : Z -> string
}.

(* ------------------------------------------------------------------ *)
(** ** JavaScript values carried by a request body *)

Inductive JsVal :=
| VStr (s : string)
| VBool (b : bool)
| VNum (n : Z).

(** A plain object: keys in insertion order, the first binding of a key wins. *)
Definition JsObject := list (string * JsVal).

Fixpoint get (k : string) (o : JsObject) : option JsVal :=
  match o with
  | [] => None
  | (k', v) :: o' => if String.eqb k k' then Some v else get k o'
  end.

(** [o[k] = v] on a plain object. *)
Fixpoint put (k : string) (v : JsVal) (o : JsObject) : JsObject :=
  match o with
  | [] => [(k, v)]
  | (k', v') :: o' => if String.eqb k k' then (k, v) :: o' else (k', v') :: put k v o'
  end.

(** [o[k] = undefined], after which [o[k]] reads as for an object without
    the key. *)
Definition unset (k : string) (o : JsObject) : JsObject :=
  filter (fun kv => negb (String.eqb k (fst kv))) o.

(** Truthiness, as [!x] and [if (x)] see it. *)
Definition truthy (v : option JsVal) : bool :=
  match v with
  | None => false
  | Some (VStr s) => negb (String.eqb s "")
  | Some (VBool b) => b
  | Some (VNum n) => negb (n =? 0)
  end.

(** [typeof x]. *)
Definition typeof (v : option JsVal) : string :=
  match v with
  | None => "undefined"
  | Some (VStr _) => "string"
  | Some (VBool _) => "boolean"
  | Some (VNum _) => "number"
  end.

Definition decimal (n : Z) : string := NilZero.string_of_int (Z.to_int n).

(** [Number.MAX_SAFE_INTEGER], 2^53 - 1. *)
Definition MAX_SAFE_INTEGER : Z := 9007199254740991.

(** What a [String] schema path stores for a value: the string itself,
    [String(b)], or [String(n)], which is the decimal numeral of a safe
    integer. *)
Definition castString {P : Primitives} (v : JsVal) : string :=
  match v with
  | VStr s => s
  | VBool true => "true"
  | VBool false => "false"
  | VNum n => if Z.abs n <=? MAX_SAFE_INTEGER then decimal n else Number_toString n
  end.

(** What a [Boolean] schema path stores for a value; [None] is a cast error. *)
Definition castBoolean (v : JsVal) : option bool :=
  match v with
  | VBool b => Some b
  | VNum n => if n =? 1 then Some true else if n =? 0 then Some false else None
  | VStr s =>
      if existsb (String.eqb s) ["true"; "1"; "yes"] then Some true
      else if existsb (String.eqb s) ["false"; "0"; "no"] then Some false
      else None
  end.

(** The UTF-16 code units a byte of a UTF-8 string stands for: none for a
    continuation byte, two (a surrogate pair) for the first byte of a
    four-byte sequence, one otherwise. *)
Definition utf16_units (c : ascii) : nat :=
  let n := nat_of_ascii c in
  if (Nat.leb 128 n && Nat.ltb n 192)%bool then 0%nat
  else if Nat.leb 240 n then 2%nat
  else 1%nat.

(** [s.length], in UTF-16 code units. *)
Fixpoint js_length (s : string) : nat :=
  match s with
  | EmptyString => 0%nat
  | String c s' => (utf16_units c + js_length s')%nat
  end.

Definition includes (roles : list string) (r : string) : bool :=
  existsb (String.eqb r) roles.

(* ------------------------------------------------------------------ *)
(** ** utils/errorHandler.js *)

Record ErrorHandler := {
  message : string;
  statusCode : Z;
  status : string;
  operationalError : bool
}.

(** [new ErrorHandler(message, statusCode)]. *)
Definition new_ErrorHandler (msg : string) (code : Z) : ErrorHandler :=
  {| message := msg;
     statusCode := code;
     status := if String.prefix "4" (decimal code) then "failed" else "error";
     operationalError := true |}.

(** Errors that are thrown rather than built by a handler. *)
Inductive Exception :=
| JsonWebTokenError (msg : string)
| TokenExpiredError
| ValidationError (msgs : list string)
| DuplicateKeyError (path : string)
| TypeError (msg : string)
| JsError (msg : string).
    (* new Error(msg) *)

(* ------------------------------------------------------------------ *)
(** ** Session tokens (the jsonwebtoken package)

    The package is not part of the repository.  A token is modelled by what
    [jwt.verify] reads back from it: the payload [{id, iat, exp}] (seconds) and
    the key it was signed with.  A piece of request text is either ordinary
    characters or the serialisation of such a token. *)

Record JwtPayload := {
  jwt_id : ObjectId;
  iat : Z;
  exp : Z
}.

Record Jwt := {
  payload : JwtPayload;
  signed_with : string
}.

Inductive Text :=
| Plain (s : string)
| Signed (t : Jwt).

(** [Math.floor(Date.now() / 1000)]. *)
Definition seconds (now : Z) : Z := now / 1000.

(** [jwt.sign({ id }, key, { expiresIn })] at time [now]. *)
Definition jwt_sign (id : ObjectId) (key : string) (expiresIn : Z) (now : Z) : Jwt :=
  {| payload := {| jwt_id := id; iat := seconds now; exp := seconds now + expiresIn |};
     signed_with := key |}.

(** [jwt.verify(token, key)] at time [now]: the payload, or the error thrown. *)
Definition jwt_verify (token : Text) (key : string) (now : Z) : Exception + JwtPayload :=
  match token with
  | Plain _ => inl (JsonWebTokenError "jwt malformed")
  | Signed t =>
      if negb (String.eqb (signed_with t) key) then inl (JsonWebTokenError "invalid signature")
      else if exp (payload t) <=? seconds now then inl TokenExpiredError
      else inr (payload t)
  end.

(* ------------------------------------------------------------------ *)
(** ** The process and its surroundings *)

(** [process.env]. [JWT_EXPIRATION_TIME] is the token life time in seconds,
    [JWT_COOKIE_EXPIRATION_TIME] the cookie life time in days. *)
Record Config := {
  NODE_ENV : string;
  JWT_SECRET_KEY : string;
  JWT_EXPIRATION_TIME : Z;
  JWT_COOKIE_EXPIRATION_TIME : Z
}.

(** What one run of a handler observes of the world: the clock ([Date.now()],
    read as one instant per run), the bytes of [crypto.randomBytes(32)] in hex,
    the salt [bcrypt.hash] draws, the id given to a created document, and
    whether the mail transport delivers. *)
Record Ambient := {
  now : Z;
  random_hex : string;
  salt : string;
  fresh_id : ObjectId;
  mail_delivers : bool
}.

(* ------------------------------------------------------------------ *)
(** ** models/userModel.js *)

(** A stored user.  [password] is [None] on a document loaded without
    [select('+password')] and after [user.password = undefined]; a missing
    required string is the empty string, which the [required] validator
    rejects like [undefined]. *)
Record User := {
  _id : ObjectId;
  name : string;
  email : string;
  photo : string;
  role : string;
  password : option string;
  passwordConfirmation : option string;
  passwordChangedAt : option Z;
  passwordResetToken : option string;
  passwordResetExpiresIn : option Z;
  isActive : bool;
  confirmed : bool
}.

Definition with_password (v : option string) (u : User) : User :=
  {| _id := _id u; name := name u; email := email u; photo := photo u; role := role u;
     password := v; passwordConfirmation := passwordConfirmation u;
     passwordChangedAt := passwordChangedAt u;
     passwordResetToken := passwordResetToken u;
     passwordResetExpiresIn := passwordResetExpiresIn u;
     isActive := isActive u; confirmed := confirmed u |}.

Definition with_passwordConfirmation (v : option string) (u : User) : User :=
  {| _id := _id u; name := name u; email := email u; photo := photo u; role := role u;
     password := password u; passwordConfirmation := v;
     passwordChangedAt := passwordChangedAt u;
     passwordResetToken := passwordResetToken u;
     passwordResetExpiresIn := passwordResetExpiresIn u;
     isActive := isActive u; confirmed := confirmed u |}.

Definition with_passwordChangedAt (v : option Z) (u : User) : User :=
  {| _id := _id u; name := name u; email := email u; photo := photo u; role := role u;
     password := password u; passwordConfirmation := passwordConfirmation u;
     passwordChangedAt := v;
     passwordResetToken := passwordResetToken u;
     passwordResetExpiresIn := passwordResetExpiresIn u;
     isActive := isActive u; confirmed := confirmed u |}.

Definition with_passwordResetToken (v : option string) (u : User) : User :=
  {| _id := _id u; name := name u; email := email u; photo := photo u; role := role u;
     password := password u; passwordConfirmation := passwordConfirmation u;
     passwordChangedAt := passwordChangedAt u;
     passwordResetToken := v;
     passwordResetExpiresIn := passwordResetExpiresIn u;
     isActive := isActive u; confirmed := confirmed u |}.

Definition with_passwordResetExpiresIn (v : option Z) (u : User) : User :=
  {| _id := _id u; name := name u; email := email u; photo := photo u; role := role u;
     password := password u; passwordConfirmation := passwordConfirmation u;
     passwordChangedAt := passwordChangedAt u;
     passwordResetToken := passwordResetToken u;
     passwordResetExpiresIn := v;
     isActive := isActive u; confirmed := confirmed u |}.

Definition with_confirmed (v : bool) (u : User) : User :=
  {| _id := _id u; name := name u; email := email u; photo := photo u; role := role u;
     password := password u; passwordConfirmation := passwordConfirmation u;
     passwordChangedAt := passwordChangedAt u;
     passwordResetToken := passwordResetToken u;
     passwordResetExpiresIn := passwordResetExpiresIn u;
     isActive := isActive u; confirmed := v |}.

(** A document in memory: its fields, whether it was never saved, and the
    paths assigned since it was loaded. *)
Record Doc := {
  fields : User;
  isNew : bool;
  modifiedPaths : list string
}.

Definition isModified (path : string) (d : Doc) : bool :=
  existsb (String.eqb path) (modifiedPaths d).

Definition option_eqb {A} (eqb : A -> A -> bool) (x y : option A) : bool :=
  match x, y with
  | Some a, Some b => eqb a b
  | None, None => true
  | _, _ => false
  end.

(** Assigning a path marks it modified when the value changes. *)
Definition touch (path : string) (changed : bool) (d : Doc) (u : User) : Doc :=
  {| fields := u; isNew := isNew d;
     modifiedPaths := if changed then path :: modifiedPaths d else modifiedPaths d |}.

(** [doc.password = v].  A document without [password] was loaded without
    selecting it, and assigning a path that was not selected marks it
    modified whatever the value. *)
Definition set_password (v : option string) (d : Doc) : Doc :=
  touch "password"
        (match password (fields d) with
         | None => true
         | Some p => negb (option_eqb String.eqb (Some p) v)
         end) d
        (with_password v (fields d)).

Definition set_passwordConfirmation (v : option string) (d : Doc) : Doc :=
  touch "passwordConfirmation"
        (negb (option_eqb String.eqb (passwordConfirmation (fields d)) v)) d
        (with_passwordConfirmation v (fields d)).

Definition set_passwordChangedAt (v : option Z) (d : Doc) : Doc :=
  touch "passwordChangedAt" (negb (option_eqb Z.eqb (passwordChangedAt (fields d)) v)) d
        (with_passwordChangedAt v (fields d)).

Definition set_passwordResetToken (v : option string) (d : Doc) : Doc :=
  touch "passwordResetToken"
        (negb (option_eqb String.eqb (passwordResetToken (fields d)) v)) d
        (with_passwordResetToken v (fields d)).

Definition set_passwordResetExpiresIn (v : option Z) (d : Doc) : Doc :=
  touch "passwordResetExpiresIn"
        (negb (option_eqb Z.eqb (passwordResetExpiresIn (fields d)) v)) d
        (with_passwordResetExpiresIn v (fields d)).

Definition set_confirmed (v : bool) (d : Doc) : Doc :=
  touch "confirmed" (negb (Bool.eqb (confirmed (fields d)) v)) d
        (with_confirmed v (fields d)).

(** A document as a query returns it: [password] has [select: false]. *)
Definition loaded (selectPassword : bool) (u : User) : Doc :=
  {| fields := if selectPassword then u else with_password None u;
     isNew := false; modifiedPaths := [] |}.

(** [userSchema.pre(/^find/)]: every find query also asks for
    [isActive: { $ne: false }]. *)
Definition pre_find (filter : User -> bool) : User -> bool :=
  fun u => (filter u && negb (Bool.eqb (isActive u) false))%bool.

(** [User.findOne(filter)], with or without [.select('+password')]. *)
Definition findOne (users : list User) (filter : User -> bool) (selectPassword : bool)
  : option Doc :=
  option_map (loaded selectPassword) (find (pre_find filter) users).

(** [User.findById(id)]: [findOne({ _id: id })]. *)
Definition findById (users : list User) (id : ObjectId) (selectPassword : bool)
  : option Doc :=
  findOne users (fun u => String.eqb (_id u) id) selectPassword.

Section UserModel.
Context {P : Primitives}.

(** [User.findOne({ email })]; the query value goes through the path's
    [lowercase] setter like a stored one. *)
Definition findByEmail (users : list User) (e : JsVal) : option Doc :=
  findOne users (fun u => String.eqb (email u) (toLowerCase (castString e))) false.

(** The schema's validators, on the paths validation visits: the required
    paths of a document (an unselected, unassigned [password] is skipped) and
    the assigned ones. *)
Definition validate (d : Doc) : list string :=
  let u := fields d in
  (if String.eqb (name u) "" then ["A user must have a name"] else [])
  ++ (if String.eqb (email u) "" then ["A user must have a email"]
      else if isEmail (email u) then [] else ["Provided email is not a valid email"])
  ++ (if (isNew d || isModified "role" d)%bool
      then if includes ["user"; "admin"; "rep"] (role u) then []
           else ["Role should be either admin,rep or user not anything else."]
      else [])
  ++ (match password u with
      | None => if (isNew d || isModified "password" d)%bool
                then ["User must specify a password"] else []
      | Some p => if String.eqb p "" then ["User must specify a password"]
                  else if Nat.ltb (js_length p) 8
                  then ["Path `password` (`" ++ p
                        ++ "`) is shorter than the minimum allowed length (8)."]
                  else []
      end)
  ++ (match passwordConfirmation u with
      | None => ["User must confirm his password"]
      | Some c => if String.eqb c "" then ["User must confirm his password"]
                  else if option_eqb String.eqb (password u) (Some c) then []
                  else ["Password and Password Confirmation does not match."]
      end).

(** First [pre('save')] hook: hash a modified password with cost 12 and drop
    the confirmation. *)
Definition pre_save_hash (a : Ambient) (d : Doc) : Exception + Doc :=
  if negb (isModified "password" d) then inr d
  else match password (fields d) with
       | None => inl (JsError "Illegal arguments: undefined, number")
       | Some p =>
           let d1 := touch "password" true d
                           (with_password (Some (bcrypt_hash p (salt a) 12)) (fields d)) in
           inr (set_passwordConfirmation None d1)
       end.

(** Second [pre('save')] hook: stamp the change of an existing user's
    password one second in the past. *)
Definition pre_save_changedAt (a : Ambient) (d : Doc) : Doc :=
  if (negb (isModified "password" d) || isNew d)%bool then d
  else set_passwordChangedAt (Some (now a - 1000)) d.

(** [isPasswordCorrect(passwordToCheck, correctPassword)] on two strings;
    [bcrypt.compare] rejects other arguments, as the callers show. *)
Definition isPasswordCorrect (passwordToCheck correctPassword : string) : bool :=
  bcrypt_compare passwordToCheck correctPassword.

(** [isPasswordChangedAfterTokenIsIssued(jwtTimeStamp)].  [parseInt(x / 1000, 10)]
    drops the fraction, towards zero. *)
Definition isPasswordChangedAfterTokenIsIssued (u : User) (jwtTimeStamp : Z) : bool :=
  match passwordChangedAt u with
  | Some changedAt =>
      let changedTimeStamp := Z.quot changedAt 1000 in
      jwtTimeStamp <? changedTimeStamp
  | None => false
  end.

(** [createPasswordResetToken()]: the token to hand out and the document
    with the hash and the expiry assigned. *)
Definition createPasswordResetToken (a : Ambient) (d : Doc) : string * Doc :=
  let resetToken := random_hex a in
  let d1 := set_passwordResetToken (Some (sha256_hex resetToken)) d in
  let d2 := set_passwordResetExpiresIn (Some (now a + 10 * 60 * 1000)) d1 in
  (resetToken, d2).

(** Copy one path of a document into the stored record. *)
Definition write_path (src : User) (dst : User) (path : string) : User :=
  if String.eqb path "password" then with_password (password src) dst
  else if String.eqb path "passwordConfirmation"
    then with_passwordConfirmation (passwordConfirmation src) dst
  else if String.eqb path "passwordChangedAt"
    then with_passwordChangedAt (passwordChangedAt src) dst
  else if String.eqb path "passwordResetToken"
    then with_passwordResetToken (passwordResetToken src) dst
  else if String.eqb path "passwordResetExpiresIn"
    then with_passwordResetExpiresIn (passwordResetExpiresIn src) dst
  else if String.eqb path "confirmed" then with_confirmed (confirmed src) dst
  else dst.

(** The update a save of an existing document sends: its modified paths. *)
Definition store_update (d : Doc) (users : list User) : list User :=
  map (fun u => if String.eqb (_id u) (_id (fields d))
                then fold_left (write_path (fields d)) (modifiedPaths d) u
                else u) users.

(** The insert a save of a new document sends; [email] has a unique index. *)
Definition store_insert (d : Doc) (users : list User) : Exception + list User :=
  if existsb (fun u => String.eqb (email u) (email (fields d))) users
  then inl (DuplicateKeyError "email")
  else inr (users ++ [fields d])%list.

Definition saved (d : Doc) : Doc :=
  {| fields := fields d; isNew := false; modifiedPaths := [] |}.

(** [doc.save({ validateBeforeSave })]: validation, the two hooks in the
    order they are registered, then the write. *)
Definition save (users : list User) (a : Ambient) (d : Doc) (validateBeforeSave : bool)
  : Exception + (list User * Doc) :=
  match (if validateBeforeSave then validate d else []) with
  | (_ :: _) as msgs => inl (ValidationError msgs)
  | [] =>
      match pre_save_hash a d with
      | inl e => inl e
      | inr d1 =>
          let d2 := pre_save_changedAt a d1 in
          if isNew d2 then
            match store_insert d2 users with
            | inl e => inl e
            | inr users' => inr (users', saved d2)
            end
          else inr (store_update d2 users, saved d2)
      end
  end.

(** [new User(body)]: the schema's defaults under the fields the body gives.
    [None] when [confirmed] cannot be cast to a boolean. *)
Definition new_User (a : Ambient) (body : JsObject) : option Doc :=
  let str (k : string) (default : string) :=
    match get k body with Some v => castString v | None => default end in
  let opt (k : string) := option_map castString (get k body) in
  match (match get "confirmed" body with
         | Some v => castBoolean v
         | None => Some false
         end) with
  | None => None
  | Some c =>
      Some {| fields := {| _id := fresh_id a;
                           name := str "name" "";
                           email := toLowerCase (str "email" "");
                           photo := str "photo" "default.jpg";
                           role := str "role" "user";
                           password := opt "password";
                           passwordConfirmation := opt "passwordConfirmation";
                           passwordChangedAt := None;
                           passwordResetToken := None;
                           passwordResetExpiresIn := None;
                           isActive := true;
                           confirmed := c |};
              isNew := true;
              modifiedPaths := map fst body |}
  end.

(** [User.create(body)]. *)
Definition User_create (users : list User) (a : Ambient) (body : JsObject)
  : Exception + (list User * Doc) :=
  match new_User a body with
  | None => inl (ValidationError ["Cast to Boolean failed for path confirmed"])
  | Some d => save users a d true
  end.

End UserModel.

(* ------------------------------------------------------------------ *)
(** ** Requests and what becomes of them *)

Record Request := {
  body : JsObject;
  params : list (string * string);
  (** [req.params.tokenId], the one route parameter that holds a token *)
  params_tokenId : option Text;
  (** the [Authorization] header split at its blanks, [split(' ')]; [None]
      when absent *)
  authorization : option (list Text);
  (** [req.cookies.jwt] *)
  cookies_jwt : option Text;
  secure : bool;
  protocol : string;
  host : string;
  (** [req.user], set by [isAuthenticated] *)
  user : option User
}.

Definition set_user (u : User) (req : Request) : Request :=
  {| body := body req; params := params req; params_tokenId := params_tokenId req;
     authorization := authorization req;
     cookies_jwt := cookies_jwt req; secure := secure req; protocol := protocol req;
     host := host req; user := Some u |}.

Definition set_body (b : JsObject) (req : Request) : Request :=
  {| body := b; params := params req; params_tokenId := params_tokenId req;
     authorization := authorization req;
     cookies_jwt := cookies_jwt req; secure := secure req; protocol := protocol req;
     host := host req; user := user req |}.

Fixpoint param (k : string) (ps : list (string * string)) : option string :=
  match ps with
  | [] => None
  | (k', v) :: ps' => if String.eqb k k' then Some v else param k ps'
  end.

Record Cookie := {
  cookie_name : string;
  cookie_value : Jwt;
  expires : Z;
  httpOnly : bool;
  cookie_secure : bool
}.

(** Modelled from the spec: models/completedModel is not among the sources; a
    Completed record "references a User and a Test, plus a timestamp", like the
    Applied schema of src/unnamed/part_000.  [c_user] is what
    [currentCompleted.user.id.toString()] yields. *)
Record Completed := {
  c_id : ObjectId;
  c_test : ObjectId;
  c_user : ObjectId;
  c_completedAt : option Z
}.

Inductive Reply :=
| TokenReply (tokenId : Jwt) (document : User)
    (* { status: 'success', tokenId, data: { document: { user } } } *)
| DataMessage (msg : string)
    (* { status: 'success', data: { message } } *)
| TopMessage (msg : string)
    (* { status: 'success', message } *)
| DocumentReply (document : Completed)
    (* { status: 'success', data: { document } } *)
| NullData.
    (* { status: 'success', data: null } *)

Inductive Failure :=
| Operational (e : ErrorHandler)
| Raised (e : Exception).

Inductive Outcome :=
| Json (code : Z) (cookie : option Cookie) (reply : Reply)
    (* res.cookie(...) if any, then res.status(code).json(reply) *)
| Continue (req : Request)
    (* next() *)
| Fail (f : Failure)
    (* next(err), by the handler or by catchAsync for a rejection *)
| NoReply.
    (* a rejection nobody awaits *)

Inductive MailKind := ConfirmationMail | ResetPasswordMail.

(** Modelled from the spec: utils/sendMail is not among the sources; the mail
    collaborator takes a user and a link, is "fire-and-wait" and "may throw on
    delivery failure", which [mail_delivers] decides.  The link is a fixed
    prefix followed by a token. *)
Record Mail := {
  mail_to : User;
  mail_kind : MailKind;
  mail_url : string * Text
}.

Record Result := {
  users_after : list User;
  mails : list Mail;
  outcome : Outcome
}.

Definition text_truthy (t : option Text) : bool :=
  match t with
  | None => false
  | Some (Plain s) => negb (String.eqb s "")
  | Some (Signed _) => true
  end.

(** Whether the header, given by its words, is a non-empty string: the empty
    string splits into the one word [""]. *)
Definition header_truthy (parts : list Text) : bool :=
  match parts with
  | [] => false
  | [Plain s] => negb (String.eqb s "")
  | _ => true
  end.

(** The first lines of [isAuthenticated]: the second word of the
    [Authorization] header when the header is there and not empty, else the
    [jwt] cookie when there is one. *)
Definition tokenId_of (req : Request) : option Text :=
  let cookie := if text_truthy (cookies_jwt req) then cookies_jwt req else None in
  match authorization req with
  | Some parts => if header_truthy parts then nth_error parts 1 else cookie
  | None => cookie
  end.

(** Modelled from the spec: utils/filterBody is not among the sources; signUp
    "accepts only an allow-listed subset of fields", so the helper keeps the
    bindings whose key is one of the allowed names and drops the rest. *)
Definition filterBody (obj : JsObject) (allowedFields : list string) : JsObject :=
  filter (fun kv => includes allowedFields (fst kv)) obj.

(* ------------------------------------------------------------------ *)
(** ** controllers/authController.js *)

Section AuthController.
Context {P : Primitives}.
Variable cfg : Config.

Definition getJwtToken (a : Ambient) (id : ObjectId) : Jwt :=
  jwt_sign id (JWT_SECRET_KEY cfg) (JWT_EXPIRATION_TIME cfg) (now a).

Definition sendJwtToken (a : Ambient) (u : User) (code : Z) (req : Request) : Outcome :=
  let tokenId := getJwtToken a (_id u) in
  let cookieOptions :=
    {| cookie_name := "jwt"; cookie_value := tokenId;
       expires := now a + JWT_COOKIE_EXPIRATION_TIME cfg * 24 * 60 * 60 * 1000;
       httpOnly := true;
       cookie_secure := secure req |} in
  Json code (Some cookieOptions) (TokenReply tokenId (with_password None u)).

(** Neither caller awaits [sendConfirmationMail], so a failed delivery
    leaves the request unanswered. *)
Definition sendConfirmationMail (a : Ambient) (u : User) (req : Request)
  : list Mail * Outcome :=
  let tokenId := getJwtToken a (_id u) in
  let URL := (protocol req ++ "://" ++ host req ++ "/api/v1/users/confirm/",
              Signed tokenId) in
  if mail_delivers a then
    ([{| mail_to := u; mail_kind := ConfirmationMail; mail_url := URL |}],
     Json 200 None
       (DataMessage "Please Confirm Your Email to continue. A link has been sent to your email address. (Valid Only For 90 days)."))
  else ([], NoReply).

Definition signUp (users : list User) (a : Ambient) (req : Request) : Result :=
  let filteredBody :=
    if String.eqb (NODE_ENV cfg) "production"
    then filterBody (body req)
           ["name"; "email"; "photo"; "password"; "passwordConfirmation"]
    else filterBody (body req)
           ["name"; "email"; "photo"; "password"; "passwordConfirmation";
            "role"; "confirmed"] in
  match User_create users a filteredBody with
  | inl e => {| users_after := users; mails := []; outcome := Fail (Raised e) |}
  | inr (users', d) =>
      if String.eqb (NODE_ENV cfg) "production"
      then let (ms, out) := sendConfirmationMail a (fields d) req in
           {| users_after := users'; mails := ms; outcome := out |}
      else {| users_after := users'; mails := [];
              outcome := sendJwtToken a (fields d) 200 req |}
  end.

Definition login (users : list User) (a : Ambient) (req : Request) : Outcome :=
  match get "email" (body req), get "password" (body req) with
  | Some e, Some pw =>
      if (negb (truthy (Some e)) || negb (truthy (Some pw)))%bool then
        Fail (Operational (new_ErrorHandler
          "Please provide email and password to login" 400))
      else
        let incorrect := Fail (Operational (new_ErrorHandler
                           "Incorrect email or password" 401)) in
        match findOne users
                (fun u => String.eqb (email u) (toLowerCase (castString e))) true with
        | None => incorrect
        | Some d =>
            match pw, password (fields d) with
            | VStr given, Some stored =>
                if negb (isPasswordCorrect given stored) then incorrect
                else if negb (confirmed (fields d)) then
                  Fail (Operational (new_ErrorHandler
                    "Please confirm your mail first to login" 401))
                else sendJwtToken a (fields d) 200 req
            | _, stored =>
                Fail (Raised (JsError ("Illegal arguments: " ++ typeof (Some pw) ++ ", "
                                       ++ typeof (option_map VStr stored))))
            end
        end
  | _, _ => Fail (Operational (new_ErrorHandler
              "Please provide email and password to login" 400))
  end.

Definition isAuthenticated (users : list User) (a : Ambient) (req : Request) : Outcome :=
  match tokenId_of req with
  | Some tok =>
      if negb (text_truthy (Some tok)) then
        Fail (Operational (new_ErrorHandler
          "You're not logged in. Please Login to get access to this URL" 401))
      else
      match jwt_verify tok (JWT_SECRET_KEY cfg) (now a) with
      | inl e => Fail (Raised e)
      | inr decodedPayload =>
          match findById users (jwt_id decodedPayload) false with
          | None =>
              Fail (Operational (new_ErrorHandler
                "There's no account with the given email address." 401))
          | Some d =>
              if isPasswordChangedAfterTokenIsIssued (fields d) (iat decodedPayload)
              then Fail (Operational (new_ErrorHandler
                "Your account password has been changed. Please login again to continue"
                401))
              else Continue (set_user (fields d) req)
          end
      end
  | None =>
      Fail (Operational (new_ErrorHandler
        "You're not logged in. Please Login to get access to this URL" 401))
  end.

Definition restrictTo (roles : list string) (req : Request) : Outcome :=
  match user req with
  | None => Fail (Raised (TypeError "Cannot read property 'role' of undefined"))
  | Some u =>
      if negb (includes roles (role u))
      then Fail (Operational (new_ErrorHandler
             "You're not allowed to access this route." 403))
      else Continue req
  end.

Definition forgotPassword (users : list User) (a : Ambient) (req : Request) : Result :=
  let stop o := {| users_after := users; mails := []; outcome := o |} in
  match get "email" (body req) with
  | None => stop (Fail (Operational (new_ErrorHandler
              "Please provide email address to change your password." 400)))
  | Some e =>
      if negb (truthy (Some e)) then
        stop (Fail (Operational (new_ErrorHandler
          "Please provide email address to change your password." 400)))
      else
      match findByEmail users e with
      | None => stop (Fail (Operational (new_ErrorHandler
                  "No user exists with that email id" 404)))
      | Some d =>
          let (resetToken, d1) := createPasswordResetToken a d in
          match save users a d1 false with
          | inl exn => stop (Fail (Raised exn))
          | inr (users1, d2) =>
              let resetURL := (protocol req ++ "://" ++ host req
                               ++ "/api/v1/user/resetPassword/", Plain resetToken) in
              if mail_delivers a then
                {| users_after := users1;
                   mails := [{| mail_to := fields d2; mail_kind := ResetPasswordMail;
                                mail_url := resetURL |}];
                   outcome := Json 200 None (TopMessage
                     "Token Id (URL) to reset your password was sent to your email address.") |}
              else
                let d3 := set_passwordResetToken None d2 in
                let d4 := set_passwordResetExpiresIn None d3 in
                match save users1 a d4 false with
                | inl exn => {| users_after := users1; mails := [];
                                outcome := Fail (Raised exn) |}
                | inr (users2, _) =>
                    {| users_after := users2; mails := [];
                       outcome := Fail (Operational (new_ErrorHandler
                         "There's some problem with sending email. Please try again later."
                         500)) |}
                end
          end
      end
  end.

(** The filter of [resetPassword]'s lookup:
    [{ passwordResetToken: hashedToken, passwordResetExpiresIn: { $gt: Date.now() } }]. *)
Definition reset_filter (hashedToken : string) (a : Ambient) (u : User) : bool :=
  (option_eqb String.eqb (passwordResetToken u) (Some hashedToken)
   && match passwordResetExpiresIn u with
      | Some e => now a <? e
      | None => false
      end)%bool.

Definition resetPassword (users : list User) (a : Ambient) (req : Request) : Result :=
  let stop o := {| users_after := users; mails := []; outcome := o |} in
  match param "resetToken" (params req) with
  | None => stop (Fail (Raised (TypeError
              "The data argument must be of type string. Received undefined")))
  | Some resetToken =>
      let hashedToken := sha256_hex resetToken in
      match findOne users (reset_filter hashedToken a) false with
      | None => stop (Fail (Operational (new_ErrorHandler
                  "Token is invalid or expired." 400)))
      | Some d =>
          let d1 := set_password (option_map castString (get "password" (body req))) d in
          let d2 := set_passwordConfirmation
                      (option_map castString (get "passwordConfirmation" (body req))) d1 in
          let d3 := set_passwordResetToken None d2 in
          let d4 := set_passwordResetExpiresIn None d3 in
          match save users a d4 true with
          | inl exn => stop (Fail (Raised exn))
          | inr (users', d5) =>
              {| users_after := users'; mails := [];
                 outcome := sendJwtToken a (fields d5) 200 req |}
          end
      end
  end.

Definition updatePassword (users : list User) (a : Ambient) (req : Request) : Result :=
  let stop o := {| users_after := users; mails := []; outcome := o |} in
  let denied := stop (Fail (Operational (new_ErrorHandler
    "Given password doesn't match the current password. If you've forgotten the password use forgot password URL"
    401))) in
  match user req with
  | None => stop (Fail (Raised (TypeError "Cannot read property 'id' of undefined")))
  | Some me =>
      match findById users (_id me) true with
      | None => denied
      | Some d =>
          match get "currentPassword" (body req), password (fields d) with
          | Some (VStr cur), Some stored =>
              if negb (isPasswordCorrect cur stored) then denied
              else
                let d1 := set_password
                            (option_map castString (get "newPassword" (body req))) d in
                let d2 := set_passwordConfirmation
                            (option_map castString
                               (get "newPasswordConfirmation" (body req))) d1 in
                match save users a d2 true with
                | inl exn => stop (Fail (Raised exn))
                | inr (users', d3) =>
                    {| users_after := users'; mails := [];
                       outcome := sendJwtToken a (fields d3) 200 req |}
                end
          | cur, stored =>
              stop (Fail (Raised (JsError ("Illegal arguments: " ++ typeof cur ++ ", "
                                           ++ typeof (option_map VStr stored)))))
          end
      end
  end.

Definition confirmMail (users : list User) (a : Ambient) (req : Request) : Result :=
  let stop o := {| users_after := users; mails := []; outcome := o |} in
  match params_tokenId req with
  | None => stop (Fail (Operational (new_ErrorHandler
              "There's something wrong with the URL" 400)))
  | Some tokenId =>
      if negb (text_truthy (Some tokenId)) then
        stop (Fail (Operational (new_ErrorHandler
          "There's something wrong with the URL" 400)))
      else
      match jwt_verify tokenId (JWT_SECRET_KEY cfg) (now a) with
      | inl e => stop (Fail (Raised e))
      | inr decodedPayload =>
          match findById users (jwt_id decodedPayload) false with
          | None => stop (Fail (Operational (new_ErrorHandler
                      "Invalid Token or The token has been modified." 400)))
          | Some d =>
              let d1 := set_confirmed true d in
              match save users a d1 false with
              | inl exn => stop (Fail (Raised exn))
              | inr (users', d2) =>
                  {| users_after := users'; mails := [];
                     outcome := sendJwtToken a (fields d2) 201 req |}
              end
          end
      end
  end.

Definition resendConfirmationMail (users : list User) (a : Ambient) (req : Request)
  : Result :=
  let stop o := {| users_after := users; mails := []; outcome := o |} in
  match get "email" (body req) with
  | None => stop (Fail (Operational (new_ErrorHandler
              "You must mention your email to send the confirmation link" 400)))
  | Some e =>
      if negb (truthy (Some e)) then
        stop (Fail (Operational (new_ErrorHandler
          "You must mention your email to send the confirmation link" 400)))
      else
      match findByEmail users e with
      | None => stop (Fail (Operational (new_ErrorHandler
                  "No user found for the given email address. Try Signing up." 404)))
      | Some d =>
          let (ms, out) := sendConfirmationMail a (fields d) req in
          {| users_after := users; mails := ms; outcome := out |}
      end
  end.

End AuthController.

(* ------------------------------------------------------------------ *)
(** ** The Completed controller (src/unnamed/part_001) *)

Record Collections := {
  users : list User;
  tests : list ObjectId;
  completeds : list Completed
}.

(** [Completed.findById(id)]. *)
Definition Completed_findById (cs : list Completed) (id : string) : option Completed :=
  find (fun c => String.eqb (c_id c) id) cs.

Section CompletedModel.
Context {P : Primitives}.

(** Modelled from the spec: models/testModel is not among the sources; the
    controller only asks whether "the test exists".  [Test.findById(id)]. *)
Definition Test_findById (ts : list ObjectId) (id : option JsVal) : option ObjectId :=
  match id with
  | None => None
  | Some v => find (String.eqb (castString v)) ts
  end.

(** [Completed.create(body)]; [test] and [user] are required. *)
Definition Completed_create (a : Ambient) (b : JsObject) : Exception + Completed :=
  match get "test" b, get "user" b with
  | Some t, Some u =>
      inr {| c_id := fresh_id a; c_test := castString t; c_user := castString u;
             c_completedAt := match get "completedAt" b with
                              | Some (VNum n) => Some n
                              | _ => None
                              end |}
  | None, _ => inl (ValidationError ["Completed test should refer to a test."])
  | _, None => inl (ValidationError ["Completed test should belong to a user."])
  end.

(** The fields of [body] laid over a record. *)
Definition patch (b : JsObject) (c : Completed) : Completed :=
  {| c_id := c_id c;
     c_test := match get "test" b with Some v => castString v | None => c_test c end;
     c_user := match get "user" b with Some v => castString v | None => c_user c end;
     c_completedAt := match get "completedAt" b with
                      | Some (VNum n) => Some n
                      | _ => c_completedAt c
                      end |}.

(** [Completed.findByIdAndUpdate(id, body, { new: true })]. *)
Definition Completed_findByIdAndUpdate (cs : list Completed) (id : string) (b : JsObject)
  : list Completed :=
  map (fun c => if String.eqb (c_id c) id then patch b c else c) cs.

End CompletedModel.

(** [Completed.findByIdAndDelete(id)]. *)
Definition Completed_findByIdAndDelete (cs : list Completed) (id : string) : list Completed :=
  filter (fun c => negb (String.eqb (c_id c) id)) cs.

(** [req.body.user = req.params.userId]: the route's user, or [undefined],
    which reads like no property at all. *)
Definition setCompletedBody (req : Request) : Request :=
  if negb (truthy (get "user" (body req))) then
    match param "userId" (params req) with
    | Some uid => set_body (put "user" (VStr uid) (body req)) req
    | None => set_body (unset "user" (body req)) req
    end
  else req.

Section CompletedController.
Context {P : Primitives}.

Definition addNewCompleted (db : Collections) (a : Ambient) (req : Request)
  : list Completed * Outcome :=
  let stop o := (completeds db, o) in
  let noUser := stop (Fail (Operational (new_ErrorHandler
                  "No user exists with the given Id." 404))) in
  match param "userId" (params req) with
  | None => noUser
  | Some userId =>
      match findById (users db) userId false with
      | None => noUser
      | Some _ =>
          match Test_findById (tests db) (get "test" (body req)) with
          | None => stop (Fail (Operational (new_ErrorHandler
                      "No test exists with the given Id." 404)))
          | Some testId =>
              let create :=
                match Completed_create a (body req) with
                | inl exn => stop (Fail (Raised exn))
                | inr completed =>
                    ((completeds db ++ [completed])%list,
                     Json 201 None (DocumentReply completed))
                end in
              if negb (isMemberOfSameTeam testId userId) then
                match user req with
                | None => stop (Fail (Raised (TypeError
                            "Cannot read property 'role' of undefined")))
                | Some me =>
                    if negb (String.eqb (role me) "admin")
                    then stop (Fail (Operational (new_ErrorHandler
                           "You don't belong in this team to mark this test as applied."
                           401)))
                    else create
                end
              else create
          end
      end
  end.

Definition updateCompleted (db : Collections) (req : Request) : list Completed * Outcome :=
  let stop o := (completeds db, o) in
  let notFound := stop (Fail (Operational (new_ErrorHandler
                    "No Completed Test was found with the given id." 404))) in
  match param "id" (params req) with
  | None => notFound
  | Some id =>
      match Completed_findById (completeds db) id with
      | None => notFound
      | Some currentCompleted =>
          match user req with
          | None => stop (Fail (Raised (TypeError
                      "Cannot read property 'id' of undefined")))
          | Some me =>
              if (negb (String.eqb (c_user currentCompleted) (_id me))
                  && negb (String.eqb (role me) "admin"))%bool
              then stop (Fail (Operational (new_ErrorHandler
                     "You don't have permission to do this action." 401)))
              else
                (Completed_findByIdAndUpdate (completeds db) id (body req),
                 Json 200 None (DocumentReply (patch (body req) currentCompleted)))
          end
      end
  end.

Definition deleteCompleted (db : Collections) (req : Request) : list Completed * Outcome :=
  let stop o := (completeds db, o) in
  let notFound := stop (Fail (Operational (new_ErrorHandler
                    "No Completed Test was found with the given id." 404))) in
  match param "id" (params req) with
  | None => notFound
  | Some id =>
      match Completed_findById (completeds db) id with
      | None => notFound
      | Some currentCompleted =>
          match user req with
          | None => stop (Fail (Raised (TypeError
                      "Cannot read property 'id' of undefined")))
          | Some me =>
              if (negb (String.eqb (c_user currentCompleted) (_id me))
                  && negb (String.eqb (role me) "admin"))%bool
              then stop (Fail (Operational (new_ErrorHandler
                     "You don't have permission to do this action." 401)))
              else
                (Completed_findByIdAndDelete (completeds db) id,
                 Json 204 None NullData)
          end
      end
  end.

End CompletedController.

Definition getCompleted (db : Collections) (req : Request) : Outcome :=
  let notFound := Fail (Operational (new_ErrorHandler
                    "No Completed Test was found with the given id." 404)) in
  match param "id" (params req) with
  | None => notFound
  | Some id =>
      match Completed_findById (completeds db) id with
      | None => notFound
      | Some completed => Json 200 None (DocumentReply completed)
      end
  end.

(* ------------------------------------------------------------------ *)
(** ** Sample data

    Stand-ins for the outside primitives, a configuration, and a small
    collection, on which the handlers can be run. *)

Definition ends_with (suffix s : string) : bool :=
  String.eqb (substring (String.length s - String.length suffix)
                        (String.length suffix) s) suffix.

Definition lower_ascii (c : ascii) : ascii :=
  let n := nat_of_ascii c in
  if (Nat.leb 65 n && Nat.leb n 90)%bool then ascii_of_nat (n + 32) else c.

(** Lower case of the ASCII letters, which is what [toLowerCase] does to a
    string of ASCII characters. *)
Fixpoint ascii_toLowerCase (s : string) : string :=
  match s with
  | EmptyString => EmptyString
  | String c s' => String (lower_ascii c) (ascii_toLowerCase s')
  end.

Definition sample_primitives : Primitives :=
  {| sha256_hex := fun s => "sha256:" ++ s;
     bcrypt_hash := fun p s c => "$2a$" ++ decimal c ++ "$" ++ s ++ "/" ++ p;
     bcrypt_compare := fun p h => ends_with ("/" ++ p) h;
     isEmail := fun s => match index 0 "@" s with Some _ => true | None => false end;
     isMemberOfSameTeam := fun t u =>
       (String.eqb t "test-1" && String.eqb u "user-bob")%bool;
     toLowerCase := ascii_toLowerCase;
     Number_toString := decimal |}.

Definition production : Config :=
  {| NODE_ENV := "production"; JWT_SECRET_KEY := "s3cret";
     JWT_EXPIRATION_TIME := 90 * 24 * 60 * 60; JWT_COOKIE_EXPIRATION_TIME := 90 |}.

Definition development : Config :=
  {| NODE_ENV := "development"; JWT_SECRET_KEY := "s3cret";
     JWT_EXPIRATION_TIME := 90 * 24 * 60 * 60; JWT_COOKIE_EXPIRATION_TIME := 90 |}.

Definition at_time (t : Z) (delivers : bool) : Ambient :=
  {| now := t; random_hex := "5f2a9c"; salt := "Nq8sT1"; fresh_id := "fresh-id";
     mail_delivers := delivers |}.

Definition alice : User :=
  {| _id := "user-alice"; name := "Alice"; email := "alice@example.org";
     photo := "default.jpg"; role := "user";
     password := Some "$2a$12$Nq8sT1/old-password"; passwordConfirmation := None;
     passwordChangedAt := None; passwordResetToken := None;
     passwordResetExpiresIn := None; isActive := true; confirmed := true |}.

Definition bob : User :=
  {| _id := "user-bob"; name := "Bob"; email := "bob@example.org";
     photo := "default.jpg"; role := "user";
     password := Some "$2a$12$Nq8sT1/bobs-password"; passwordConfirmation := None;
     passwordChangedAt := None; passwordResetToken := None;
     passwordResetExpiresIn := None; isActive := true; confirmed := true |}.

Definition root : User :=
  {| _id := "user-root"; name := "Root"; email := "root@example.org";
     photo := "default.jpg"; role := "admin";
     password := Some "$2a$12$Nq8sT1/roots-password"; passwordConfirmation := None;
     passwordChangedAt := None; passwordResetToken := None;
     passwordResetExpiresIn := None; isActive := true; confirmed := true |}.

Definition carol_deleted : User :=
  {| _id := "user-carol"; name := "Carol"; email := "carol@example.org";
     photo := "default.jpg"; role := "user";
     password := Some "$2a$12$Nq8sT1/carols-password"; passwordConfirmation := None;
     passwordChangedAt := None; passwordResetToken := None;
     passwordResetExpiresIn := None; isActive := false; confirmed := true |}.

(** Two Completed records, one of Alice and one of Bob, for test [test-1]. *)
Definition alices_completed : Completed :=
  {| c_id := "completed-1"; c_test := "test-1"; c_user := "user-alice";
     c_completedAt := Some 1699990000000 |}.

Definition bobs_completed : Completed :=
  {| c_id := "completed-2"; c_test := "test-1"; c_user := "user-bob";
     c_completedAt := Some 1699995000000 |}.

Definition collections : Collections :=
  {| users := [alice; bob; root]; tests := ["test-1"];
     completeds := [alices_completed; bobs_completed] |}.

(** Alice with a reset pending: the hash of the token [91c0de], good until
    [1700000600000]. *)
Definition alice_pending : User :=
  with_passwordResetExpiresIn (Some 1700000600000)
    (with_passwordResetToken (Some "sha256:91c0de") alice).

(** A sign-up payload that also asks for the role [admin] and for being
    confirmed. *)
Definition carols_payload : JsObject :=
  [("name", VStr "Carol"); ("email", VStr "Carol@Example.org");
   ("password", VStr "carols-password");
   ("passwordConfirmation", VStr "carols-password");
   ("role", VStr "admin"); ("confirmed", VBool true)].

Definition request (b : JsObject) (ps : list (string * string)) (me : option User)
  : Request :=
  {| body := b; params := ps; params_tokenId := None; authorization := None;
     cookies_jwt := None;
     secure := false; protocol := "https"; host := "emploi.example.org"; user := me |}.

(** A request whose [Authorization] header is [Bearer <token>]. *)
Definition bearer (t : Jwt) : Request :=
  {| body := []; params := []; params_tokenId := None;
     authorization := Some [Plain "Bearer"; Signed t];
     cookies_jwt := None; secure := false; protocol := "https";
     host := "emploi.example.org"; user := None |}.

(* ------------------------------------------------------------------ *)
(** ** Vocabulary of the properties *)

(** What the rollback of [forgotPassword] leaves of a stored user: both reset
    fields unset. *)
Definition reset_cleared (u : User) : User :=
  with_passwordResetExpiresIn None (with_passwordResetToken None u).




(** A document loaded from the stored user [w] to which passwords and reset
    fields were assigned: it is not new, it has [w]'s id, and its
    [passwordChangedAt] is still the stored one. *)
Definition derived_from (w : User) (d : Doc) : Prop :=
  isNew d = false
  /\ _id (fields d) = _id w
  /\ passwordChangedAt (fields d) = passwordChangedAt w
  /\ isModified "passwordChangedAt" d = false.

(** A loaded document whose [passwordChangedAt] nobody assigned. *)
Definition unstamped (d : Doc) : Prop :=
  isNew d = false /\ isModified "passwordChangedAt" d = false.

(** From [us] to [us'] the ids stay and every [passwordChangedAt] either stays
    or becomes [t - 1000]. *)
Definition keeps_stamps (t : Z) (us us' : list User) : Prop :=
  map _id us' = map _id us
  /\ forall v', In v' us' ->
       exists v, In v us /\ _id v' = _id v
                 /\ (passwordChangedAt v' = passwordChangedAt v
                     \/ passwordChangedAt v' = Some (t - 1000)).

(** The user [uid] is stored and every stored record of that id carries a
    password-change stamp of [T - 1000] or later. *)
Definition stamped_since (T : Z) (uid : ObjectId) (us : list User) : Prop :=
  In uid (map _id us)
  /\ forall v, In v us -> _id v = uid ->
       exists c, passwordChangedAt v = Some c /\ T - 1000 <= c.

Section Vocabulary.
Context {P : Primitives}.

(** One request, served at [a] by a handler of the auth controller that
    writes to the user collection; a created user gets an id not in use. *)
Inductive served (cfg : Config) (us : list User) (a : Ambient) (req : Request)
  : list User -> Prop :=
| served_signUp :
    ~ In (fresh_id a) (map _id us) ->
    served cfg us a req (users_after (signUp cfg us a req))
| served_forgotPassword :
    served cfg us a req (users_after (forgotPassword us a req))
| served_resetPassword :
    served cfg us a req (users_after (resetPassword cfg us a req))
| served_updatePassword :
    served cfg us a req (users_after (updatePassword cfg us a req))
| served_confirmMail :
    served cfg us a req (users_after (confirmMail cfg us a req)).

(** What requests served from time [t] on, by a clock that does not run
    backwards, make of the collection [us]. *)
Inductive later (cfg : Config) : Z -> list User -> list User -> Prop :=
| later_now (t : Z) (us : list User) : later cfg t us us
| later_served (t : Z) (us : list User) (a : Ambient) (req : Request)
               (us' us'' : list User) :
    t <= now a -> served cfg us a req us' -> later cfg (now a) us' us'' ->
    later cfg t us us''.

(** No stored reset-token hash is the hash of [raw]. *)
Definition unknown_token (us : list User) (raw : string) : Prop :=
  forall u, In u us -> passwordResetToken u <> Some (sha256_hex raw).

(** Every user whose stored hash is the hash of [raw] has an expiry that is
    not in the future (or none). *)
Definition expired_token (us : list User) (a : Ambient) (raw : string) : Prop :=
  forall u, In u us -> passwordResetToken u = Some (sha256_hex raw) ->
            match passwordResetExpiresIn u with
            | Some e => e <= now a
            | None => True
            end.

End Vocabulary.

(** What no handler of the auth controller assigns on a stored user. *)
Definition identity_of (u : User)
  : ObjectId * (string * (string * (string * (string * bool)))) :=
  (_id u, (name u, (email u, (photo u, (role u, isActive u))))).

(** Every password-change stamp of the collection lies at or before [t]. *)
Definition stamps_in_past (t : Z) (us : list User) : Prop :=
  forall u c, In u us -> passwordChangedAt u = Some c -> c <= t.

(** The collections with the Completed records replaced. *)
Definition with_completeds (cs : list Completed) (db : Collections) : Collections :=
  {| users := users db; tests := tests db; completeds := cs |}.

Section FurtherVocabulary.
Context {P : Primitives}.

(** [us'] comes from [us] by saves of documents that were loaded, not
    created, all at [a]. *)
Inductive rewritten (a : Ambient) : list User -> list User -> Prop :=
| rewritten_none (us : list User) : rewritten a us us
| rewritten_save (us : list User) (d : Doc) (vbs : bool) (us' : list User) (d' : Doc)
                 (us'' : list User) :
    isNew d = false -> save us a d vbs = inr (us', d') ->
    rewritten a us' us'' -> rewritten a us us''.

End FurtherVocabulary.

(* ------------------------------------------------------------------ *)
(** * Properties *)

(** ** Lists, objects and stored records *)

Lemma find_none_iff {A} (f : A -> bool) (l : list A) :
  find f l = None <-> forall x, In x l -> f x = false.
Proof.
  split.
  - apply find_none.
  - induction l as [|x l IH]; intros H; simpl; [reflexivity|].
    rewrite (H x (or_introl eq_refl)). apply IH. intros y Hy. apply H. now right.
Qed.

Lemma find_exists {A} (f : A -> bool) (l : list A) (x : A) :
  In x l -> f x = true -> exists y, find f l = Some y.
Proof.
  intros Hin Hf. destruct (find f l) as [y|] eqn:E; [now exists y|].
  rewrite (find_none _ _ E _ Hin) in Hf. discriminate.
Qed.

Lemma find_snoc_none {A} (f : A -> bool) (l : list A) (x : A) :
  find f l = None -> find f (l ++ [x]) = if f x then Some x else None.
Proof.
  induction l as [|y l IH]; cbn [find app]; [reflexivity|].
  destruct (f y); [discriminate|exact IH].
Qed.

Lemma get_filterBody_allowed (k : string) (o : JsObject) (allowed : list string) :
  includes allowed k = true -> get k (filterBody o allowed) = get k o.
Proof.
  intros Hk. induction o as [|[k' v] o IH]; simpl; [reflexivity|].
  destruct (includes allowed k') eqn:E; simpl.
  - destruct (String.eqb k k'); [reflexivity|exact IH].
  - destruct (String.eqb_spec k k') as [->|_]; [congruence|exact IH].
Qed.

Lemma get_filterBody_dropped (k : string) (o : JsObject) (allowed : list string) :
  includes allowed k = false -> get k (filterBody o allowed) = None.
Proof.
  intros Hk. induction o as [|[k' v] o IH]; simpl; [reflexivity|].
  destruct (includes allowed k') eqn:E; simpl; [|exact IH].
  destruct (String.eqb_spec k k') as [->|_]; [congruence|exact IH].
Qed.

Lemma includes_In (roles : list string) (r : string) :
  includes roles r = true <-> In r roles.
Proof.
  unfold includes. rewrite existsb_exists. split.
  - intros [x [Hx E]]. apply String.eqb_eq in E. now subst.
  - intros H. exists r. split; [exact H|apply String.eqb_refl].
Qed.

(** A record loaded by a find query is an active record of the collection
    that the filter accepts. *)
Lemma findOne_some (us : list User) (f : User -> bool) (sel : bool) (d : Doc) :
  findOne us f sel = Some d ->
  exists u, In u us /\ f u = true /\ isActive u = true /\ d = loaded sel u.
Proof.
  unfold findOne. destruct (find (pre_find f) us) as [u|] eqn:E; simpl; [|discriminate].
  intros [= <-]. apply find_some in E. destruct E as [Hin Hf].
  unfold pre_find in Hf. apply andb_true_iff in Hf. destruct Hf as [Hf Ha].
  exists u. repeat split; try assumption. now destruct (isActive u).
Qed.

Lemma loaded_id (sel : bool) (u : User) : _id (fields (loaded sel u)) = _id u.
Proof. now destruct sel. Qed.

(* ------------------------------------------------------------------ *)
(** ** restrictTo *)

(** C9. For every list of allowed roles and every request that went through
    authentication, [restrictTo] hands on the 403 error exactly when the
    user's role is not among the allowed ones, and lets the request through
    otherwise; [restrictTo('admin')] stops a caller of role [user] and lets a
    caller of role [admin] through. *)
Theorem restrictTo_forbids_exactly_other_roles :
  forall (roles : list string) (req : Request) (u : User),
    user req = Some u ->
    let forbidden := Fail (Operational
                       (new_ErrorHandler "You're not allowed to access this route." 403)) in
    statusCode (new_ErrorHandler "You're not allowed to access this route." 403) = 403
    /\ (restrictTo roles req = forbidden <-> ~ In (role u) roles)
    /\ (restrictTo roles req = Continue req <-> In (role u) roles)
    /\ (role u = "user" -> restrictTo ["admin"] req = forbidden)
    /\ (role u = "admin" -> restrictTo ["admin"] req = Continue req).
Proof.
  intros roles req u Hu forbidden. unfold forbidden, restrictTo. rewrite Hu.
  split; [reflexivity|].
  split; [|split; [|split]].
  - destruct (includes roles (role u)) eqn:E; simpl.
    + apply includes_In in E. split; [discriminate|tauto].
    + split; [|reflexivity]. intros _ Hin. apply includes_In in Hin. congruence.
  - destruct (includes roles (role u)) eqn:E; simpl.
    + apply includes_In in E. tauto.
    + split; [discriminate|]. intros Hin. apply includes_In in Hin. congruence.
  - intros ->. reflexivity.
  - intros ->. reflexivity.
Qed.

Lemma restrictTo_forbids_exactly_other_roles_witness :
  restrictTo ["admin"] (request [] [] (Some alice))
  = Fail (Operational (new_ErrorHandler "You're not allowed to access this route." 403))
  /\ restrictTo ["admin"] (request [] [] (Some root)) = Continue (request [] [] (Some root)).
Proof.
  split.
  - apply (restrictTo_forbids_exactly_other_roles ["admin"]
             (request [] [] (Some alice)) alice eq_refl).
    reflexivity.
  - apply (restrictTo_forbids_exactly_other_roles ["admin"]
             (request [] [] (Some root)) root eq_refl).
    reflexivity.
Defined.

(* ------------------------------------------------------------------ *)
(** ** isAuthenticated and soft-deleted users *)

Lemma jwt_verify_ok (t : Jwt) (key : string) (n : Z) :
  signed_with t = key -> seconds n < exp (payload t) ->
  jwt_verify (Signed t) key n = inr (payload t).
Proof.
  intros Hk He. unfold jwt_verify. rewrite Hk, String.eqb_refl. simpl.
  destruct (Z.leb_spec (exp (payload t)) (seconds n)); [lia|reflexivity].
Qed.

Lemma findById_inactive (us : list User) (id : ObjectId) (sel : bool) :
  (forall u, In u us -> _id u = id -> isActive u = false) ->
  findById us id sel = None.
Proof.
  intros H. unfold findById, findOne.
  replace (find _ us) with (@None User); [reflexivity|].
  symmetry. apply find_none_iff. intros u Hu. unfold pre_find.
  destruct (String.eqb_spec (_id u) id) as [E|E]; [|reflexivity].
  rewrite (H u Hu E). reflexivity.
Qed.

(** C10. A request that carries a token signed with the server's key and not
    yet expired, for a user whose [isActive] flag is false, is refused by
    [isAuthenticated] with the 401 error: the pre-find hook keeps the inactive
    document out of [findById]'s answer. *)
Theorem isAuthenticated_rejects_inactive_user :
  forall (cfg : Config) (us : list User) (a : Ambient) (req : Request) (t : Jwt),
    tokenId_of req = Some (Signed t) ->
    signed_with t = JWT_SECRET_KEY cfg ->
    seconds (now a) < exp (payload t) ->
    (forall u, In u us -> _id u = jwt_id (payload t) -> isActive u = false) ->
    findById us (jwt_id (payload t)) false = None
    /\ isAuthenticated cfg us a req
       = Fail (Operational
                 (new_ErrorHandler "There's no account with the given email address." 401))
    /\ statusCode (new_ErrorHandler "There's no account with the given email address." 401)
       = 401.
Proof.
  intros cfg us a req t Htok Hkey Hexp Hinactive.
  pose proof (findById_inactive us _ false Hinactive) as Hnone.
  split; [exact Hnone|]. split; [|reflexivity].
  unfold isAuthenticated. rewrite Htok. simpl text_truthy. simpl negb. cbv iota.
  rewrite (jwt_verify_ok t _ (now a) Hkey Hexp), Hnone. reflexivity.
Qed.

Lemma isAuthenticated_rejects_inactive_user_witness :
  isAuthenticated production [alice; carol_deleted] (at_time 1700000050000 true)
    (bearer (getJwtToken production (at_time 1700000000000 true) "user-carol"))
  = Fail (Operational
            (new_ErrorHandler "There's no account with the given email address." 401)).
Proof.
  apply (isAuthenticated_rejects_inactive_user production [alice; carol_deleted]
           (at_time 1700000050000 true)
           (bearer (getJwtToken production (at_time 1700000000000 true) "user-carol"))
           (getJwtToken production (at_time 1700000000000 true) "user-carol")).
  - reflexivity.
  - reflexivity.
  - vm_compute. reflexivity.
  - intros u [<-|[<-|[]]]; [discriminate|reflexivity].
Defined.

(* ------------------------------------------------------------------ *)
(** ** Updating and deleting a Completed record *)

Section CompletedMutation.
Context {P : Primitives}.

(** C2, as the code has it. For an existing Completed record and an
    authenticated user, [updateCompleted] and [deleteCompleted] go through
    when the user owns the record or has role [admin]; for every other user
    both leave the collection as it is and hand on an operational error whose
    status code is 401. *)
Theorem completed_mutation_owner_or_admin :
  forall (db : Collections) (req : Request) (id : string) (c : Completed) (me : User),
    param "id" (params req) = Some id ->
    Completed_findById (completeds db) id = Some c ->
    user req = Some me ->
    let denied := Fail (Operational
                    (new_ErrorHandler "You don't have permission to do this action." 401)) in
    statusCode (new_ErrorHandler "You don't have permission to do this action." 401) = 401
    /\ (c_user c = _id me \/ role me = "admin" ->
        updateCompleted db req
        = (Completed_findByIdAndUpdate (completeds db) id (body req),
           Json 200 None (DocumentReply (patch (body req) c)))
        /\ deleteCompleted db req
           = (Completed_findByIdAndDelete (completeds db) id,
              Json 204 None NullData))
    /\ (c_user c <> _id me -> role me <> "admin" ->
        updateCompleted db req = (completeds db, denied)
        /\ deleteCompleted db req = (completeds db, denied)).
Proof.
  intros db req id c me Hid Hfind Hme denied.
  unfold denied, updateCompleted, deleteCompleted.
  rewrite Hid, Hfind, Hme. split; [reflexivity|]. split.
  - intros Hallowed.
    assert (E : (negb (String.eqb (c_user c) (_id me))
                 && negb (String.eqb (role me) "admin"))%bool = false).
    { destruct Hallowed as [H|H]; rewrite H, String.eqb_refl; simpl;
        [reflexivity|apply andb_false_r]. }
    rewrite E. split; reflexivity.
  - intros Hother Hrole.
    apply String.eqb_neq in Hother. apply String.eqb_neq in Hrole.
    rewrite Hother, Hrole. split; reflexivity.
Qed.

End CompletedMutation.

Section CompletedMutationSample.
#[local] Existing Instance sample_primitives.

Lemma completed_mutation_owner_or_admin_witness :
  (updateCompleted collections
     (request [("completedAt", VNum 1700000000000)] [("id", "completed-1")] (Some alice))
   = (Completed_findByIdAndUpdate (completeds collections) "completed-1"
        [("completedAt", VNum 1700000000000)],
      Json 200 None
        (DocumentReply (patch [("completedAt", VNum 1700000000000)] alices_completed))))
  /\ (deleteCompleted collections (request [] [("id", "completed-1")] (Some bob))
      = (completeds collections,
         Fail (Operational
                 (new_ErrorHandler "You don't have permission to do this action." 401)))).
Proof.
  split.
  - apply (completed_mutation_owner_or_admin collections
             (request [("completedAt", VNum 1700000000000)] [("id", "completed-1")]
                      (Some alice))
             "completed-1" alices_completed alice eq_refl eq_refl eq_refl).
    left. reflexivity.
  - apply (completed_mutation_owner_or_admin collections
             (request [] [("id", "completed-1")] (Some bob))
             "completed-1" alices_completed bob eq_refl eq_refl eq_refl); discriminate.
Defined.

(** C2, as stated, fails: Bob, who neither owns Alice's record nor is an
    admin, is refused with status code 401, not 403, by both handlers. *)
Lemma completed_mutation_refusal_is_401_not_403 :
  exists e : ErrorHandler,
    updateCompleted collections
      (request [("completedAt", VNum 1700000000000)] [("id", "completed-1")] (Some bob))
    = (completeds collections, Fail (Operational e))
    /\ deleteCompleted collections (request [] [("id", "completed-1")] (Some bob))
       = (completeds collections, Fail (Operational e))
    /\ statusCode e = 401
    /\ statusCode e <> 403.
Proof.
  exists (new_ErrorHandler "You don't have permission to do this action." 401).
  repeat split. discriminate.
Qed.

End CompletedMutationSample.

(* ------------------------------------------------------------------ *)
(** ** Creating a Completed record *)

(** C5, at the input where the code departs from the claim. Alice has role
    [user] and is not a member of the team of [test-1]; she posts to the route
    of Bob, who is.  The membership test is made for the user named in the
    route, so the record is created, although the message of the refusal
    ("You don't belong in this team ...") speaks of the caller. *)
Theorem addNewCompleted_checks_route_user_not_caller :
  let req := request [("test", VStr "test-1"); ("user", VStr "user-bob")]
                     [("userId", "user-bob")] (Some alice) in
  let created := {| c_id := "fresh-id"; c_test := "test-1"; c_user := "user-bob";
                    c_completedAt := None |} in
  role alice <> "admin"
  /\ @isMemberOfSameTeam sample_primitives "test-1" (_id alice) = false
  /\ @addNewCompleted sample_primitives collections (at_time 1700000000000 true) req
     = ((completeds collections ++ [created])%list,
        Json 201 None (DocumentReply created)).
Proof.
  repeat split. discriminate.
Qed.

(* ------------------------------------------------------------------ *)
(** ** resetPassword with an unknown or expired token *)

Section ResetPassword.
Context {P : Primitives}.
Variable cfg : Config.

Lemma reset_lookup_fails (us : list User) (a : Ambient) (raw : string) :
  unknown_token us raw \/ expired_token us a raw ->
  findOne us (reset_filter (sha256_hex raw) a) false = None.
Proof.
  intros H. unfold findOne.
  replace (find _ us) with (@None User); [reflexivity|].
  symmetry. apply find_none_iff. intros u Hu.
  unfold pre_find, reset_filter.
  destruct (passwordResetToken u) as [h|] eqn:Eh; simpl; [|reflexivity].
  destruct (String.eqb_spec h (sha256_hex raw)) as [->|_]; [|reflexivity].
  destruct H as [H|H].
  - exfalso. exact (H u Hu Eh).
  - specialize (H u Hu Eh). simpl.
    destruct (passwordResetExpiresIn u) as [e|]; [|reflexivity].
    destruct (Z.ltb_spec (now a) e); [lia|reflexivity].
Qed.

(** C4. When the raw token hashes to no stored reset-token hash, or the
    users it matches have an expiry that has passed, [resetPassword] hands
    on one and the same error, status code 400 with a message that says
    "invalid or expired", and leaves every user as it was. *)
Theorem resetPassword_unknown_or_expired :
  forall (us : list User) (a : Ambient) (req : Request) (raw : string),
    param "resetToken" (params req) = Some raw ->
    unknown_token us raw \/ expired_token us a raw ->
    let e := {| message := "Token is invalid or expired.";
                statusCode := 400;
                status := "failed";
                operationalError := true |} in
    resetPassword cfg us a req
    = {| users_after := us; mails := []; outcome := Fail (Operational e) |}
    /\ message e = "Token is " ++ "invalid or expired" ++ ".".
Proof.
  intros us a req raw Hraw H e. split; [|reflexivity].
  unfold resetPassword. rewrite Hraw, (reset_lookup_fails us a raw H). reflexivity.
Qed.

End ResetPassword.

Lemma resetPassword_unknown_or_expired_witness :
  @resetPassword sample_primitives production [alice_pending; bob]
    (at_time 1700000700000 true)
    (request [("password", VStr "new-password");
              ("passwordConfirmation", VStr "new-password")]
             [("resetToken", "91c0de")] None)
  = @resetPassword sample_primitives production [alice_pending; bob]
      (at_time 1700000100000 true)
      (request [("password", VStr "new-password");
                ("passwordConfirmation", VStr "new-password")]
               [("resetToken", "0000")] None).
Proof.
  transitivity
    {| users_after := [alice_pending; bob]; mails := [];
       outcome := Fail (Operational
                    {| message := "Token is invalid or expired.";
                       statusCode := 400; status := "failed";
                       operationalError := true |}) |}.
  - apply (@resetPassword_unknown_or_expired sample_primitives production
             [alice_pending; bob] (at_time 1700000700000 true)
             (request [("password", VStr "new-password");
                       ("passwordConfirmation", VStr "new-password")]
                      [("resetToken", "91c0de")] None)
             "91c0de" eq_refl).
    right. intros u [<-|[<-|[]]] Hh; simpl; [lia|exact I].
  - symmetry.
    apply (@resetPassword_unknown_or_expired sample_primitives production
             [alice_pending; bob] (at_time 1700000100000 true)
             (request [("password", VStr "new-password");
                       ("passwordConfirmation", VStr "new-password")]
                      [("resetToken", "0000")] None)
             "0000" eq_refl).
    left. intros u [<-|[<-|[]]]; discriminate.
Defined.

(* ------------------------------------------------------------------ *)
(** ** The reset token and its stored hash *)

Section ResetToken.
Context {P : Primitives}.
Variable cfg : Config.

(** A save that does not touch the password runs neither hook and sends the
    modified paths of an existing document. *)
Lemma save_existing_untouched_password (us : list User) (a : Ambient) (d : Doc) :
  isNew d = false -> isModified "password" d = false ->
  save us a d false = inr (store_update d us, saved d).
Proof.
  intros Hnew Hmod. unfold save, pre_save_hash, pre_save_changedAt.
  rewrite Hmod. simpl. rewrite Hmod. simpl. rewrite Hnew. reflexivity.
Qed.

(** What [forgotPassword] saves first: the loaded user with the hash and the
    expiry assigned. *)
Lemma store_update_reset_token (us : list User) (a : Ambient) (u : User) :
  In u us ->
  exists u',
    In u' (store_update (snd (createPasswordResetToken a (loaded false u))) us)
    /\ _id u' = _id u /\ isActive u' = isActive u
    /\ passwordResetToken u' = Some (sha256_hex (random_hex a))
    /\ passwordResetExpiresIn u' = Some (now a + 10 * 60 * 1000).
Proof.
  intros Hin.
  set (d := snd (createPasswordResetToken a (loaded false u))).
  exists (fold_left (write_path (fields d)) (modifiedPaths d) u).
  split.
  - unfold store_update.
    apply in_map_iff. exists u. split; [|exact Hin].
    replace (_id (fields d)) with (_id u) by reflexivity.
    rewrite String.eqb_refl. reflexivity.
  - subst d. destruct u as [i n e ph r pw pc ca rt re ac co].
    unfold createPasswordResetToken, set_passwordResetExpiresIn,
      set_passwordResetToken, touch, loaded. simpl.
    destruct rt as [h|]; destruct re as [x|]; simpl;
      try destruct (String.eqb_spec h (sha256_hex (random_hex a)));
      try destruct (Z.eqb_spec x (now a + 600000));
      subst; simpl; repeat split; reflexivity.
Qed.

Lemma createPasswordResetToken_untouched (a : Ambient) (u : User) :
  isNew (snd (createPasswordResetToken a (loaded false u))) = false
  /\ isModified "password" (snd (createPasswordResetToken a (loaded false u))) = false.
Proof.
  unfold createPasswordResetToken, set_passwordResetExpiresIn, set_passwordResetToken,
    touch, isModified. simpl.
  split; [reflexivity|].
  repeat match goal with
         | |- context [if ?b then _ else _] => destruct b; simpl
         end; reflexivity.
Qed.

(** C7. [createPasswordResetToken] returns the random token and assigns to
    the document the SHA-256 hash of that very token and an expiry ten
    minutes (600000 ms) after the call; so the filter of [resetPassword]'s
    lookup, given the hash of the returned token, accepts the document until
    the expiry and not after.  When [forgotPassword] finds the user and the
    mail goes out, the mail carries the returned token, the stored record
    carries its hash and the expiry, and the lookup of [resetPassword] finds
    a user for that token until the expiry. *)
Theorem reset_token_hash_round_trip :
  forall (a : Ambient) (d : Doc),
    let (resetToken, d') := createPasswordResetToken a d in
    resetToken = random_hex a
    /\ passwordResetToken (fields d') = Some (sha256_hex resetToken)
    /\ passwordResetExpiresIn (fields d') = Some (now a + 10 * 60 * 1000)
    /\ 10 * 60 * 1000 = 600000
    /\ (forall a', reset_filter (sha256_hex resetToken) a' (fields d')
                   = (now a' <? now a + 10 * 60 * 1000))
    /\ (forall (us : list User) (req : Request) (e : JsVal) (found : Doc),
          get "email" (body req) = Some e -> truthy (Some e) = true ->
          findByEmail us e = Some found ->
          mail_delivers a = true ->
          let res := forgotPassword us a req in
          (exists m, mails res = [m] /\ snd (mail_url m) = Plain resetToken)
          /\ (exists u', In u' (users_after res)
                /\ _id u' = _id (fields found)
                /\ passwordResetToken u' = Some (sha256_hex resetToken)
                /\ passwordResetExpiresIn u' = Some (now a + 10 * 60 * 1000))
          /\ (forall a', now a' < now a + 10 * 60 * 1000 ->
                findOne (users_after res) (reset_filter (sha256_hex resetToken) a') false
                <> None)).
Proof.
  intros a d. unfold createPasswordResetToken.
  split; [reflexivity|]. split; [reflexivity|]. split; [reflexivity|].
  split; [reflexivity|]. split.
  - intros a'. unfold reset_filter. simpl. rewrite String.eqb_refl. reflexivity.
  - intros us req e found He Htruthy Hfound Hmail.
    pose proof (findOne_some _ _ _ _ Hfound) as [u [Hin [_ [Hact Hd]]]].
    destruct (store_update_reset_token us a u Hin)
      as [u' [Hin' [Hid [Hact' [Htok Hexp]]]]].
    destruct (createPasswordResetToken_untouched a u) as [Hnew Hmod].
    assert (Hres : users_after (forgotPassword us a req)
                   = store_update (snd (createPasswordResetToken a (loaded false u))) us
                   /\ exists m, mails (forgotPassword us a req) = [m]
                                /\ snd (mail_url m) = Plain (random_hex a)).
    { unfold forgotPassword. rewrite He, Htruthy, Hfound, Hd. simpl negb. cbv iota.
      destruct (createPasswordResetToken a (loaded false u)) as [tok d1] eqn:E.
      simpl snd in *.
      rewrite (save_existing_untouched_password us a d1 Hnew Hmod), Hmail.
      simpl. split; [reflexivity|]. eexists. split; [reflexivity|].
      unfold createPasswordResetToken in E. now inversion E. }
    destruct Hres as [Hus Hm]. rewrite Hus.
    split; [exact Hm|]. split.
    + exists u'. rewrite Hd, loaded_id. auto.
    + intros a' Hlt.
      destruct (find_exists
                  (pre_find (reset_filter (sha256_hex (random_hex a)) a')) _ u' Hin')
        as [y Hy].
      * unfold pre_find, reset_filter.
        rewrite Htok, Hexp, Hact', Hact. simpl. rewrite String.eqb_refl. simpl.
        destruct (Z.ltb_spec (now a') (now a + 600000)); [reflexivity|lia].
      * unfold findOne. rewrite Hy. discriminate.
Qed.

End ResetToken.

Lemma reset_token_hash_round_trip_witness :
  exists m : Mail,
    mails (@forgotPassword sample_primitives [alice; bob] (at_time 1700000000000 true)
             (request [("email", VStr "Alice@Example.org")] [] None)) = [m]
    /\ snd (mail_url m) = Plain "5f2a9c".
Proof.
  pose proof (@reset_token_hash_round_trip sample_primitives
                (at_time 1700000000000 true) (loaded false alice)) as H.
  cbv beta iota delta [createPasswordResetToken] in H.
  destruct H as (_ & _ & _ & _ & _ & H).
  apply (H [alice; bob] (request [("email", VStr "Alice@Example.org")] [] None)
           (VStr "Alice@Example.org") (loaded false alice) eq_refl eq_refl eq_refl eq_refl).
Defined.

(* ------------------------------------------------------------------ *)
(** ** forgotPassword when the mail cannot be delivered *)

Section ForgotPassword.
Context {P : Primitives}.

(** The two writes of a failed [forgotPassword], seen on one stored user. *)
Lemma rollback_on_record (a : Ambient) (u v : User) :
  let d1 := snd (createPasswordResetToken a (loaded false u)) in
  let d4 := set_passwordResetExpiresIn None (set_passwordResetToken None (saved d1)) in
  (let v1 := if String.eqb (_id v) (_id (fields d1))
             then fold_left (write_path (fields d1)) (modifiedPaths d1) v else v in
   if String.eqb (_id v1) (_id (fields d4))
   then fold_left (write_path (fields d4)) (modifiedPaths d4) v1 else v1)
  = if String.eqb (_id v) (_id u) then reset_cleared v else v.
Proof.
  destruct u as [i n e ph r pw pc ca rt re ac co].
  destruct v as [i' n' e' ph' r' pw' pc' ca' rt' re' ac' co'].
  unfold createPasswordResetToken, set_passwordResetExpiresIn, set_passwordResetToken,
    touch, saved, loaded, reset_cleared. simpl.
  destruct (String.eqb i' i) eqn:Ei; simpl.
  - destruct rt as [h|]; destruct re as [x|]; simpl;
      try destruct (String.eqb h (sha256_hex (random_hex a)));
      try destruct (x =? now a + 600000);
      simpl; rewrite ?Ei; reflexivity.
  - rewrite Ei. reflexivity.
Qed.

Lemma rollback_untouched (a : Ambient) (u : User) :
  let d1 := snd (createPasswordResetToken a (loaded false u)) in
  let d4 := set_passwordResetExpiresIn None (set_passwordResetToken None (saved d1)) in
  isNew d4 = false /\ isModified "password" d4 = false.
Proof.
  unfold createPasswordResetToken, set_passwordResetExpiresIn, set_passwordResetToken,
    touch, saved, isModified. simpl. split; reflexivity.
Qed.

Lemma reset_cleared_fixed (u : User) :
  passwordResetToken u = None -> passwordResetExpiresIn u = None -> reset_cleared u = u.
Proof. destruct u; simpl; intros -> ->; reflexivity. Qed.

(** C3, as the code has it. When [forgotPassword] has found the user and
    saved the reset token, and the mail is not delivered, it unsets
    [passwordResetToken] and [passwordResetExpiresIn] on the stored user,
    changes nothing else, sends nothing and hands on the 500 error.  The
    collection is as before the call when the user had no reset pending. *)
Theorem forgotPassword_mail_failure_clears_reset :
  forall (us : list User) (a : Ambient) (req : Request) (e : JsVal) (found : Doc),
    get "email" (body req) = Some e -> truthy (Some e) = true ->
    findByEmail us e = Some found ->
    mail_delivers a = false ->
    let res := forgotPassword us a req in
    let failed := new_ErrorHandler
                    "There's some problem with sending email. Please try again later."
                    500 in
    outcome res = Fail (Operational failed)
    /\ statusCode failed = 500
    /\ mails res = []
    /\ users_after res
       = map (fun u => if String.eqb (_id u) (_id (fields found))
                       then reset_cleared u else u) us
    /\ (forall u, In u (users_after res) -> _id u = _id (fields found) ->
                  passwordResetToken u = None /\ passwordResetExpiresIn u = None)
    /\ ((forall u, In u us -> _id u = _id (fields found) ->
                   passwordResetToken u = None /\ passwordResetExpiresIn u = None) ->
        users_after res = us).
Proof.
  intros us a req e found He Htruthy Hfound Hmail res failed.
  pose proof (findOne_some _ _ _ _ Hfound) as [u [Hin [_ [Hact Hd]]]].
  destruct (createPasswordResetToken_untouched a u) as [Hnew Hmod].
  destruct (rollback_untouched a u) as [Hnew' Hmod'].
  assert (Hres : outcome res = Fail (Operational failed) /\ mails res = []
                 /\ users_after res
                    = map (fun u0 => if String.eqb (_id u0) (_id (fields found))
                                     then reset_cleared u0 else u0) us).
  { subst res failed. unfold forgotPassword.
    rewrite He, Htruthy, Hfound, Hd. simpl negb. cbv iota.
    destruct (createPasswordResetToken a (loaded false u)) as [tok d1] eqn:E.
    simpl snd in *.
    rewrite (save_existing_untouched_password us a d1 Hnew Hmod), Hmail.
    rewrite (save_existing_untouched_password _ a _ Hnew' Hmod').
    simpl. split; [reflexivity|]. split; [reflexivity|].
    unfold store_update. rewrite map_map. apply map_ext. intros v.
    pose proof (rollback_on_record a u v) as R.
    cbv zeta in R. rewrite E in R. simpl snd in R. exact R. }
  destruct Hres as [Hout [Hmails Hus]].
  split; [exact Hout|]. split; [reflexivity|]. split; [exact Hmails|].
  split; [exact Hus|]. split.
  - intros v Hv Hid. rewrite Hus in Hv. apply in_map_iff in Hv.
    destruct Hv as [w [Hw _]].
    destruct (String.eqb_spec (_id w) (_id (fields found))) as [Ew|Ew].
    + subst v. destruct w; split; reflexivity.
    + subst v. contradiction.
  - intros Hnone. rewrite Hus. rewrite <- (map_id us) at 2.
    apply map_ext_in. intros v Hv.
    destruct (String.eqb_spec (_id v) (_id (fields found))) as [Ev|Ev]; [|reflexivity].
    destruct (Hnone v Hv Ev). now apply reset_cleared_fixed.
Qed.

End ForgotPassword.

Lemma forgotPassword_mail_failure_clears_reset_witness :
  users_after (@forgotPassword sample_primitives [alice; bob]
                 (at_time 1700000000000 false)
                 (request [("email", VStr "alice@example.org")] [] None))
  = [alice; bob].
Proof.
  apply (@forgotPassword_mail_failure_clears_reset sample_primitives [alice; bob]
           (at_time 1700000000000 false)
           (request [("email", VStr "alice@example.org")] [] None)
           (VStr "alice@example.org") (loaded false alice)
           eq_refl eq_refl eq_refl eq_refl).
  intros u [<-|[<-|[]]] _; split; reflexivity.
Defined.

(** C3, as stated, fails on "restoring the pre-call reset state": Alice has a
    reset pending that is still good; she asks again and the mail fails; her
    earlier token is gone with the new one. *)
Lemma forgotPassword_rollback_drops_pending_reset :
  let before := [alice_pending; bob] in
  let res := @forgotPassword sample_primitives before (at_time 1700000100000 false)
               (request [("email", VStr "alice@example.org")] [] None) in
  1700000100000 < 1700000600000
  /\ passwordResetToken alice_pending = Some "sha256:91c0de"
  /\ passwordResetExpiresIn alice_pending = Some 1700000600000
  /\ users_after res = [alice; bob]
  /\ users_after res <> before.
Proof.
  repeat split. discriminate.
Qed.

(* ------------------------------------------------------------------ *)
(** ** signUp: what is created and what is answered *)

Section SignUp.
Context {P : Primitives}.
Variable cfg : Config.


Lemma new_User_some (a : Ambient) (b : JsObject) (d0 : Doc) :
  new_User a b = Some d0 ->
  isNew d0 = true
  /\ modifiedPaths d0 = map fst b
  /\ _id (fields d0) = fresh_id a
  /\ role (fields d0) = match get "role" b with Some v => castString v | None => "user" end
  /\ (get "confirmed" b = None -> confirmed (fields d0) = false)
  /\ password (fields d0) = option_map castString (get "password" b).
Proof.
  unfold new_User.
  destruct (get "confirmed" b) as [v|] eqn:Ec.
  - destruct (castBoolean v); [|discriminate].
    intros [= <-]. simpl. repeat split. discriminate.
  - intros [= <-]. simpl. repeat split.
Qed.

(** A successful [User.create] appends one record: the new document, its
    password replaced by the hash and its confirmation dropped. *)
Lemma User_create_inr (us : list User) (a : Ambient) (b : JsObject)
      (us' : list User) (d : Doc) :
  User_create us a b = inr (us', d) ->
  exists d0,
    new_User a b = Some d0
    /\ us' = (us ++ [fields d])%list
    /\ ((isModified "password" d0 = false /\ fields d = fields d0)
        \/ (exists p, isModified "password" d0 = true
                      /\ password (fields d0) = Some p
                      /\ fields d
                         = with_passwordConfirmation None
                             (with_password (Some (bcrypt_hash p (salt a) 12))
                                            (fields d0)))).
Proof.
  unfold User_create. destruct (new_User a b) as [d0|] eqn:E0; [|discriminate].
  destruct (new_User_some a b d0 E0) as [Hnew _].
  unfold save. destruct (validate d0); [|discriminate].
  unfold pre_save_hash.
  destruct (isModified "password" d0) eqn:Em; simpl.
  - destruct (password (fields d0)) as [p|] eqn:Ep; [|discriminate].
    unfold pre_save_changedAt, set_passwordConfirmation, set_passwordChangedAt, touch.
    simpl. rewrite Hnew, orb_true_r. simpl.
    unfold store_insert. simpl.
    destruct (existsb _ us); [discriminate|].
    intros [= <- <-]. exists d0. split; [reflexivity|]. split; [reflexivity|].
    right. exists p. auto.
  - unfold pre_save_changedAt. rewrite Em. simpl. rewrite Hnew.
    unfold store_insert.
    destruct (existsb _ us); [discriminate|].
    intros [= <- <-]. exists d0. split; [reflexivity|]. split; [reflexivity|].
    left. auto.
Qed.





End SignUp.

Section SignUpSample.
#[local] Existing Instance sample_primitives.


End SignUpSample.

(* ------------------------------------------------------------------ *)
(** ** signUp: the stored password *)

Section SignUpPassword.
Context {P : Primitives}.
Variable cfg : Config.

Lemma signUp_users_after (us : list User) (a : Ambient) (req : Request) :
  (exists e, outcome (signUp cfg us a req) = Fail (Raised e))
  \/ (exists b us' d,
        (get "password" b = get "password" (body req))
        /\ User_create us a b = inr (us', d)
        /\ users_after (signUp cfg us a req) = us').
Proof.
  unfold signUp.
  destruct (String.eqb (NODE_ENV cfg) "production") eqn:Eenv.
  - destruct (User_create us a _) as [e|[us' d]] eqn:Ec.
    + left. exists e. reflexivity.
    + right. eexists _, us', d. split; [|split; [exact Ec|]].
      * apply get_filterBody_allowed. reflexivity.
      * unfold sendConfirmationMail. destruct (mail_delivers a); reflexivity.
  - destruct (User_create us a _) as [e|[us' d]] eqn:Ec.
    + left. exists e. reflexivity.
    + right. eexists _, us', d. split; [|split; [exact Ec|reflexivity]].
      apply get_filterBody_allowed. reflexivity.
Qed.




End SignUpPassword.

Section SignUpPasswordSample.
#[local] Existing Instance sample_primitives.


End SignUpPasswordSample.

(* ------------------------------------------------------------------ *)
(** ** Password changes and the tokens issued before them *)

Lemma NoDup_map_inj {A B} (f : A -> B) (l : list A) (x y : A) :
  NoDup (map f l) -> In x l -> In y l -> f x = f y -> x = y.
Proof.
  induction l as [|z l IH]; simpl; intros Hnd Hx Hy E; [contradiction|].
  inversion Hnd as [|? ? Hnotin Hnd']; subst.
  destruct Hx as [->|Hx], Hy as [->|Hy].
  - reflexivity.
  - exfalso. apply Hnotin. rewrite E. now apply in_map.
  - exfalso. apply Hnotin. rewrite <- E. now apply in_map.
  - now apply IH.
Qed.

Section StoredPaths.
Context {P : Primitives}.

Lemma write_path_spec (src v : User) (p : string) :
  _id (write_path src v p) = _id v
  /\ isActive (write_path src v p) = isActive v
  /\ password (write_path src v p)
     = (if String.eqb "password" p then password src else password v)
  /\ passwordChangedAt (write_path src v p)
     = (if String.eqb "passwordChangedAt" p then passwordChangedAt src
        else passwordChangedAt v).
Proof.
  unfold write_path.
  rewrite (String.eqb_sym "password" p), (String.eqb_sym "passwordChangedAt" p).
  destruct (String.eqb_spec p "password") as [->|_]; [simpl; auto|].
  destruct (String.eqb_spec p "passwordConfirmation") as [->|_]; [simpl; auto|].
  destruct (String.eqb_spec p "passwordChangedAt") as [->|_]; [simpl; auto|].
  destruct (String.eqb_spec p "passwordResetToken") as [->|_]; [simpl; auto|].
  destruct (String.eqb_spec p "passwordResetExpiresIn") as [->|_]; [simpl; auto|].
  destruct (String.eqb_spec p "confirmed") as [->|_]; simpl; auto.
Qed.

Lemma fold_write_path_spec (src : User) (paths : list string) :
  forall v : User,
    let r := fold_left (write_path src) paths v in
    _id r = _id v
    /\ isActive r = isActive v
    /\ password r
       = (if existsb (String.eqb "password") paths then password src else password v)
    /\ passwordChangedAt r
       = (if existsb (String.eqb "passwordChangedAt") paths then passwordChangedAt src
          else passwordChangedAt v).
Proof.
  induction paths as [|p paths IH]; intros v; cbn [fold_left existsb]; [auto|].
  destruct (IH (write_path src v p)) as [Hid [Hact [Hpw Hca]]].
  destruct (write_path_spec src v p) as [Hid' [Hact' [Hpw' Hca']]].
  rewrite Hid, Hact, Hpw, Hca, Hid', Hact', Hpw', Hca'.
  repeat split.
  - destruct (String.eqb "password" p), (existsb (String.eqb "password") paths);
      reflexivity.
  - destruct (String.eqb "passwordChangedAt" p),
             (existsb (String.eqb "passwordChangedAt") paths); reflexivity.
Qed.

(** With unique ids, the stored user [u] has one image in the updated
    collection. *)
Lemma store_update_unique (d : Doc) (us : list User) (u v : User) :
  NoDup (map _id us) -> In u us -> In v (store_update d us) -> _id v = _id u ->
  v = if String.eqb (_id u) (_id (fields d))
      then fold_left (write_path (fields d)) (modifiedPaths d) u else u.
Proof.
  intros Hnd Hu Hv Hid. unfold store_update in Hv. apply in_map_iff in Hv.
  destruct Hv as [v0 [Hv0 Hin0]].
  assert (E : _id v0 = _id u).
  { rewrite <- Hid, <- Hv0. destruct (String.eqb (_id v0) (_id (fields d))).
    - symmetry. apply (fold_write_path_spec (fields d) (modifiedPaths d) v0).
    - reflexivity. }
  rewrite (NoDup_map_inj _id us v0 u Hnd Hin0 Hu E) in Hv0. now symmetry.
Qed.

Lemma derived_from_loaded (sel : bool) (w : User) : derived_from w (loaded sel w).
Proof. destruct sel; repeat split. Qed.

Lemma derived_from_touch (w : User) (d : Doc) (path : string) (c : bool) (u : User) :
  derived_from w d ->
  String.eqb "passwordChangedAt" path = false ->
  _id u = _id (fields d) -> passwordChangedAt u = passwordChangedAt (fields d) ->
  derived_from w (touch path c d u).
Proof.
  intros [Hnew [Hid [Hca Hmod]]] Hpath Hidu Hcau.
  unfold derived_from, touch, isModified in *. cbn [fields isNew modifiedPaths].
  repeat split; try congruence.
  destruct c; cbn [existsb]; [rewrite Hpath|]; exact Hmod.
Qed.

Lemma derived_from_set_password (w : User) (d : Doc) (v : option string) :
  derived_from w d -> derived_from w (set_password v d).
Proof. intros H. now apply derived_from_touch. Qed.

Lemma derived_from_set_passwordConfirmation (w : User) (d : Doc) (v : option string) :
  derived_from w d -> derived_from w (set_passwordConfirmation v d).
Proof. intros H. now apply derived_from_touch. Qed.

Lemma derived_from_set_passwordResetToken (w : User) (d : Doc) (v : option string) :
  derived_from w d -> derived_from w (set_passwordResetToken v d).
Proof. intros H. now apply derived_from_touch. Qed.

Lemma derived_from_set_passwordResetExpiresIn (w : User) (d : Doc) (v : option Z) :
  derived_from w d -> derived_from w (set_passwordResetExpiresIn v d).
Proof. intros H. now apply derived_from_touch. Qed.

(** What a save of an existing document sends to the collection. *)
Lemma save_existing_cases (us : list User) (a : Ambient) (d : Doc) (vbs : bool)
      (us' : list User) (d' : Doc) :
  isNew d = false -> save us a d vbs = inr (us', d') ->
  (isModified "password" d = false /\ us' = store_update d us)
  \/ (exists d1,
        isModified "password" d = true
        /\ _id (fields d1) = _id (fields d)
        /\ passwordChangedAt (fields d1) = passwordChangedAt (fields d)
        /\ isModified "passwordChangedAt" d1 = isModified "passwordChangedAt" d
        /\ us' = store_update (set_passwordChangedAt (Some (now a - 1000)) d1) us).
Proof.
  intros Hnew. unfold save.
  destruct (if vbs then validate d else []); [|discriminate].
  unfold pre_save_hash.
  destruct (isModified "password" d) eqn:Em; simpl.
  - destruct (password (fields d)) as [p|]; [|discriminate].
    set (d1 := set_passwordConfirmation None
                 (touch "password" true d
                    (with_password (Some (bcrypt_hash p (salt a) 12)) (fields d)))).
    assert (Hm1 : isModified "password" d1 = true).
    { unfold d1, set_passwordConfirmation, touch, isModified. simpl.
      destruct (negb _); reflexivity. }
    assert (Hn1 : isNew d1 = false) by exact Hnew.
    unfold pre_save_changedAt. rewrite Hm1, Hn1. simpl.
    rewrite Hnew.
    intros H. inversion H; subst. right. exists d1. repeat split.
    unfold d1, set_passwordConfirmation, touch, isModified. simpl.
    destruct (negb _); reflexivity.
  - unfold pre_save_changedAt. rewrite Em. simpl. rewrite Hnew.
    intros H. inversion H; subst. left. auto.
Qed.

(** A save that changed the stored password of [u] stamped every stored
    record of [u]'s id with the time of the save less one second. *)
Lemma save_changed_password (us : list User) (a : Ambient) (w : User) (d : Doc)
      (vbs : bool) (us' : list User) (d' : Doc) (u u' : User) :
  NoDup (map _id us) -> In w us -> derived_from w d ->
  save us a d vbs = inr (us', d') ->
  In u us -> In u' us' -> _id u' = _id u -> password u' <> password u ->
  forall v, In v us' -> _id v = _id u -> passwordChangedAt v = Some (now a - 1000).
Proof.
  intros Hnd Hw [Hnew [Hidw [Hcaw Hmodw]]] Hsave Hu Hu' Hid Hpw v Hv Hidv.
  destruct (save_existing_cases us a d vbs us' d' Hnew Hsave)
    as [[Hm ->]|[d1 [Hm [Hid1 [Hca1 [Hmod1 ->]]]]]].
  - exfalso. apply Hpw.
    rewrite (store_update_unique d us u u' Hnd Hu Hu' Hid).
    destruct (String.eqb (_id u) (_id (fields d))); [|reflexivity].
    destruct (fold_write_path_spec (fields d) (modifiedPaths d) u) as [_ [_ [Hp _]]].
    rewrite Hp. unfold isModified in Hm. now rewrite Hm.
  - set (d2 := set_passwordChangedAt (Some (now a - 1000)) d1) in *.
    rewrite (store_update_unique d2 us u v Hnd Hu Hv Hidv).
    pose proof (store_update_unique d2 us u u' Hnd Hu Hu' Hid) as Eu'.
    destruct (String.eqb_spec (_id u) (_id (fields d2))) as [E|E].
    + destruct (fold_write_path_spec (fields d2) (modifiedPaths d2) u) as [_ [_ [_ Hc]]].
      rewrite Hc.
      assert (Euw : u = w).
      { apply (NoDup_map_inj _id us u w Hnd Hu Hw). rewrite E.
        unfold d2. simpl. congruence. }
      unfold d2, set_passwordChangedAt, touch.
      cbn [fields modifiedPaths passwordChangedAt with_passwordChangedAt].
      destruct (option_eqb Z.eqb (passwordChangedAt (fields d1)) (Some (now a - 1000)))
        eqn:Ec; cbn [negb].
      * fold (isModified "passwordChangedAt" d1). rewrite Hmod1, Hmodw.
        rewrite Euw, <- Hcaw, <- Hca1.
        destruct (passwordChangedAt (fields d1)) as [x|]; simpl in Ec; [|discriminate].
        apply Z.eqb_eq in Ec. now subst.
      * cbn [existsb]. rewrite String.eqb_refl. reflexivity.
    + exfalso. apply Hpw. now rewrite Eu'.
Qed.

End StoredPaths.

Lemma issued_two_seconds_before (T t : Z) :
  0 <= t -> t + 2000 <= T -> (seconds t <? Z.quot (T - 1000) 1000) = true.
Proof.
  intros Ht Hlt. apply Z.ltb_lt. unfold seconds.
  rewrite Z.quot_div_nonneg by lia.
  replace (T - 1000) with ((T - 2000) + 1 * 1000) by lia.
  rewrite Z.div_add by lia.
  pose proof (Z.div_le_mono t (T - 2000) 1000 ltac:(lia) ltac:(lia)). lia.
Qed.

Lemma issued_at_or_after (T t : Z) :
  0 <= t -> T <= t -> (seconds t <? Z.quot (T - 1000) 1000) = false.
Proof.
  intros Ht Hle. apply Z.ltb_ge. unfold seconds.
  destruct (Z.le_gt_cases 0 (T - 1000)) as [Hpos|Hneg].
  - rewrite Z.quot_div_nonneg by lia. apply Z.div_le_mono; lia.
  - pose proof (Z.quot_opp_l (1000 - T) 1000 ltac:(lia)) as Hq.
    replace (- (1000 - T)) with (T - 1000) in Hq by lia.
    pose proof (Z.quot_pos (1000 - T) 1000 ltac:(lia) ltac:(lia)).
    pose proof (Z.div_pos t 1000 Ht ltac:(lia)). lia.
Qed.

Section PasswordWriters.
Context {P : Primitives}.
Variable cfg : Config.

Lemma updatePassword_cases (us : list User) (a : Ambient) (req : Request) :
  users_after (updatePassword cfg us a req) = us
  \/ exists w d d',
       In w us /\ derived_from w d
       /\ save us a d true = inr (users_after (updatePassword cfg us a req), d').
Proof.
  unfold updatePassword.
  destruct (user req) as [me|]; [|now left].
  destruct (findById us (_id me) true) as [d|] eqn:Ef; [|now left].
  destruct (get "currentPassword" (body req)) as [[cur| |]|];
    destruct (password (fields d)) as [stored|]; try (now left).
  destruct (negb (isPasswordCorrect cur stored)); [now left|].
  destruct (save us a _ true) as [exn|[us' d3]] eqn:Es; [now left|].
  right. apply findOne_some in Ef. destruct Ef as [w [Hw [_ [_ ->]]]].
  eexists w, _, d3. split; [exact Hw|]. split; [|exact Es].
  apply derived_from_set_passwordConfirmation, derived_from_set_password,
    derived_from_loaded.
Qed.

Lemma resetPassword_cases (us : list User) (a : Ambient) (req : Request) :
  users_after (resetPassword cfg us a req) = us
  \/ exists w d d',
       In w us /\ derived_from w d
       /\ save us a d true = inr (users_after (resetPassword cfg us a req), d').
Proof.
  unfold resetPassword.
  destruct (param "resetToken" (params req)) as [raw|]; [|now left].
  destruct (findOne us _ false) as [d|] eqn:Ef; [|now left].
  destruct (save us a _ true) as [exn|[us' d5]] eqn:Es; [now left|].
  right. apply findOne_some in Ef. destruct Ef as [w [Hw [_ [_ ->]]]].
  eexists w, _, d5. split; [exact Hw|]. split; [|exact Es].
  apply derived_from_set_passwordResetExpiresIn, derived_from_set_passwordResetToken,
    derived_from_set_passwordConfirmation, derived_from_set_password,
    derived_from_loaded.
Qed.

End PasswordWriters.

Section Stamps.
Context {P : Primitives}.
Variable cfg : Config.

Lemma keeps_stamps_refl (t : Z) (us : list User) : keeps_stamps t us us.
Proof. split; [reflexivity|]. intros v Hv. exists v. auto. Qed.

Lemma keeps_stamps_trans (t : Z) (us us' us'' : list User) :
  keeps_stamps t us us' -> keeps_stamps t us' us'' -> keeps_stamps t us us''.
Proof.
  intros [Hids H1] [Hids' H2]. split; [congruence|].
  intros v'' Hv''. destruct (H2 v'' Hv'') as [v' [Hv' [E' Hc']]].
  destruct (H1 v' Hv') as [v [Hv [E Hc]]].
  exists v. split; [exact Hv|]. split; [congruence|].
  destruct Hc' as [Hc'|Hc']; [|now right].
  destruct Hc as [Hc|Hc]; [left|right]; congruence.
Qed.

Lemma store_update_keeps_stamps (t : Z) (d : Doc) (us : list User) :
  isModified "passwordChangedAt" d = false
  \/ passwordChangedAt (fields d) = Some (t - 1000) ->
  keeps_stamps t us (store_update d us).
Proof.
  intros Hd. unfold store_update. split.
  - rewrite map_map. apply map_ext. intros v.
    destruct (String.eqb (_id v) (_id (fields d))); [|reflexivity].
    apply (fold_write_path_spec (fields d) (modifiedPaths d) v).
  - intros v' Hv'. apply in_map_iff in Hv'. destruct Hv' as [v [<- Hv]].
    exists v. split; [exact Hv|].
    destruct (String.eqb (_id v) (_id (fields d))); [|auto].
    destruct (fold_write_path_spec (fields d) (modifiedPaths d) v) as [Hid [_ [_ Hc]]].
    split; [exact Hid|]. rewrite Hc.
    fold (isModified "passwordChangedAt" d).
    destruct (isModified "passwordChangedAt" d); [|now left].
    destruct Hd as [Hd|Hd]; [discriminate|now right].
Qed.

Lemma save_result_unstamped (us : list User) (a : Ambient) (d : Doc) (vbs : bool)
      (us' : list User) (d' : Doc) :
  save us a d vbs = inr (us', d') -> isNew d' = false /\ modifiedPaths d' = [].
Proof.
  unfold save. destruct (if vbs then validate d else []); [|discriminate].
  destruct (pre_save_hash a d) as [e|d1]; [discriminate|].
  destruct (isNew (pre_save_changedAt a d1)).
  - destruct (store_insert _ us); [discriminate|].
    intros H. inversion H. split; reflexivity.
  - intros H. inversion H. split; reflexivity.
Qed.

Lemma save_existing_keeps_stamps (us : list User) (a : Ambient) (d : Doc) (vbs : bool)
      (us' : list User) (d' : Doc) :
  unstamped d -> save us a d vbs = inr (us', d') -> keeps_stamps (now a) us us'.
Proof.
  intros [Hnew Hmod] Hsave.
  destruct (save_existing_cases us a d vbs us' d' Hnew Hsave)
    as [[_ ->]|[d1 [_ [_ [_ [_ ->]]]]]].
  - apply store_update_keeps_stamps. now left.
  - apply store_update_keeps_stamps. right. reflexivity.
Qed.

Lemma unstamped_touch (d : Doc) (path : string) (c : bool) (u : User) :
  unstamped d -> String.eqb "passwordChangedAt" path = false ->
  unstamped (touch path c d u).
Proof.
  intros [Hnew Hmod] Hpath. unfold unstamped, touch, isModified in *.
  cbn [fields isNew modifiedPaths]. split; [exact Hnew|].
  destruct c; cbn [existsb]; [rewrite Hpath|]; exact Hmod.
Qed.

Lemma unstamped_loaded (sel : bool) (u : User) : unstamped (loaded sel u).
Proof. split; reflexivity. Qed.

Lemma unstamped_derived (w : User) (d : Doc) : derived_from w d -> unstamped d.
Proof. intros [Hnew [_ [_ Hmod]]]. now split. Qed.

Lemma unstamped_saved (us : list User) (a : Ambient) (d : Doc) (vbs : bool)
      (us' : list User) (d' : Doc) :
  save us a d vbs = inr (us', d') -> unstamped d'.
Proof.
  intros H. destruct (save_result_unstamped us a d vbs us' d' H) as [Hnew Hpaths].
  split; [exact Hnew|]. unfold isModified. now rewrite Hpaths.
Qed.

Lemma forgotPassword_keeps_stamps (us : list User) (a : Ambient) (req : Request) :
  keeps_stamps (now a) us (users_after (forgotPassword us a req)).
Proof.
  unfold forgotPassword.
  destruct (get "email" (body req)) as [e|]; [|apply keeps_stamps_refl].
  destruct (negb (truthy (Some e))); [apply keeps_stamps_refl|].
  destruct (findByEmail us e) as [d|] eqn:Ef; [|apply keeps_stamps_refl].
  unfold createPasswordResetToken.
  destruct (save us a _ false) as [exn|[us1 d2]] eqn:Es1; [apply keeps_stamps_refl|].
  assert (H1 : keeps_stamps (now a) us us1).
  { eapply save_existing_keeps_stamps; [|exact Es1].
    apply findOne_some in Ef. destruct Ef as [w [_ [_ [_ ->]]]].
    unfold set_passwordResetExpiresIn, set_passwordResetToken.
    apply unstamped_touch; [|reflexivity].
    apply unstamped_touch; [|reflexivity]. apply unstamped_loaded. }
  destruct (mail_delivers a); [exact H1|].
  destruct (save us1 a _ false) as [exn|[us2 d5]] eqn:Es2; [exact H1|].
  apply (keeps_stamps_trans (now a) us us1 us2 H1).
  eapply save_existing_keeps_stamps; [|exact Es2].
  unfold set_passwordResetExpiresIn, set_passwordResetToken.
  apply unstamped_touch; [|reflexivity].
  apply unstamped_touch; [|reflexivity].
  exact (unstamped_saved us a _ false us1 d2 Es1).
Qed.

Lemma resetPassword_keeps_stamps (us : list User) (a : Ambient) (req : Request) :
  keeps_stamps (now a) us (users_after (resetPassword cfg us a req)).
Proof.
  destruct (resetPassword_cases cfg us a req) as [->|[w [d [d' [_ [Hd Hs]]]]]].
  - apply keeps_stamps_refl.
  - exact (save_existing_keeps_stamps us a d true _ d' (unstamped_derived w d Hd) Hs).
Qed.

Lemma updatePassword_keeps_stamps (us : list User) (a : Ambient) (req : Request) :
  keeps_stamps (now a) us (users_after (updatePassword cfg us a req)).
Proof.
  destruct (updatePassword_cases cfg us a req) as [->|[w [d [d' [_ [Hd Hs]]]]]].
  - apply keeps_stamps_refl.
  - exact (save_existing_keeps_stamps us a d true _ d' (unstamped_derived w d Hd) Hs).
Qed.

Lemma confirmMail_keeps_stamps (us : list User) (a : Ambient) (req : Request) :
  keeps_stamps (now a) us (users_after (confirmMail cfg us a req)).
Proof.
  unfold confirmMail.
  destruct (params_tokenId req) as [tok|]; [|apply keeps_stamps_refl].
  destruct (negb (text_truthy (Some tok))); [apply keeps_stamps_refl|].
  destruct (jwt_verify tok (JWT_SECRET_KEY cfg) (now a)) as [e|pl];
    [apply keeps_stamps_refl|].
  destruct (findById us (jwt_id pl) false) as [d|] eqn:Ef; [|apply keeps_stamps_refl].
  destruct (save us a _ false) as [exn|[us' d2]] eqn:Es; [apply keeps_stamps_refl|].
  eapply save_existing_keeps_stamps; [|exact Es].
  apply findOne_some in Ef. destruct Ef as [w [_ [_ [_ ->]]]].
  unfold set_confirmed.
  apply unstamped_touch; [|reflexivity]. apply unstamped_loaded.
Qed.

Lemma signUp_appends (us : list User) (a : Ambient) (req : Request) :
  users_after (signUp cfg us a req) = us
  \/ exists u, users_after (signUp cfg us a req) = (us ++ [u])%list
               /\ _id u = fresh_id a.
Proof.
  destruct (signUp_users_after cfg us a req) as [[e He]|[b [us' [d [_ [Hc ->]]]]]].
  - left. revert He. unfold signUp.
    destruct (User_create us a _) as [e'|[us' d]]; [reflexivity|].
    destruct (String.eqb (NODE_ENV cfg) "production").
    + unfold sendConfirmationMail. destruct (mail_delivers a); discriminate.
    + discriminate.
  - right. destruct (User_create_inr _ _ _ _ _ Hc) as [d0 [E0 [-> Hd]]].
    destruct (new_User_some _ _ _ E0) as [_ [_ [Hid _]]].
    exists (fields d). split; [reflexivity|].
    destruct Hd as [[_ ->]|[p [_ [_ ->]]]]; exact Hid.
Qed.

Lemma keeps_stamps_stamped (t T : Z) (uid : ObjectId) (us us' : list User) :
  T <= t -> keeps_stamps t us us' -> stamped_since T uid us -> stamped_since T uid us'.
Proof.
  intros Ht [Hids Hk] [Hin Hst]. split; [now rewrite Hids|].
  intros v' Hv' Hid. destruct (Hk v' Hv') as [v [Hv [E Hc]]].
  destruct Hc as [Hc|Hc].
  - rewrite Hc. apply (Hst v Hv). congruence.
  - exists (t - 1000). split; [exact Hc|lia].
Qed.

Lemma served_stamped (T : Z) (uid : ObjectId) (us : list User) (a : Ambient)
      (req : Request) (us' : list User) :
  T <= now a -> served cfg us a req us' ->
  stamped_since T uid us -> stamped_since T uid us'.
Proof.
  intros Ht Hserved Hst. destruct Hserved as [Hfresh| | | | ].
  - destruct (signUp_appends us a req) as [->|[u [-> Hid]]]; [exact Hst|].
    destruct Hst as [Hin Hst]. split.
    + rewrite map_app. apply in_or_app. now left.
    + intros v Hv Hv'. apply in_app_or in Hv. destruct Hv as [Hv|[<-|[]]].
      * now apply Hst.
      * exfalso. apply Hfresh. now rewrite <- Hid, Hv'.
  - exact (keeps_stamps_stamped (now a) T uid us _ Ht
             (forgotPassword_keeps_stamps us a req) Hst).
  - exact (keeps_stamps_stamped (now a) T uid us _ Ht
             (resetPassword_keeps_stamps us a req) Hst).
  - exact (keeps_stamps_stamped (now a) T uid us _ Ht
             (updatePassword_keeps_stamps us a req) Hst).
  - exact (keeps_stamps_stamped (now a) T uid us _ Ht
             (confirmMail_keeps_stamps us a req) Hst).
Qed.

Lemma later_stamped (T : Z) (uid : ObjectId) (t : Z) (us us' : list User) :
  later cfg t us us' -> T <= t ->
  stamped_since T uid us -> stamped_since T uid us'.
Proof.
  induction 1 as [t us|t us a req us' us'' Ht Hserved _ IH]; intros HT Hst.
  - exact Hst.
  - apply IH; [lia|].
    apply (served_stamped T uid us a req us'); [lia|exact Hserved|exact Hst].
Qed.

End Stamps.

Section PasswordChange.
Context {P : Primitives}.
Variable cfg : Config.

(** C1, as the code has it. Let [updatePassword] or [resetPassword], run at
    time T, change the stored password of user [u].  A token issued to [u]
    two seconds or more before T is refused with a 401 error by every later
    [isAuthenticated] call -- on the collection the change leaves and on
    whatever later sign-ups, confirmations, reset requests, resets and
    password updates make of it -- as long as the token has not expired; a
    token issued at T or later passes the check of the password-change time.
    (The change is stamped T - 1000 ms and compared in whole seconds, which
    is why the last two seconds before T are not covered.) *)
Theorem password_change_refuses_older_tokens :
  forall (us : list User) (a : Ambient) (req : Request) (res : Result) (u u' : User),
    res = updatePassword cfg us a req \/ res = resetPassword cfg us a req ->
    NoDup (map _id us) ->
    In u us -> In u' (users_after res) -> _id u' = _id u ->
    password u' <> password u ->
    forall (a0 a1 : Ambient) (req1 : Request) (us1 : list User),
      let token := getJwtToken cfg a0 (_id u) in
      0 <= now a0 ->
      tokenId_of req1 = Some (Signed token) ->
      (now a0 + 2000 <= now a ->
       later cfg (now a) (users_after res) us1 ->
       seconds (now a1) < exp (payload token) ->
       exists msg,
         isAuthenticated cfg us1 a1 req1 = Fail (Operational (new_ErrorHandler msg 401))
         /\ statusCode (new_ErrorHandler msg 401) = 401)
      /\ (now a <= now a0 ->
          isPasswordChangedAfterTokenIsIssued u' (iat (payload token)) = false).
Proof.
  intros us a req res u u' Hres Hnd Hu Hu' Hid Hpw a0 a1 req1 us1 token Ha0 Htok.
  assert (Hstamp : forall v, In v (users_after res) -> _id v = _id u ->
                             passwordChangedAt v = Some (now a - 1000)).
  { assert (Hcases : users_after res = us
                     \/ exists w d d', In w us /\ derived_from w d
                          /\ save us a d true = inr (users_after res, d')).
    { destruct Hres as [-> | ->];
        [apply updatePassword_cases|apply resetPassword_cases]. }
    destruct Hcases as [Hsame|[w [d [d' [Hw [Hder Hsave]]]]]].
    - exfalso. apply Hpw. rewrite Hsame in Hu'.
      now rewrite (NoDup_map_inj _id us u' u Hnd Hu' Hu Hid).
    - exact (save_changed_password us a w d true (users_after res) d' u u'
               Hnd Hw Hder Hsave Hu Hu' Hid Hpw). }
  split.
  - intros Hold Hlater Hexp.
    assert (Hst : stamped_since (now a) (_id u) us1).
    { apply (later_stamped cfg (now a) (_id u) (now a) (users_after res) us1 Hlater);
        [lia|].
      split.
      - rewrite <- Hid. now apply in_map.
      - intros v Hv Hidv. exists (now a - 1000). split; [now apply Hstamp|lia]. }
    unfold isAuthenticated. rewrite Htok.
    cbn [text_truthy negb].
    rewrite (jwt_verify_ok token (JWT_SECRET_KEY cfg) (now a1) eq_refl Hexp).
    destruct (findById us1 (jwt_id (payload token)) false) as [d|] eqn:Ef.
    + apply findOne_some in Ef. destruct Ef as [v [Hv [Hidv [_ ->]]]].
      apply String.eqb_eq in Hidv.
      destruct (proj2 Hst v Hv Hidv) as [c [Hc Hle]].
      unfold isPasswordChangedAfterTokenIsIssued, loaded.
      cbn [fields passwordChangedAt with_password].
      rewrite Hc.
      change (iat (payload token)) with (seconds (now a0)).
      assert (Hlt : (seconds (now a0) <? Z.quot c 1000) = true).
      { apply Z.ltb_lt.
        pose proof (issued_two_seconds_before (now a) (now a0) Ha0 Hold) as H1.
        apply Z.ltb_lt in H1.
        pose proof (Z.quot_le_mono (now a - 1000) c 1000 ltac:(lia) Hle). lia. }
      rewrite Hlt. eexists. split; reflexivity.
    + eexists. split; reflexivity.
  - intros Hnew. unfold isPasswordChangedAfterTokenIsIssued.
    rewrite (Hstamp u' Hu' Hid).
    change (iat (payload token)) with (seconds (now a0)).
    apply issued_at_or_after; assumption.
Qed.

End PasswordChange.

Lemma password_change_refuses_older_tokens_witness :
  (exists msg,
     isAuthenticated development
       (users_after
          (@updatePassword sample_primitives development [alice; bob]
             (at_time 1700000010000 true)
             (request [("currentPassword", VStr "old-password");
                       ("newPassword", VStr "new-password");
                       ("newPasswordConfirmation", VStr "new-password")]
                      [] (Some alice))))
       (at_time 1700000015000 true)
       (bearer (getJwtToken development (at_time 1700000008000 true) "user-alice"))
     = Fail (Operational (new_ErrorHandler msg 401))
     /\ statusCode (new_ErrorHandler msg 401) = 401).
Proof.
  refine (proj1 (@password_change_refuses_older_tokens sample_primitives development
            [alice; bob] (at_time 1700000010000 true)
            (request [("currentPassword", VStr "old-password");
                      ("newPassword", VStr "new-password");
                      ("newPasswordConfirmation", VStr "new-password")]
                     [] (Some alice))
            _ alice (with_passwordChangedAt (Some 1700000009000)
                       (with_password (Some "$2a$12$Nq8sT1/new-password") alice))
            (or_introl eq_refl) _ _ _ eq_refl _
            (at_time 1700000008000 true) (at_time 1700000015000 true)
            (bearer (getJwtToken development (at_time 1700000008000 true) "user-alice"))
            _ _ eq_refl) _ (later_now _ _ _) _).
  - repeat constructor; simpl; intuition discriminate.
  - left. reflexivity.
  - left. reflexivity.
  - discriminate.
  - vm_compute. discriminate.
  - vm_compute. discriminate.
  - vm_compute. reflexivity.
Defined.

(** C1, as stated, fails: Alice's password is changed at 1700000010000; the
    token issued to her one second before, at 1700000009000, is still let
    through afterwards. *)
Lemma token_issued_one_second_before_change_passes :
  let changed := @updatePassword sample_primitives development [alice; bob]
                   (at_time 1700000010000 true)
                   (request [("currentPassword", VStr "old-password");
                             ("newPassword", VStr "new-password");
                             ("newPasswordConfirmation", VStr "new-password")]
                            [] (Some alice)) in
  let token := getJwtToken development (at_time 1700000009000 true) "user-alice" in
  let alice' := with_passwordChangedAt (Some 1700000009000)
                  (with_password (Some "$2a$12$Nq8sT1/new-password") alice) in
  1700000009000 < 1700000010000
  /\ users_after changed = [alice'; bob]
  /\ password alice' <> password alice
  /\ isAuthenticated development (users_after changed) (at_time 1700000015000 true)
       (bearer token)
     = Continue (set_user (with_password None alice') (bearer token)).
Proof.
  repeat split. discriminate.
Qed.

(* ------------------------------------------------------------------ *)
(** * Further properties *)

(** ** The error object *)

Lemma status_ignores_message (msg : string) (code : Z) :
  status (new_ErrorHandler msg code) = status (new_ErrorHandler "" code).
Proof. reflexivity. Qed.

Lemma checked_on_range (f : Z -> bool) (lo : nat) (len : nat) :
  forallb (fun n => f (Z.of_nat n)) (seq lo len) = true ->
  forall code, Z.of_nat lo <= code < Z.of_nat (lo + len) -> f code = true.
Proof.
  intros H code Hc. rewrite forallb_forall in H.
  specialize (H (Z.to_nat code)). rewrite Z2Nat.id in H by lia.
  apply H. apply in_seq. lia.
Qed.

(** X1. An [ErrorHandler] built with a status code from 400 to 499 has status
    ["failed"], one built with a code from 500 to 599 has status ["error"];
    both are marked operational. *)
Theorem ErrorHandler_status_by_class :
  forall (msg : string) (code : Z),
    (400 <= code <= 499 -> status (new_ErrorHandler msg code) = "failed")
    /\ (500 <= code <= 599 -> status (new_ErrorHandler msg code) = "error")
    /\ operationalError (new_ErrorHandler msg code) = true.
Proof.
  intros msg code. rewrite status_ignores_message. split; [|split; [|reflexivity]].
  - intros Hc. apply String.eqb_eq.
    apply (checked_on_range
             (fun c => String.eqb (status (new_ErrorHandler "" c)) "failed") 400 100);
      [vm_compute; reflexivity|lia].
  - intros Hc. apply String.eqb_eq.
    apply (checked_on_range
             (fun c => String.eqb (status (new_ErrorHandler "" c)) "error") 500 100);
      [vm_compute; reflexivity|lia].
Qed.

Lemma ErrorHandler_status_by_class_witness :
  status (new_ErrorHandler "No user exists with that email id" 404) = "failed"
  /\ status (new_ErrorHandler "There's some problem with sending email." 500) = "error".
Proof.
  split.
  - apply (ErrorHandler_status_by_class "No user exists with that email id" 404). lia.
  - apply (ErrorHandler_status_by_class "There's some problem with sending email." 500).
    lia.
Defined.

(* ------------------------------------------------------------------ *)
(** ** login *)

Section Login.
Context {P : Primitives}.
Variable cfg : Config.

(** X2. [login] answers with a token only after all its checks: the email
    (lower-cased) is that of a stored, active, confirmed user, the password
    given is a string and [bcrypt.compare] accepted it against the stored
    hash.  The answer then has code 200 and carries a token for that user and
    the user without the password. *)
Theorem login_answers_only_confirmed_user :
  forall (us : list User) (a : Ambient) (req : Request)
         (code : Z) (c : option Cookie) (r : Reply),
    login cfg us a req = Json code c r ->
    exists u e given stored,
      In u us /\ isActive u = true /\ confirmed u = true
      /\ get "email" (body req) = Some e /\ email u = toLowerCase (castString e)
      /\ get "password" (body req) = Some (VStr given) /\ password u = Some stored
      /\ isPasswordCorrect given stored = true
      /\ code = 200
      /\ r = TokenReply (getJwtToken cfg a (_id u)) (with_password None u).
Proof.
  intros us a req code c r. unfold login.
  destruct (get "email" (body req)) as [e|]; [|discriminate].
  destruct (get "password" (body req)) as [pw|]; [|discriminate].
  destruct (negb (truthy (Some e)) || negb (truthy (Some pw)))%bool; [discriminate|].
  destruct (findOne us _ true) as [d|] eqn:Ef; [|discriminate].
  apply findOne_some in Ef. destruct Ef as [u [Hin [He [Hact ->]]]].
  cbn [loaded fields].
  destruct pw as [given| |]; destruct (password u) as [stored|] eqn:Epw;
    try discriminate.
  destruct (isPasswordCorrect given stored) eqn:Eok; [|discriminate].
  destruct (confirmed u) eqn:Ec; [|discriminate].
  cbn [negb]. unfold sendJwtToken. intros H. inversion H; subst.
  apply String.eqb_eq in He.
  exists u, e, given, stored. repeat split; assumption.
Qed.

(** X3. An unknown email, a soft-deleted user and a wrong password are
    answered alike: when every stored user with the given email (lower-cased)
    is inactive, or has a hash that [bcrypt.compare] does not accept for the
    password given as a string, [login] hands on the 401 error "Incorrect
    email or password".  A password that is not a string gets that answer
    only when no active user has the email; when one has, [bcrypt.compare]
    rejects the call and the error it throws is handed on. *)
Theorem login_refuses_alike :
  forall (us : list User) (a : Ambient) (req : Request) (e pw : JsVal),
    get "email" (body req) = Some e -> truthy (Some e) = true ->
    get "password" (body req) = Some pw -> truthy (Some pw) = true ->
    ((forall u, In u us -> email u = toLowerCase (castString e) ->
                isActive u = false
                \/ exists given stored,
                     pw = VStr given /\ password u = Some stored
                     /\ isPasswordCorrect given stored = false) ->
     login cfg us a req
     = Fail (Operational (new_ErrorHandler "Incorrect email or password" 401)))
    /\ ((exists u, In u us /\ email u = toLowerCase (castString e)
                   /\ isActive u = true) ->
        (forall given, pw <> VStr given) ->
        exists msg, login cfg us a req = Fail (Raised (JsError msg))).
Proof.
  intros us a req e pw He Hte Hpw Htpw. split.
  - intros Hall. unfold login.
    rewrite He, Hpw, Hte, Htpw. cbn [negb orb].
    destruct (findOne us _ true) as [d|] eqn:Ef; [|reflexivity].
    apply findOne_some in Ef. destruct Ef as [u [Hin [Hem [Hact ->]]]].
    apply String.eqb_eq in Hem.
    destruct (Hall u Hin Hem) as [Hina|[given [stored [-> [Hs Hbad]]]]]; [congruence|].
    cbn [loaded fields]. rewrite Hs, Hbad. reflexivity.
  - intros [u [Hin [Hem Hact]]] Hnot. unfold login.
    rewrite He, Hpw, Hte, Htpw. cbn [negb orb].
    destruct (findOne us _ true) as [d|] eqn:Ef.
    + destruct pw as [given| |]; [exfalso; exact (Hnot given eq_refl)| |];
        eexists; reflexivity.
    + exfalso. unfold findOne in Ef.
      destruct (find _ us) as [v|] eqn:E; [discriminate|].
      pose proof (find_none _ _ E u Hin) as Hu. unfold pre_find in Hu.
      rewrite Hem, String.eqb_refl, Hact in Hu. discriminate.
Qed.

End Login.

Section LoginSample.
#[local] Existing Instance sample_primitives.

Lemma login_answers_only_confirmed_user_witness :
  exists u e given stored,
    In u [alice; bob] /\ isActive u = true /\ confirmed u = true
    /\ get "email" [("email", VStr "Alice@Example.org"); ("password", VStr "old-password")]
       = Some e
    /\ email u = toLowerCase (castString e)
    /\ get "password"
         [("email", VStr "Alice@Example.org"); ("password", VStr "old-password")]
       = Some (VStr given)
    /\ password u = Some stored
    /\ isPasswordCorrect given stored = true
    /\ 200 = 200
    /\ TokenReply (getJwtToken development (at_time 1700000000000 true) "user-alice")
                  (with_password None alice)
       = TokenReply (getJwtToken development (at_time 1700000000000 true) (_id u))
                    (with_password None u).
Proof.
  apply (login_answers_only_confirmed_user development [alice; bob]
           (at_time 1700000000000 true)
           (request [("email", VStr "Alice@Example.org"); ("password", VStr "old-password")]
                    [] None)
           200
           (Some {| cookie_name := "jwt";
                    cookie_value := getJwtToken development (at_time 1700000000000 true)
                                                "user-alice";
                    expires := 1700000000000 + 90 * 24 * 60 * 60 * 1000;
                    httpOnly := true; cookie_secure := false |})
           (TokenReply (getJwtToken development (at_time 1700000000000 true) "user-alice")
                       (with_password None alice))).
  reflexivity.
Defined.

Lemma login_refuses_alike_witness :
  login development [alice; carol_deleted] (at_time 1700000000000 true)
    (request [("email", VStr "carol@example.org"); ("password", VStr "carols-password")]
             [] None)
  = login development [alice; carol_deleted] (at_time 1700000000000 true)
      (request [("email", VStr "alice@example.org"); ("password", VStr "not-her-password")]
               [] None)
  /\ exists msg,
       login development [alice; carol_deleted] (at_time 1700000000000 true)
         (request [("email", VStr "alice@example.org"); ("password", VNum 12345678)]
                  [] None)
       = Fail (Raised (JsError msg)).
Proof.
  split.
  - transitivity (Fail (Operational (new_ErrorHandler "Incorrect email or password" 401))).
    + apply (login_refuses_alike development [alice; carol_deleted]
               (at_time 1700000000000 true)
               (request [("email", VStr "carol@example.org");
                         ("password", VStr "carols-password")] [] None)
               (VStr "carol@example.org") (VStr "carols-password")
               eq_refl eq_refl eq_refl eq_refl).
      intros u [<-|[<-|[]]] Hem; [discriminate|left; reflexivity].
    + symmetry.
      apply (login_refuses_alike development [alice; carol_deleted]
               (at_time 1700000000000 true)
               (request [("email", VStr "alice@example.org");
                         ("password", VStr "not-her-password")] [] None)
               (VStr "alice@example.org") (VStr "not-her-password")
               eq_refl eq_refl eq_refl eq_refl).
      intros u [<-|[<-|[]]] Hem; [|discriminate].
      right. exists "not-her-password", "$2a$12$Nq8sT1/old-password".
      repeat split; reflexivity.
  - apply (login_refuses_alike development [alice; carol_deleted]
             (at_time 1700000000000 true)
             (request [("email", VStr "alice@example.org");
                       ("password", VNum 12345678)] [] None)
             (VStr "alice@example.org") (VNum 12345678)
             eq_refl eq_refl eq_refl eq_refl).
    + exists alice. split; [left; reflexivity|]. split; reflexivity.
    + discriminate.
Defined.

End LoginSample.

(* ------------------------------------------------------------------ *)
(** ** isAuthenticated *)

(** X4. When [isAuthenticated] lets a request through, the request carried a
    token signed with the server's key and not yet expired, the token names a
    stored, active user whose password was not changed after the token was
    issued, and [req.user] is that user without the password; nothing else of
    the request changes. *)
Theorem isAuthenticated_lets_through_only :
  forall (cfg : Config) (us : list User) (a : Ambient) (req req' : Request),
    isAuthenticated cfg us a req = Continue req' ->
    exists u t,
      tokenId_of req = Some (Signed t)
      /\ signed_with t = JWT_SECRET_KEY cfg
      /\ seconds (now a) < exp (payload t)
      /\ In u us /\ _id u = jwt_id (payload t) /\ isActive u = true
      /\ isPasswordChangedAfterTokenIsIssued u (iat (payload t)) = false
      /\ req' = set_user (with_password None u) req.
Proof.
  intros cfg us a req req'. unfold isAuthenticated.
  destruct (tokenId_of req) as [tok|]; [|discriminate].
  destruct (negb (text_truthy (Some tok))); [discriminate|].
  destruct tok as [s|t]; [discriminate|].
  unfold jwt_verify.
  destruct (String.eqb_spec (signed_with t) (JWT_SECRET_KEY cfg)) as [Hk|_];
    [|discriminate].
  cbn [negb].
  destruct (Z.leb_spec (exp (payload t)) (seconds (now a))) as [_|Hexp]; [discriminate|].
  destruct (findById us (jwt_id (payload t)) false) as [d|] eqn:Ef; [|discriminate].
  apply findOne_some in Ef. destruct Ef as [u [Hin [Hid [Hact ->]]]].
  apply String.eqb_eq in Hid.
  destruct (isPasswordChangedAfterTokenIsIssued (fields (loaded false u))
                                                 (iat (payload t))) eqn:Est;
    [discriminate|].
  intros H. inversion H; subst.
  exists u, t. repeat split; try assumption.
Qed.

Lemma isAuthenticated_lets_through_only_witness :
  let tok := getJwtToken development (at_time 1700000000000 true) "user-bob" in
  let empty_header :=
    {| body := []; params := []; params_tokenId := None;
       authorization := Some [Plain ""]; cookies_jwt := Some (Signed tok);
       secure := false; protocol := "https"; host := "emploi.example.org";
       user := None |} in
  (exists u t,
     tokenId_of (bearer tok) = Some (Signed t)
     /\ signed_with t = JWT_SECRET_KEY development
     /\ seconds (now (at_time 1700000050000 true)) < exp (payload t)
     /\ In u [alice; bob] /\ _id u = jwt_id (payload t) /\ isActive u = true
     /\ isPasswordChangedAfterTokenIsIssued u (iat (payload t)) = false
     /\ set_user (with_password None bob) (bearer tok)
        = set_user (with_password None u) (bearer tok))
  /\ (exists u t,
        tokenId_of empty_header = Some (Signed t)
        /\ signed_with t = JWT_SECRET_KEY development
        /\ seconds (now (at_time 1700000050000 true)) < exp (payload t)
        /\ In u [alice; bob] /\ _id u = jwt_id (payload t) /\ isActive u = true
        /\ isPasswordChangedAfterTokenIsIssued u (iat (payload t)) = false
        /\ set_user (with_password None bob) empty_header
           = set_user (with_password None u) empty_header).
Proof.
  intros tok empty_header. split.
  - apply (isAuthenticated_lets_through_only development [alice; bob]
             (at_time 1700000050000 true) (bearer tok)
             (set_user (with_password None bob) (bearer tok))).
    reflexivity.
  - apply (isAuthenticated_lets_through_only development [alice; bob]
             (at_time 1700000050000 true) empty_header
             (set_user (with_password None bob) empty_header)).
    reflexivity.
Defined.

(** X5. Without a token [isAuthenticated] hands on the 401 error "not logged
    in": when the [Authorization] header is absent or empty and there is no
    non-empty [jwt] cookie, and also when the header is not empty but has no
    second word -- then whatever the cookie holds, since the cookie is read
    only when the header is absent or empty. *)
Theorem isAuthenticated_without_token :
  forall (cfg : Config) (us : list User) (a : Ambient) (req : Request),
    ((authorization req = None
      \/ exists parts, authorization req = Some parts /\ header_truthy parts = false)
     /\ text_truthy (cookies_jwt req) = false)
    \/ (exists parts, authorization req = Some parts
                      /\ header_truthy parts = true
                      /\ text_truthy (nth_error parts 1) = false) ->
    isAuthenticated cfg us a req
    = Fail (Operational (new_ErrorHandler
              "You're not logged in. Please Login to get access to this URL" 401)).
Proof.
  intros cfg us a req H. unfold isAuthenticated, tokenId_of.
  destruct H as [[[->|[parts [-> Hh]]] Hc]|[parts [-> [Hh Hp]]]].
  - rewrite Hc. reflexivity.
  - rewrite Hh, Hc. reflexivity.
  - rewrite Hh. destruct (nth_error parts 1) as [tok|]; [|reflexivity].
    rewrite Hp. reflexivity.
Qed.

Lemma isAuthenticated_without_token_witness :
  isAuthenticated development [alice; bob] (at_time 1700000050000 true)
    {| body := []; params := []; params_tokenId := None;
       authorization := Some [Plain "Bearer"];
       cookies_jwt := Some (Signed (getJwtToken development
                                      (at_time 1700000000000 true) "user-bob"));
       secure := false; protocol := "https"; host := "emploi.example.org";
       user := None |}
  = Fail (Operational (new_ErrorHandler
            "You're not logged in. Please Login to get access to this URL" 401)).
Proof.
  apply isAuthenticated_without_token.
  right. exists [Plain "Bearer"]. repeat split; reflexivity.
Defined.

(* ------------------------------------------------------------------ *)
(** ** What a save writes *)

Section Writes.
Context {P : Primitives}.

Lemma write_path_frame (src v : User) (p : string) :
  identity_of (write_path src v p) = identity_of v.
Proof.
  unfold write_path.
  repeat match goal with
         | |- context [if String.eqb p ?k then _ else _] =>
             destruct (String.eqb p k); [reflexivity|]
         end.
  reflexivity.
Qed.

Lemma fold_write_path_frame (src : User) (paths : list string) :
  forall v, identity_of (fold_left (write_path src) paths v) = identity_of v.
Proof.
  induction paths as [|p paths IH]; intros v; cbn [fold_left]; [reflexivity|].
  now rewrite IH, write_path_frame.
Qed.

Lemma store_update_frame (d : Doc) (us : list User) :
  map identity_of (store_update d us) = map identity_of us.
Proof.
  unfold store_update. rewrite map_map. apply map_ext. intros v.
  destruct (String.eqb (_id v) (_id (fields d))); [|reflexivity].
  apply fold_write_path_frame.
Qed.

Lemma write_path_reset (src v : User) (p : string) :
  passwordResetToken (write_path src v p)
  = (if String.eqb "passwordResetToken" p then passwordResetToken src
     else passwordResetToken v)
  /\ confirmed (write_path src v p)
     = (if String.eqb "confirmed" p then confirmed src else confirmed v).
Proof.
  unfold write_path.
  rewrite (String.eqb_sym "passwordResetToken" p), (String.eqb_sym "confirmed" p).
  destruct (String.eqb_spec p "password") as [->|_]; [simpl; auto|].
  destruct (String.eqb_spec p "passwordConfirmation") as [->|_]; [simpl; auto|].
  destruct (String.eqb_spec p "passwordChangedAt") as [->|_]; [simpl; auto|].
  destruct (String.eqb_spec p "passwordResetToken") as [->|_]; [simpl; auto|].
  destruct (String.eqb_spec p "passwordResetExpiresIn") as [->|_]; [simpl; auto|].
  destruct (String.eqb_spec p "confirmed") as [->|_]; simpl; auto.
Qed.

Lemma fold_write_path_reset (src : User) (paths : list string) :
  forall v : User,
    let r := fold_left (write_path src) paths v in
    passwordResetToken r
    = (if existsb (String.eqb "passwordResetToken") paths then passwordResetToken src
       else passwordResetToken v)
    /\ confirmed r
       = (if existsb (String.eqb "confirmed") paths then confirmed src else confirmed v).
Proof.
  induction paths as [|p paths IH]; intros v; cbn [fold_left existsb]; [auto|].
  destruct (IH (write_path src v p)) as [Ht Hc].
  destruct (write_path_reset src v p) as [Ht' Hc'].
  rewrite Ht, Hc, Ht', Hc'. split.
  - destruct (String.eqb "passwordResetToken" p),
             (existsb (String.eqb "passwordResetToken") paths); reflexivity.
  - destruct (String.eqb "confirmed" p), (existsb (String.eqb "confirmed") paths);
      reflexivity.
Qed.

(** Every stored user has an image of the same id and active flag in the
    updated collection. *)
Lemma store_update_image (d : Doc) (us : list User) (w : User) :
  In w us ->
  exists w', In w' (store_update d us) /\ _id w' = _id w /\ isActive w' = isActive w.
Proof.
  intros Hw. unfold store_update.
  eexists. split; [apply in_map; exact Hw|]. cbv beta.
  destruct (String.eqb (_id w) (_id (fields d))); [|auto].
  destruct (fold_write_path_spec (fields d) (modifiedPaths d) w) as [Hid [Hact _]].
  auto.
Qed.

(** The document a save of a loaded document writes: the hooks leave its id,
    the reset fields and [confirmed] alone and only add modified paths. *)
Lemma save_existing_shape (us : list User) (a : Ambient) (d : Doc) (vbs : bool)
      (us' : list User) (d' : Doc) :
  isNew d = false -> save us a d vbs = inr (us', d') ->
  exists d2,
    us' = store_update d2 us /\ d' = saved d2
    /\ _id (fields d2) = _id (fields d)
    /\ passwordResetToken (fields d2) = passwordResetToken (fields d)
    /\ confirmed (fields d2) = confirmed (fields d)
    /\ (forall p, isModified p d = true -> isModified p d2 = true).
Proof.
  intros Hnew. unfold save.
  destruct (if vbs then validate d else []); [|discriminate].
  unfold pre_save_hash.
  destruct (isModified "password" d) eqn:Em; cbn [negb].
  - destruct (password (fields d)) as [pw|]; [|discriminate].
    set (d1 := set_passwordConfirmation None
                 (touch "password" true d
                    (with_password (Some (bcrypt_hash pw (salt a) 12)) (fields d)))).
    assert (Hm1 : isModified "password" d1 = true).
    { unfold d1, set_passwordConfirmation, touch, isModified. simpl.
      destruct (negb _); reflexivity. }
    assert (Hn1 : isNew d1 = false) by exact Hnew.
    unfold pre_save_changedAt. rewrite Hm1, Hn1. cbn [negb orb].
    replace (isNew (set_passwordChangedAt (Some (now a - 1000)) d1)) with false
      by (symmetry; exact Hnew).
    intros H. inversion H; subst.
    exists (set_passwordChangedAt (Some (now a - 1000)) d1).
    repeat split.
    intros p Hp. unfold d1, set_passwordChangedAt, set_passwordConfirmation, touch,
      isModified in *. cbn [fields isNew modifiedPaths].
    repeat match goal with
           | |- context [if negb ?b then _ else _] => destruct (negb b)
           end; cbn [existsb]; rewrite Hp; now rewrite ?orb_true_r.
  - unfold pre_save_changedAt. rewrite Em. cbn [negb orb]. rewrite Hnew.
    intros H. inversion H; subst. exists d. repeat split. auto.
Qed.

Lemma rewritten_frame (a : Ambient) (us us' : list User) :
  rewritten a us us' -> map identity_of us' = map identity_of us.
Proof.
  induction 1 as [us|us d vbs us' d' us'' Hnew Hsave _ IH]; [reflexivity|].
  destruct (save_existing_shape us a d vbs us' d' Hnew Hsave) as [d2 [-> _]].
  rewrite IH. apply store_update_frame.
Qed.

Lemma rewritten_one (a : Ambient) (us : list User) (d : Doc) (vbs : bool)
      (us' : list User) (d' : Doc) :
  isNew d = false -> save us a d vbs = inr (us', d') -> rewritten a us us'.
Proof.
  intros Hnew Hsave.
  exact (rewritten_save a us d vbs us' d' us' Hnew Hsave (rewritten_none a us')).
Qed.

Lemma forgotPassword_rewritten (us : list User) (a : Ambient) (req : Request) :
  rewritten a us (users_after (forgotPassword us a req)).
Proof.
  unfold forgotPassword.
  destruct (get "email" (body req)) as [e|]; [|apply rewritten_none].
  destruct (negb (truthy (Some e))); [apply rewritten_none|].
  destruct (findByEmail us e) as [d|] eqn:Ef; [|apply rewritten_none].
  apply findOne_some in Ef. destruct Ef as [w [_ [_ [_ ->]]]].
  unfold createPasswordResetToken.
  destruct (save us a _ false) as [exn|[us1 d2]] eqn:Es1; [apply rewritten_none|].
  destruct (mail_delivers a).
  - eapply rewritten_one; [|exact Es1]. reflexivity.
  - destruct (save us1 a _ false) as [exn|[us2 d5]] eqn:Es2.
    + eapply rewritten_one; [|exact Es1]. reflexivity.
    + eapply rewritten_save; [|exact Es1|]; [reflexivity|].
      eapply rewritten_one; [|exact Es2].
      exact (proj1 (save_result_unstamped _ _ _ _ _ _ Es1)).
Qed.

End Writes.

Section WritersRewrite.
Context {P : Primitives}.
Variable cfg : Config.

Lemma resetPassword_rewritten (us : list User) (a : Ambient) (req : Request) :
  rewritten a us (users_after (resetPassword cfg us a req)).
Proof.
  destruct (resetPassword_cases cfg us a req) as [->|[w [d [d' [_ [Hd Hs]]]]]].
  - apply rewritten_none.
  - exact (rewritten_one a us d true _ d' (proj1 Hd) Hs).
Qed.

Lemma updatePassword_rewritten (us : list User) (a : Ambient) (req : Request) :
  rewritten a us (users_after (updatePassword cfg us a req)).
Proof.
  destruct (updatePassword_cases cfg us a req) as [->|[w [d [d' [_ [Hd Hs]]]]]].
  - apply rewritten_none.
  - exact (rewritten_one a us d true _ d' (proj1 Hd) Hs).
Qed.

Lemma confirmMail_rewritten (us : list User) (a : Ambient) (req : Request) :
  rewritten a us (users_after (confirmMail cfg us a req)).
Proof.
  unfold confirmMail.
  destruct (params_tokenId req) as [tok|]; [|apply rewritten_none].
  destruct (negb (text_truthy (Some tok))); [apply rewritten_none|].
  destruct (jwt_verify tok (JWT_SECRET_KEY cfg) (now a)) as [e|pl];
    [apply rewritten_none|].
  destruct (findById us (jwt_id pl) false) as [d|] eqn:Ef; [|apply rewritten_none].
  apply findOne_some in Ef. destruct Ef as [w [_ [_ [_ ->]]]].
  destruct (save us a _ false) as [exn|[us' d2]] eqn:Es; [apply rewritten_none|].
  eapply rewritten_one; [|exact Es]. reflexivity.
Qed.

End WritersRewrite.

(* ------------------------------------------------------------------ *)
(** ** Tokens that are handed out are accepted *)

Lemma quot_le_seconds (c t : Z) : 0 <= t -> c <= t -> Z.quot c 1000 <= seconds t.
Proof.
  intros Ht Hc. unfold seconds.
  destruct (Z.le_gt_cases 0 c) as [Hpos|Hneg].
  - rewrite Z.quot_div_nonneg by lia. apply Z.div_le_mono; lia.
  - pose proof (Z.quot_opp_l (- c) 1000 ltac:(lia)) as Hq.
    rewrite Z.opp_involutive in Hq.
    pose proof (Z.quot_pos (- c) 1000 ltac:(lia) ltac:(lia)).
    pose proof (Z.div_pos t 1000 Ht ltac:(lia)). lia.
Qed.

Lemma not_stale_in_past (u : User) (t : Z) :
  0 <= t -> (forall c, passwordChangedAt u = Some c -> c <= t) ->
  isPasswordChangedAfterTokenIsIssued u (seconds t) = false.
Proof.
  intros Ht Hc. unfold isPasswordChangedAfterTokenIsIssued.
  destruct (passwordChangedAt u) as [c|]; [|reflexivity].
  apply Z.ltb_ge. apply quot_le_seconds; [exact Ht|now apply Hc].
Qed.

Lemma keeps_stamps_past (t : Z) (us us' : list User) :
  keeps_stamps t us us' -> stamps_in_past t us -> stamps_in_past t us'.
Proof.
  intros [_ Hk] Hpast v' c Hv' Hc.
  destruct (Hk v' Hv') as [v [Hv [_ [Hs|Hs]]]].
  - apply (Hpast v c Hv). congruence.
  - rewrite Hs in Hc. injection Hc as <-. lia.
Qed.

(** A token issued at [a] for a stored, active user is let through as long as
    it has not expired, when no stamp of the collection is later than [a]. *)
Lemma fresh_token_passes (cfg : Config) (us : list User) (a a1 : Ambient)
      (req1 : Request) (uid : ObjectId) :
  0 <= now a -> stamps_in_past (now a) us ->
  (exists w, In w us /\ _id w = uid /\ isActive w = true) ->
  tokenId_of req1 = Some (Signed (getJwtToken cfg a uid)) ->
  seconds (now a1) < exp (payload (getJwtToken cfg a uid)) ->
  exists v, In v us /\ _id v = uid /\ isActive v = true
            /\ isAuthenticated cfg us a1 req1
               = Continue (set_user (with_password None v) req1).
Proof.
  intros Ha Hpast [w [Hw [Hid Hact]]] Htok Hexp.
  unfold isAuthenticated. rewrite Htok. cbn [text_truthy negb].
  rewrite (jwt_verify_ok (getJwtToken cfg a uid) (JWT_SECRET_KEY cfg) (now a1)
             eq_refl Hexp).
  change (jwt_id (payload (getJwtToken cfg a uid))) with uid.
  destruct (find_exists (pre_find (fun u => String.eqb (_id u) uid)) us w Hw)
    as [y Hy].
  { unfold pre_find. rewrite Hid, String.eqb_refl, Hact. reflexivity. }
  unfold findById, findOne. rewrite Hy. cbn [option_map].
  apply find_some in Hy. destruct Hy as [Hyin Hyf].
  unfold pre_find in Hyf. apply andb_true_iff in Hyf. destruct Hyf as [Hyid Hyact].
  apply String.eqb_eq in Hyid.
  assert (Hst : isPasswordChangedAfterTokenIsIssued (fields (loaded false y))
                  (iat (payload (getJwtToken cfg a uid))) = false).
  { change (iat (payload (getJwtToken cfg a uid))) with (seconds (now a)).
    apply not_stale_in_past; [exact Ha|].
    intros c Hc. exact (Hpast y c Hyin Hc). }
  rewrite Hst. exists y. repeat split; try assumption.
  now destruct (isActive y).
Qed.

Section IssuedTokens.
Context {P : Primitives}.
Variable cfg : Config.

Lemma login_checks (us : list User) (a : Ambient) (req : Request)
      (code : Z) (c : option Cookie) (r : Reply) :
  login cfg us a req = Json code c r ->
  exists u, In u us /\ isActive u = true
            /\ login cfg us a req = sendJwtToken cfg a u 200 req.
Proof.
  unfold login.
  destruct (get "email" (body req)) as [e|]; [|discriminate].
  destruct (get "password" (body req)) as [pw|]; [|discriminate].
  destruct (negb (truthy (Some e)) || negb (truthy (Some pw)))%bool; [discriminate|].
  destruct (findOne us _ true) as [d|] eqn:Ef; [|discriminate].
  apply findOne_some in Ef. destruct Ef as [u [Hin [_ [Hact ->]]]].
  cbn [loaded fields].
  destruct pw as [given| |]; destruct (password u) as [stored|]; try discriminate.
  destruct (negb (isPasswordCorrect given stored)); [discriminate|].
  destruct (negb (confirmed u)); [discriminate|].
  intros _. exists u. auto.
Qed.

(** The save behind a token answer of the three handlers that write and then
    call [sendJwtToken]. *)
Lemma writer_token_reply (us : list User) (a : Ambient) (req : Request) (res : Result)
      (code : Z) (c : option Cookie) (r : Reply) :
  res = updatePassword cfg us a req \/ res = resetPassword cfg us a req
  \/ res = confirmMail cfg us a req ->
  outcome res = Json code c r ->
  exists w d vbs d',
    In w us /\ isActive w = true /\ isNew d = false /\ _id (fields d) = _id w
    /\ save us a d vbs = inr (users_after res, d')
    /\ exists code', outcome res = sendJwtToken cfg a (fields d') code' req.
Proof.
  intros [-> | [-> | ->]].
  - unfold updatePassword.
    destruct (user req) as [me|]; [|discriminate].
    destruct (findById us (_id me) true) as [d|] eqn:Ef; [|discriminate].
    destruct (get "currentPassword" (body req)) as [[cur| |]|];
      destruct (password (fields d)) as [stored|]; try discriminate.
    destruct (negb (isPasswordCorrect cur stored)); [discriminate|].
    destruct (save us a _ true) as [exn|[us' d3]] eqn:Es; [discriminate|].
    intros _. apply findOne_some in Ef. destruct Ef as [w [Hw [_ [Hact ->]]]].
    eexists w, _, true, d3. split; [exact Hw|]. split; [exact Hact|].
    split; [|split; [|split; [exact Es|]]]; [reflexivity|reflexivity|].
    eexists. reflexivity.
  - unfold resetPassword.
    destruct (param "resetToken" (params req)) as [raw|]; [|discriminate].
    destruct (findOne us _ false) as [d|] eqn:Ef; [|discriminate].
    destruct (save us a _ true) as [exn|[us' d5]] eqn:Es; [discriminate|].
    intros _. apply findOne_some in Ef. destruct Ef as [w [Hw [_ [Hact ->]]]].
    eexists w, _, true, d5. split; [exact Hw|]. split; [exact Hact|].
    split; [|split; [|split; [exact Es|]]]; [reflexivity|reflexivity|].
    eexists. reflexivity.
  - unfold confirmMail.
    destruct (params_tokenId req) as [tok|]; [|discriminate].
    destruct (negb (text_truthy (Some tok))); [discriminate|].
    destruct (jwt_verify tok (JWT_SECRET_KEY cfg) (now a)) as [e|pl]; [discriminate|].
    destruct (findById us (jwt_id pl) false) as [d|] eqn:Ef; [|discriminate].
    destruct (save us a _ false) as [exn|[us' d2]] eqn:Es; [discriminate|].
    intros _. apply findOne_some in Ef. destruct Ef as [w [Hw [_ [Hact ->]]]].
    eexists w, _, false, d2. split; [exact Hw|]. split; [exact Hact|].
    split; [|split; [|split; [exact Es|]]]; [reflexivity|reflexivity|].
    eexists. reflexivity.
Qed.

Lemma writer_keeps_stamps (us : list User) (a : Ambient) (req : Request) (res : Result) :
  res = updatePassword cfg us a req \/ res = resetPassword cfg us a req
  \/ res = confirmMail cfg us a req ->
  keeps_stamps (now a) us (users_after res).
Proof.
  intros [-> | [-> | ->]];
    [apply updatePassword_keeps_stamps|apply resetPassword_keeps_stamps
     |apply confirmMail_keeps_stamps].
Qed.

(** X6. The token that [updatePassword], [resetPassword] or [confirmMail]
    hands out after its save is let through by [isAuthenticated] on the
    collection the handler leaves, until the token expires: the stamp the
    password change sets, one second in the past, does not make the new token
    stale.  (Assumed: the clock is not before the epoch, and no stored stamp
    lies in the future of the request.) *)
Theorem reissued_token_is_accepted :
  forall (us : list User) (a : Ambient) (req : Request) (res : Result)
         (code : Z) (c : option Cookie) (tok : Jwt) (doc : User),
    res = updatePassword cfg us a req \/ res = resetPassword cfg us a req
    \/ res = confirmMail cfg us a req ->
    outcome res = Json code c (TokenReply tok doc) ->
    0 <= now a -> stamps_in_past (now a) us ->
    forall (a1 : Ambient) (req1 : Request),
      tokenId_of req1 = Some (Signed tok) ->
      seconds (now a1) < exp (payload tok) ->
      exists v, In v (users_after res) /\ _id v = _id doc /\ isActive v = true
                /\ isAuthenticated cfg (users_after res) a1 req1
                   = Continue (set_user (with_password None v) req1).
Proof.
  intros us a req res code c tok doc Hres Hout Ha Hpast a1 req1 Htok Hexp.
  destruct (writer_token_reply us a req res code c _ Hres Hout)
    as [w [d [vbs [d' [Hw [Hact [Hnew [Hid [Hsave [code' Hsend]]]]]]]]]].
  rewrite Hsend in Hout. unfold sendJwtToken in Hout. inversion Hout; subst tok doc.
  destruct (save_existing_shape us a d vbs _ d' Hnew Hsave)
    as [d2 [Hus [Hd' [Hid2 _]]]].
  assert (Hidd : _id (fields d') = _id w) by (rewrite Hd'; cbn; congruence).
  cbn [_id with_password]. rewrite Hidd in *.
  apply (fresh_token_passes cfg (users_after res) a a1 req1 (_id w) Ha).
  - exact (keeps_stamps_past (now a) us _ (writer_keeps_stamps us a req res Hres) Hpast).
  - rewrite Hus. destruct (store_update_image d2 us w Hw) as [w' [Hw' [Hi Hac]]].
    exists w'. repeat split; congruence.
  - exact Htok.
  - exact Hexp.
Qed.

(** X7. The token [login] hands out is let through by [isAuthenticated] on the
    same collection until it expires, and [req.user] is then a stored, active
    user of the id the answer names.  (Assumed as for X6.) *)
Theorem login_token_is_accepted :
  forall (us : list User) (a : Ambient) (req : Request)
         (code : Z) (c : option Cookie) (tok : Jwt) (doc : User),
    login cfg us a req = Json code c (TokenReply tok doc) ->
    0 <= now a -> stamps_in_past (now a) us ->
    forall (a1 : Ambient) (req1 : Request),
      tokenId_of req1 = Some (Signed tok) ->
      seconds (now a1) < exp (payload tok) ->
      exists v, In v us /\ _id v = _id doc /\ isActive v = true
                /\ isAuthenticated cfg us a1 req1
                   = Continue (set_user (with_password None v) req1).
Proof.
  intros us a req code c tok doc Hlogin Ha Hpast a1 req1 Htok Hexp.
  destruct (login_checks us a req code c _ Hlogin) as [u [Hu [Hact Hsend]]].
  rewrite Hsend in Hlogin. unfold sendJwtToken in Hlogin.
  inversion Hlogin; subst tok doc. cbn [_id with_password].
  apply (fresh_token_passes cfg us a a1 req1 (_id u) Ha Hpast); try assumption.
  exists u. auto.
Qed.

End IssuedTokens.

Lemma reissued_token_is_accepted_witness :
  let res := @updatePassword sample_primitives development [alice; bob]
               (at_time 1700000010000 true)
               (request [("currentPassword", VStr "old-password");
                         ("newPassword", VStr "new-password");
                         ("newPasswordConfirmation", VStr "new-password")]
                        [] (Some alice)) in
  let tok := getJwtToken development (at_time 1700000010000 true) "user-alice" in
  exists v, In v (users_after res) /\ _id v = "user-alice" /\ isActive v = true
            /\ isAuthenticated development (users_after res)
                 (at_time 1700000010500 true) (bearer tok)
               = Continue (set_user (with_password None v) (bearer tok)).
Proof.
  intros res tok.
  eapply (@reissued_token_is_accepted sample_primitives development [alice; bob]
            (at_time 1700000010000 true)
            (request [("currentPassword", VStr "old-password");
                      ("newPassword", VStr "new-password");
                      ("newPasswordConfirmation", VStr "new-password")]
                     [] (Some alice))
            res _ _ tok
            (with_password None
               (with_passwordChangedAt (Some 1700000009000)
                  (with_password (Some "$2a$12$Nq8sT1/new-password") alice)))
            (or_introl eq_refl)).
  - reflexivity.
  - vm_compute. discriminate.
  - intros u c [<-|[<-|[]]]; discriminate.
  - reflexivity.
  - vm_compute. reflexivity.
Defined.

Lemma login_token_is_accepted_witness :
  let tok := getJwtToken development (at_time 1700000000000 true) "user-alice" in
  exists v, In v [alice; bob] /\ _id v = "user-alice" /\ isActive v = true
            /\ isAuthenticated development [alice; bob] (at_time 1700000050000 true)
                 (bearer tok)
               = Continue (set_user (with_password None v) (bearer tok)).
Proof.
  intros tok.
  eapply (@login_token_is_accepted sample_primitives development [alice; bob]
            (at_time 1700000000000 true)
            (request [("email", VStr "alice@example.org");
                      ("password", VStr "old-password")] [] None)
            _ _ tok (with_password None alice)).
  - reflexivity.
  - vm_compute. discriminate.
  - intros u c [<-|[<-|[]]]; discriminate.
  - reflexivity.
  - vm_compute. reflexivity.
Defined.

(* ------------------------------------------------------------------ *)
(** ** resetPassword and updatePassword *)

Section PasswordWrites.
Context {P : Primitives}.
Variable cfg : Config.

(** The document [resetPassword] saves for the stored user [w]. *)
Lemma resetPassword_success (us : list User) (a : Ambient) (req : Request)
      (raw : string) (code : Z) (c : option Cookie) (r : Reply) :
  param "resetToken" (params req) = Some raw ->
  outcome (resetPassword cfg us a req) = Json code c r ->
  exists w d d',
    In w us /\ passwordResetToken w = Some (sha256_hex raw)
    /\ isNew d = false /\ _id (fields d) = _id w
    /\ passwordResetToken (fields d) = None
    /\ isModified "passwordResetToken" d = true
    /\ save us a d true = inr (users_after (resetPassword cfg us a req), d').
Proof.
  intros Hraw. unfold resetPassword. rewrite Hraw.
  destruct (findOne us _ false) as [d|] eqn:Ef; [|discriminate].
  destruct (save us a _ true) as [exn|[us' d5]] eqn:Es; [discriminate|].
  intros _. apply findOne_some in Ef. destruct Ef as [w [Hw [Hf [_ ->]]]].
  unfold reset_filter in Hf. apply andb_true_iff in Hf. destruct Hf as [Hf _].
  destruct (passwordResetToken w) as [h|] eqn:Eh; [|discriminate].
  cbn [option_eqb] in Hf. apply String.eqb_eq in Hf. subst h.
  eexists w, _, d5. split; [exact Hw|]. split; [exact Eh|].
  split; [|split; [|split; [|split; [|exact Es]]]]; try reflexivity.
  unfold set_passwordResetExpiresIn, set_passwordResetToken, set_passwordConfirmation,
    set_password, touch, loaded, isModified.
  cbn [fields isNew modifiedPaths passwordResetToken with_passwordConfirmation
       with_password with_passwordResetToken with_passwordResetExpiresIn].
  rewrite Eh. cbn [option_eqb negb].
  destruct (negb (option_eqb Z.eqb _ None)); cbn [existsb]; rewrite String.eqb_refl;
    now rewrite ?orb_true_r.
Qed.

(** X8. A reset token works once.  When [resetPassword] has answered a
    request for the raw token [raw] with a token reply, and the users that
    held the hash of [raw] all had one id, then no stored user holds that hash
    any more and every further [resetPassword] with [raw] is refused with the
    400 error, leaving the collection as it is. *)
Theorem reset_token_works_once :
  forall (us : list User) (a : Ambient) (req : Request) (raw : string)
         (code : Z) (c : option Cookie) (r : Reply),
    param "resetToken" (params req) = Some raw ->
    outcome (resetPassword cfg us a req) = Json code c r ->
    (forall u v, In u us -> In v us ->
                 passwordResetToken u = Some (sha256_hex raw) ->
                 passwordResetToken v = Some (sha256_hex raw) -> _id u = _id v) ->
    let us' := users_after (resetPassword cfg us a req) in
    (forall u, In u us' -> passwordResetToken u <> Some (sha256_hex raw))
    /\ forall (a' : Ambient) (req' : Request),
         param "resetToken" (params req') = Some raw ->
         resetPassword cfg us' a' req'
         = {| users_after := us'; mails := [];
              outcome := Fail (Operational
                           (new_ErrorHandler "Token is invalid or expired." 400)) |}.
Proof.
  intros us a req raw code c r Hraw Hout Hone us'.
  destruct (resetPassword_success us a req raw code c r Hraw Hout)
    as [w [d [d' [Hw [Hh [Hnew [Hid [Htok [Hmod Hsave]]]]]]]]].
  destruct (save_existing_shape us a d true _ d' Hnew Hsave)
    as [d2 [Hus [_ [Hid2 [Htok2 [_ Hmono]]]]]].
  assert (Hgone : forall u, In u us' -> passwordResetToken u <> Some (sha256_hex raw)).
  { intros u Hu. unfold us' in Hu. rewrite Hus in Hu. unfold store_update in Hu.
    apply in_map_iff in Hu. destruct Hu as [u0 [<- Hu0]].
    destruct (String.eqb_spec (_id u0) (_id (fields d2))) as [E|E].
    - destruct (fold_write_path_reset (fields d2) (modifiedPaths d2) u0) as [Ht _].
      rewrite Ht. fold (isModified "passwordResetToken" d2).
      rewrite (Hmono _ Hmod), Htok2, Htok. discriminate.
    - intros Hu0h. apply E. rewrite Hid2, Hid. exact (Hone u0 w Hu0 Hw Hu0h Hh). }
  split; [exact Hgone|].
  intros a' req' Hraw'. unfold resetPassword. rewrite Hraw'.
  rewrite (reset_lookup_fails us' a' raw (or_introl Hgone)). reflexivity.
Qed.

(** X9. [updatePassword] writes to the collection only for a caller it has
    re-fetched as a stored, active user and whose current password
    [bcrypt.compare] accepted against the stored hash; otherwise the
    collection is returned as it was. *)
Theorem updatePassword_needs_current_password :
  forall (us : list User) (a : Ambient) (req : Request),
    users_after (updatePassword cfg us a req) <> us ->
    exists me w cur stored,
      user req = Some me /\ In w us /\ _id w = _id me /\ isActive w = true
      /\ password w = Some stored
      /\ get "currentPassword" (body req) = Some cur
      /\ isPasswordCorrect (castString cur) stored = true.
Proof.
  intros us a req. unfold updatePassword.
  destruct (user req) as [me|]; [|intros H; now elim H].
  destruct (findById us (_id me) true) as [d|] eqn:Ef; [|intros H; now elim H].
  destruct (get "currentPassword" (body req)) as [[cur| |]|];
    destruct (password (fields d)) as [stored|] eqn:Epw;
    try (intros H; now elim H).
  destruct (isPasswordCorrect cur stored) eqn:Eok; [|intros H; now elim H].
  intros _. apply findOne_some in Ef. destruct Ef as [w [Hw [Hid [Hact ->]]]].
  apply String.eqb_eq in Hid.
  exists me, w, (VStr cur), stored. repeat split; assumption.
Qed.

End PasswordWrites.

Lemma reset_token_works_once_witness :
  let us' := users_after
               (@resetPassword sample_primitives development [alice_pending; bob]
                  (at_time 1700000100000 true)
                  (request [("password", VStr "new-password");
                            ("passwordConfirmation", VStr "new-password")]
                           [("resetToken", "91c0de")] None)) in
  @resetPassword sample_primitives development us' (at_time 1700000200000 true)
    (request [("password", VStr "another-password");
              ("passwordConfirmation", VStr "another-password")]
             [("resetToken", "91c0de")] None)
  = {| users_after := us'; mails := [];
       outcome := Fail (Operational
                    (new_ErrorHandler "Token is invalid or expired." 400)) |}.
Proof.
  intros us'.
  refine (proj2 (@reset_token_works_once sample_primitives development
                   [alice_pending; bob] (at_time 1700000100000 true)
                   (request [("password", VStr "new-password");
                             ("passwordConfirmation", VStr "new-password")]
                            [("resetToken", "91c0de")] None)
                   "91c0de" _ _ _ eq_refl eq_refl _)
                (at_time 1700000200000 true)
                (request [("password", VStr "another-password");
                          ("passwordConfirmation", VStr "another-password")]
                         [("resetToken", "91c0de")] None)
                eq_refl).
  intros u v [<-|[<-|[]]] [<-|[<-|[]]]; simpl; intros; try reflexivity; discriminate.
Defined.

Lemma updatePassword_needs_current_password_witness :
  exists me w cur stored,
    Some alice = Some me /\ In w [alice; bob] /\ _id w = _id me /\ isActive w = true
    /\ password w = Some stored
    /\ get "currentPassword"
         [("currentPassword", VStr "old-password"); ("newPassword", VStr "new-password");
          ("newPasswordConfirmation", VStr "new-password")] = Some cur
    /\ @isPasswordCorrect sample_primitives (@castString sample_primitives cur) stored
       = true.
Proof.
  apply (@updatePassword_needs_current_password sample_primitives development
           [alice; bob] (at_time 1700000010000 true)
           (request [("currentPassword", VStr "old-password");
                     ("newPassword", VStr "new-password");
                     ("newPasswordConfirmation", VStr "new-password")]
                    [] (Some alice))).
  vm_compute. discriminate.
Defined.

(* ------------------------------------------------------------------ *)
(** ** What the requests of the auth controller leave alone *)

Lemma NoDup_snoc {A} (l : list A) (x : A) :
  NoDup l -> ~ In x l -> NoDup (l ++ [x]).
Proof.
  induction l as [|y l IH]; intros Hnd Hx; simpl.
  - constructor; [intros []|constructor].
  - inversion Hnd as [|? ? Hy Hl]; subst. constructor.
    + intros Hin. apply in_app_or in Hin. destruct Hin as [Hin|[->|[]]].
      * contradiction.
      * apply Hx. now left.
    + apply IH; [exact Hl|]. intros Hin. apply Hx. now right.
Qed.

Lemma map_id_of_identity (us : list User) :
  map _id us = map fst (map identity_of us).
Proof. rewrite map_map. reflexivity. Qed.

Lemma map_email_of_identity (us : list User) :
  map email us = map (fun i => fst (snd (snd i))) (map identity_of us).
Proof. rewrite map_map. reflexivity. Qed.

Section Identity.
Context {P : Primitives}.
Variable cfg : Config.

Lemma User_create_new_record (us : list User) (a : Ambient) (b : JsObject)
      (us' : list User) (d : Doc) :
  User_create us a b = inr (us', d) ->
  isActive (fields d) = true /\ ~ In (email (fields d)) (map email us).
Proof.
  unfold User_create. destruct (new_User a b) as [d0|] eqn:E0; [|discriminate].
  assert (Hact : isActive (fields d0) = true).
  { unfold new_User in E0.
    destruct (match get "confirmed" b with
              | Some v => castBoolean v
              | None => Some false
              end); [|discriminate].
    injection E0 as <-. reflexivity. }
  destruct (new_User_some a b d0 E0) as [Hnew _].
  unfold save. destruct (validate d0); [|discriminate].
  destruct (pre_save_hash a d0) as [e|d1] eqn:Eh; [discriminate|].
  assert (H1 : isNew d1 = true /\ isActive (fields d1) = true
               /\ email (fields d1) = email (fields d0)).
  { unfold pre_save_hash in Eh.
    destruct (negb (isModified "password" d0)).
    - injection Eh as <-. auto.
    - destruct (password (fields d0)); [|discriminate].
      injection Eh as <-. auto. }
  destruct H1 as [Hn1 [Ha1 He1]].
  unfold pre_save_changedAt. rewrite Hn1, orb_true_r, Hn1.
  unfold store_insert.
  destruct (existsb _ us) eqn:Ex; [discriminate|].
  intros H. inversion H; subst. cbn [saved fields].
  split; [exact Ha1|].
  intros Hin. apply in_map_iff in Hin. destruct Hin as [u [Heq Hu]].
  assert (Hc : existsb (fun u0 => String.eqb (email u0) (email (fields d1))) us = true).
  { apply existsb_exists. exists u. split; [exact Hu|]. rewrite Heq.
    apply String.eqb_refl. }
  congruence.
Qed.

(** What [signUp] makes of the collection: nothing, or one more user. *)
Lemma signUp_new_user (us : list User) (a : Ambient) (req : Request) :
  users_after (signUp cfg us a req) = us
  \/ exists u, users_after (signUp cfg us a req) = (us ++ [u])%list
               /\ _id u = fresh_id a /\ isActive u = true
               /\ ~ In (email u) (map email us)
               /\ (NODE_ENV cfg = "production" -> role u = "user").
Proof.
  unfold signUp.
  destruct (String.eqb_spec (NODE_ENV cfg) "production") as [Hprod|Hdev].
  - destruct (User_create us a _) as [e|[us' d]] eqn:Ec; [now left|].
    right. destruct (User_create_new_record _ _ _ _ _ Ec) as [Hact Hfresh].
    destruct (User_create_inr _ _ _ _ _ Ec) as [d0 [E0 [-> Hd]]].
    destruct (new_User_some _ _ _ E0) as [_ [_ [Hid [Hr _]]]].
    rewrite get_filterBody_dropped in Hr by reflexivity.
    exists (fields d).
    split; [unfold sendConfirmationMail; destruct (mail_delivers a); reflexivity|].
    split; [destruct Hd as [[_ ->]|[p [_ [_ ->]]]]; exact Hid|].
    split; [exact Hact|]. split; [exact Hfresh|].
    intros _. destruct Hd as [[_ ->]|[p [_ [_ ->]]]]; exact Hr.
  - destruct (User_create us a _) as [e|[us' d]] eqn:Ec; [now left|].
    right. destruct (User_create_new_record _ _ _ _ _ Ec) as [Hact Hfresh].
    destruct (User_create_inr _ _ _ _ _ Ec) as [d0 [E0 [-> Hd]]].
    destruct (new_User_some _ _ _ E0) as [_ [_ [Hid _]]].
    exists (fields d). split; [reflexivity|].
    split; [destruct Hd as [[_ ->]|[p [_ [_ ->]]]]; exact Hid|].
    split; [exact Hact|]. split; [exact Hfresh|].
    intros Hp. contradiction.
Qed.

Lemma served_rewritten_or_signUp (us : list User) (a : Ambient) (req : Request)
      (us' : list User) :
  served cfg us a req us' ->
  map identity_of us' = map identity_of us
  \/ (~ In (fresh_id a) (map _id us)
      /\ exists u, us' = (us ++ [u])%list
                   /\ _id u = fresh_id a /\ isActive u = true
                   /\ ~ In (email u) (map email us)
                   /\ (NODE_ENV cfg = "production" -> role u = "user")).
Proof.
  intros [Hfresh| | | | ].
  - destruct (signUp_new_user us a req) as [->|Hu]; [now left|right; auto].
  - left. apply (rewritten_frame a). apply forgotPassword_rewritten.
  - left. apply (rewritten_frame a). apply resetPassword_rewritten.
  - left. apply (rewritten_frame a). apply updatePassword_rewritten.
  - left. apply (rewritten_frame a). apply confirmMail_rewritten.
Qed.

Lemma same_identity_source (us us' : list User) (v' : User) :
  map identity_of us' = map identity_of us -> In v' us' ->
  exists v, In v us /\ identity_of v' = identity_of v.
Proof.
  intros Hmap Hv'. apply (in_map identity_of) in Hv'. rewrite Hmap in Hv'.
  apply in_map_iff in Hv'. destruct Hv' as [v [E Hv]]. exists v. auto.
Qed.

Lemma map_eq_snoc {A B} (f : A -> B) (l l0 : list A) (x : A) :
  map f l = map f (l0 ++ [x]) ->
  exists l1 x', l = (l1 ++ [x'])%list /\ map f l1 = map f l0 /\ f x' = f x.
Proof.
  rewrite map_app. intros H. apply map_eq_app in H.
  destruct H as [l1 [l2 [-> [H1 H2]]]].
  destruct l2 as [|x' [|y l2]]; try discriminate.
  injection H2 as H2. exists l1, x'. auto.
Qed.

(** What served requests make of a collection: the users it had, each in its
    place with its identity, followed by the users signed up since. *)
Lemma later_kept_and_new (t : Z) (us us' : list User) :
  later cfg t us us' ->
  exists kept news,
    us' = (kept ++ news)%list
    /\ map identity_of kept = map identity_of us
    /\ forall n, In n news ->
         isActive n = true /\ ~ In (_id n) (map _id us)
         /\ (NODE_ENV cfg = "production" -> role n = "user").
Proof.
  intros Hlater.
  induction Hlater as [t us|t us a req us1 us' Ht Hserved _ IH].
  - exists us, []. rewrite app_nil_r. split; [reflexivity|]. split; [reflexivity|].
    intros n [].
  - destruct IH as [kept [news [-> [Hkept Hnews]]]].
    destruct (served_rewritten_or_signUp us a req us1 Hserved)
      as [Hmap|[Hfresh [u [-> [Hid [Hact [_ Hrole]]]]]]].
    + exists kept, news. split; [reflexivity|]. split; [congruence|].
      intros n Hn. destruct (Hnews n Hn) as [Ha [Hni Hr]].
      split; [exact Ha|]. split; [|exact Hr].
      rewrite map_id_of_identity, <- Hmap, <- map_id_of_identity. exact Hni.
    + apply map_eq_snoc in Hkept. destruct Hkept as [k1 [u' [-> [Hk1 Hu']]]].
      exists k1, (u' :: news). rewrite <- app_assoc. split; [reflexivity|].
      split; [exact Hk1|].
      unfold identity_of in Hu'. inversion Hu' as [[E1 E2 E3 E4 E5 E6]].
      intros n [<-|Hn].
      * split; [congruence|]. split; [congruence|].
        intros Hprod. rewrite E5. exact (Hrole Hprod).
      * destruct (Hnews n Hn) as [Ha [Hni Hr]].
        split; [exact Ha|]. split; [|exact Hr].
        intros Hin. apply Hni. rewrite map_app. apply in_or_app. now left.
Qed.

(** X10. The requests the auth controller serves never change the id, name,
    email, photo, role or active flag of a stored user.  After any number of
    sign-ups, confirmations, reset requests, resets and password updates the
    collection is the users it had, each in its place with that identity,
    followed by the users signed up since, who are active, have ids the
    collection did not have and, in the production configuration, role
    [user].  So a stored user is inactive, or an admin in production, only
    with the identity of a user stored before: no such request brings a
    soft-deleted user back, renames a user or makes an admin. *)
Theorem auth_requests_keep_identity :
  forall (t : Z) (us us' : list User),
    later cfg t us us' ->
    (exists kept news,
       us' = (kept ++ news)%list
       /\ map identity_of kept = map identity_of us
       /\ forall n, In n news ->
            isActive n = true /\ ~ In (_id n) (map _id us)
            /\ (NODE_ENV cfg = "production" -> role n = "user"))
    /\ (forall i v, nth_error us i = Some v ->
          exists v', nth_error us' i = Some v' /\ identity_of v' = identity_of v)
    /\ (forall v', In v' us' -> isActive v' = false ->
          exists v, In v us /\ identity_of v' = identity_of v)
    /\ (NODE_ENV cfg = "production" ->
        forall v', In v' us' -> role v' = "admin" ->
          exists v, In v us /\ identity_of v' = identity_of v).
Proof.
  intros t us us' Hlater.
  destruct (later_kept_and_new t us us' Hlater) as [kept [news [-> [Hkept Hnews]]]].
  split; [exists kept, news; auto|].
  assert (Hold : forall v', In v' kept ->
                   exists v, In v us /\ identity_of v' = identity_of v)
    by (intros v' Hv'; exact (same_identity_source us kept v' Hkept Hv')).
  split; [|split].
  - intros i v Hi.
    assert (Hm : nth_error (map identity_of kept) i = Some (identity_of v))
      by (rewrite Hkept; apply map_nth_error; exact Hi).
    rewrite nth_error_map in Hm.
    destruct (nth_error kept i) as [v'|] eqn:E; [|discriminate].
    exists v'. split; [|cbn [option_map] in Hm; congruence].
    rewrite nth_error_app1; [exact E|].
    apply nth_error_Some. congruence.
  - intros v' Hv' Hoff. apply in_app_or in Hv'. destruct Hv' as [Hv'|Hv']; [auto|].
    destruct (Hnews v' Hv') as [Ha _]. congruence.
  - intros Hprod v' Hv' Hadmin. apply in_app_or in Hv'.
    destruct Hv' as [Hv'|Hv']; [auto|].
    destruct (Hnews v' Hv') as [_ [_ Hr]]. rewrite (Hr Hprod) in Hadmin. discriminate.
Qed.

(** X11. Unique ids and unique emails are kept: when no two stored users
    share an id or an email, the same holds after any number of requests
    served by the auth controller (a sign-up whose email is taken is refused
    by the unique index, and no other handler assigns an email). *)
Theorem auth_requests_keep_ids_and_emails_unique :
  forall (t : Z) (us us' : list User),
    later cfg t us us' ->
    NoDup (map _id us) -> NoDup (map email us) ->
    NoDup (map _id us') /\ NoDup (map email us').
Proof.
  intros t us us' Hlater.
  induction Hlater as [t us|t us a req us' us'' Ht Hserved _ IH]; intros Hid Hem.
  - auto.
  - destruct (served_rewritten_or_signUp us a req us' Hserved)
      as [Hmap|[Hfresh [u [-> [Hu [_ [Hemail _]]]]]]].
    + apply IH.
      * rewrite map_id_of_identity, Hmap, <- map_id_of_identity. exact Hid.
      * rewrite map_email_of_identity, Hmap, <- map_email_of_identity. exact Hem.
    + apply IH.
      * rewrite map_app. cbn [map]. apply NoDup_snoc; [exact Hid|now rewrite Hu].
      * rewrite map_app. cbn [map]. apply NoDup_snoc; assumption.
Qed.

End Identity.

Lemma carol_signs_up_in_production :
  @later sample_primitives production 1700000000000 [alice; root]
    (users_after (@signUp sample_primitives production [alice; root]
                    (at_time 1700000000000 true) (request carols_payload [] None))).
Proof.
  eapply (later_served production 1700000000000 [alice; root]
            (at_time 1700000000000 true) (request carols_payload [] None)).
  - vm_compute. discriminate.
  - apply served_signUp. simpl. intuition discriminate.
  - apply later_now.
Qed.

Lemma auth_requests_keep_identity_witness :
  let us' := users_after (@signUp sample_primitives production [alice; root]
                            (at_time 1700000000000 true)
                            (request carols_payload [] None)) in
  (exists v', nth_error us' 1 = Some v' /\ identity_of v' = identity_of root)
  /\ forall v', In v' us' -> role v' = "admin" ->
       exists v, In v [alice; root] /\ identity_of v' = identity_of v.
Proof.
  intros us'.
  destruct (@auth_requests_keep_identity sample_primitives production
              1700000000000 [alice; root] us' carol_signs_up_in_production)
    as [_ [Hplace [_ Hadmin]]].
  split.
  - exact (Hplace 1%nat root eq_refl).
  - exact (Hadmin eq_refl).
Defined.

Lemma auth_requests_keep_ids_and_emails_unique_witness :
  NoDup (map _id (users_after (@signUp sample_primitives production [alice; root]
                                 (at_time 1700000000000 true)
                                 (request carols_payload [] None))))
  /\ NoDup (map email (users_after (@signUp sample_primitives production [alice; root]
                                      (at_time 1700000000000 true)
                                      (request carols_payload [] None)))).
Proof.
  apply (@auth_requests_keep_ids_and_emails_unique sample_primitives production
           1700000000000 [alice; root] _ carol_signs_up_in_production).
  - repeat constructor; simpl; intuition discriminate.
  - repeat constructor; simpl; intuition discriminate.
Defined.

(* ------------------------------------------------------------------ *)
(** ** Passwords that do not match their confirmation *)

Section Mismatch.
Context {P : Primitives}.
Variable cfg : Config.

Lemma validate_mismatch (d : Doc) (c : string) :
  passwordConfirmation (fields d) = Some c -> c <> "" ->
  password (fields d) <> Some c ->
  In "Password and Password Confirmation does not match." (validate d).
Proof.
  intros Hc Hne Hpw. unfold validate.
  repeat (apply in_or_app; right). rewrite Hc.
  apply String.eqb_neq in Hne. rewrite Hne.
  destruct (option_eqb String.eqb (password (fields d)) (Some c)) eqn:E.
  - exfalso. apply Hpw. destruct (password (fields d)) as [p|]; [|discriminate].
    cbn [option_eqb] in E. apply String.eqb_eq in E. now subst.
  - now left.
Qed.

Lemma save_refuses_mismatch (us : list User) (a : Ambient) (d : Doc) (c : string) :
  passwordConfirmation (fields d) = Some c -> c <> "" ->
  password (fields d) <> Some c ->
  exists msgs, save us a d true = inl (ValidationError msgs).
Proof.
  intros Hc Hne Hpw. pose proof (validate_mismatch d c Hc Hne Hpw) as Hin.
  unfold save. destruct (validate d) as [|m ms]; [contradiction|].
  eexists. reflexivity.
Qed.

(** X12. A password and a confirmation that differ are refused by validation
    before anything is hashed, stored or mailed: [signUp] (in production) and
    [resetPassword] (for a token that finds its user) both hand on a
    [ValidationError] and leave the collection as it was; the reset token
    stays pending. *)
Theorem mismatched_confirmation_writes_nothing :
  forall (us : list User) (a : Ambient) (req : Request) (p c : JsVal),
    get "password" (body req) = Some p ->
    get "passwordConfirmation" (body req) = Some c ->
    castString c <> "" -> castString p <> castString c ->
    (NODE_ENV cfg = "production" ->
       exists msgs,
         signUp cfg us a req
         = {| users_after := us; mails := [];
              outcome := Fail (Raised (ValidationError msgs)) |})
    /\ (forall raw found,
          param "resetToken" (params req) = Some raw ->
          findOne us (reset_filter (sha256_hex raw) a) false = Some found ->
          exists msgs,
            resetPassword cfg us a req
            = {| users_after := us; mails := [];
                 outcome := Fail (Raised (ValidationError msgs)) |}).
Proof.
  intros us a req p c Hp Hc Hne Hdiff. split.
  - intros Hprod. unfold signUp. rewrite Hprod. cbn [String.eqb Ascii.eqb Bool.eqb].
    set (b := filterBody (body req) _).
    assert (Hbp : get "password" b = Some p)
      by (unfold b; rewrite get_filterBody_allowed by reflexivity; exact Hp).
    assert (Hbc : get "passwordConfirmation" b = Some c)
      by (unfold b; rewrite get_filterBody_allowed by reflexivity; exact Hc).
    assert (Hbconf : get "confirmed" b = None)
      by (unfold b; apply get_filterBody_dropped; reflexivity).
    unfold User_create, new_User. rewrite Hbconf, Hbp, Hbc. cbn [option_map].
    match goal with
    | |- context [save us a ?d true] =>
        destruct (save_refuses_mismatch us a d (castString c) eq_refl Hne)
          as [msgs Hs]
    end.
    { cbn [fields password]. intros E. injection E as E. contradiction. }
    rewrite Hs. exists msgs. reflexivity.
  - intros raw found Hraw Hfound. unfold resetPassword. rewrite Hraw, Hfound, Hp, Hc.
    cbn [option_map].
    match goal with
    | |- context [save us a ?d true] =>
        destruct (save_refuses_mismatch us a d (castString c)) as [msgs Hs]
    end.
    + reflexivity.
    + exact Hne.
    + apply findOne_some in Hfound. destruct Hfound as [w [_ [_ [_ ->]]]].
      unfold set_passwordResetExpiresIn, set_passwordResetToken,
        set_passwordConfirmation, set_password, touch, loaded.
      cbn [fields password with_passwordResetExpiresIn with_passwordResetToken
           with_passwordConfirmation with_password].
      intros E. injection E as E. contradiction.
    + rewrite Hs. exists msgs. reflexivity.
Qed.

End Mismatch.

Lemma mismatched_confirmation_writes_nothing_witness :
  exists msgs,
    @signUp sample_primitives production [alice] (at_time 1700000000000 true)
      (request [("name", VStr "Dave"); ("email", VStr "dave@example.org");
                ("password", VStr "secret123");
                ("passwordConfirmation", VStr "mismatch")] [] None)
    = {| users_after := [alice]; mails := [];
         outcome := Fail (Raised (ValidationError msgs)) |}.
Proof.
  apply (@mismatched_confirmation_writes_nothing sample_primitives production [alice]
           (at_time 1700000000000 true)
           (request [("name", VStr "Dave"); ("email", VStr "dave@example.org");
                     ("password", VStr "secret123");
                     ("passwordConfirmation", VStr "mismatch")] [] None)
           (VStr "secret123") (VStr "mismatch") eq_refl eq_refl).
  - discriminate.
  - discriminate.
  - reflexivity.
Defined.

(* ------------------------------------------------------------------ *)
(** ** Users a find query does not see *)

Lemma findOne_inactive (us : list User) (f : User -> bool) (sel : bool) :
  (forall u, In u us -> f u = true -> isActive u = false) ->
  findOne us f sel = None.
Proof.
  intros H. unfold findOne.
  replace (find (pre_find f) us) with (@None User); [reflexivity|].
  symmetry. apply find_none_iff. intros u Hu. unfold pre_find.
  destruct (f u) eqn:Ef; [|reflexivity]. now rewrite (H u Hu Ef).
Qed.

Lemma findById_unique (us : list User) (w : User) (sel : bool) :
  NoDup (map _id us) -> In w us -> isActive w = true ->
  findById us (_id w) sel = Some (loaded sel w).
Proof.
  intros Hnd Hw Hact. unfold findById, findOne.
  destruct (find_exists (pre_find (fun u => String.eqb (_id u) (_id w))) us w Hw)
    as [y Hy].
  { unfold pre_find. now rewrite String.eqb_refl, Hact. }
  rewrite Hy. apply find_some in Hy. destruct Hy as [Hyin Hyf].
  unfold pre_find in Hyf. apply andb_true_iff in Hyf. destruct Hyf as [Hyid _].
  apply String.eqb_eq in Hyid.
  now rewrite (NoDup_map_inj _id us y w Hnd Hyin Hw Hyid).
Qed.

Section SoftDeleted.
Context {P : Primitives}.
Variable cfg : Config.

(** X13. A soft-deleted user is out of reach of the other handlers as well.
    When every stored user with the given email is inactive,
    [forgotPassword] and [resendConfirmationMail] answer 404 as for an
    unknown email, write nothing and send nothing; when every holder of the
    token's hash is inactive, [resetPassword] answers 400 and changes no
    password; when every user of the token's id is inactive, [confirmMail]
    answers 400 and confirms nobody. *)
Theorem soft_deleted_user_is_out_of_reach :
  forall (us : list User) (a : Ambient) (req : Request),
    (forall e, get "email" (body req) = Some e -> truthy (Some e) = true ->
       (forall u, In u us -> email u = toLowerCase (castString e) ->
                  isActive u = false) ->
       forgotPassword us a req
       = {| users_after := us; mails := [];
            outcome := Fail (Operational (new_ErrorHandler
                         "No user exists with that email id" 404)) |}
       /\ resendConfirmationMail cfg us a req
          = {| users_after := us; mails := [];
               outcome := Fail (Operational (new_ErrorHandler
                 "No user found for the given email address. Try Signing up." 404)) |})
    /\ (forall raw, param "resetToken" (params req) = Some raw ->
          (forall u, In u us -> passwordResetToken u = Some (sha256_hex raw) ->
                     isActive u = false) ->
          resetPassword cfg us a req
          = {| users_after := us; mails := [];
               outcome := Fail (Operational (new_ErrorHandler
                            "Token is invalid or expired." 400)) |})
    /\ (forall t, params_tokenId req = Some (Signed t) ->
          signed_with t = JWT_SECRET_KEY cfg -> seconds (now a) < exp (payload t) ->
          (forall u, In u us -> _id u = jwt_id (payload t) -> isActive u = false) ->
          confirmMail cfg us a req
          = {| users_after := us; mails := [];
               outcome := Fail (Operational (new_ErrorHandler
                            "Invalid Token or The token has been modified." 400)) |}).
Proof.
  intros us a req. split; [|split].
  - intros e He Ht Hoff.
    assert (Hnone : findByEmail us e = None).
    { apply findOne_inactive. intros u Hu Hf. apply String.eqb_eq in Hf. auto. }
    unfold forgotPassword, resendConfirmationMail. rewrite He, Ht, Hnone.
    split; reflexivity.
  - intros raw Hraw Hoff. unfold resetPassword. rewrite Hraw.
    rewrite findOne_inactive; [reflexivity|].
    intros u Hu Hf. unfold reset_filter in Hf. apply andb_true_iff in Hf.
    destruct Hf as [Hf _]. apply (Hoff u Hu).
    destruct (passwordResetToken u) as [h|]; [|discriminate].
    cbn [option_eqb] in Hf. apply String.eqb_eq in Hf. now subst.
  - intros t Htok Hkey Hexp Hoff. unfold confirmMail. rewrite Htok.
    cbn [text_truthy negb]. rewrite (jwt_verify_ok t _ (now a) Hkey Hexp).
    rewrite (findById_inactive us _ false Hoff). reflexivity.
Qed.

Lemma confirmMail_found :
  forall (us : list User) (a : Ambient) (req : Request) (t : Jwt) (w : User),
    params_tokenId req = Some (Signed t) ->
    signed_with t = JWT_SECRET_KEY cfg -> seconds (now a) < exp (payload t) ->
    NoDup (map _id us) -> In w us -> _id w = jwt_id (payload t) -> isActive w = true ->
    let res := confirmMail cfg us a req in
    outcome res = sendJwtToken cfg a (with_confirmed true (with_password None w)) 201 req
    /\ mails res = []
    /\ map identity_of (users_after res) = map identity_of us
    /\ (forall v, In v (users_after res) -> _id v = _id w -> confirmed v = true).
Proof.
  intros us a req t w Htok Hkey Hexp Hnd Hw Hid Hact res.
  set (d1 := set_confirmed true (loaded false w)).
  assert (Hsave : save us a d1 false = inr (store_update d1 us, saved d1)).
  { apply save_existing_untouched_password; [reflexivity|].
    unfold d1, set_confirmed, touch, isModified. cbn [modifiedPaths loaded].
    destruct (negb _); reflexivity. }
  assert (Hres : res = {| users_after := store_update d1 us; mails := [];
                          outcome := sendJwtToken cfg a (fields (saved d1)) 201 req |}).
  { unfold res, confirmMail. rewrite Htok. cbn [text_truthy negb].
    rewrite (jwt_verify_ok t _ (now a) Hkey Hexp), <- Hid.
    rewrite (findById_unique us w false Hnd Hw Hact).
    fold d1. rewrite Hsave. reflexivity. }
  rewrite Hres. cbn [outcome mails users_after].
  split; [reflexivity|]. split; [reflexivity|].
  split; [apply store_update_frame|].
  intros v Hv Hvid.
  rewrite (store_update_unique d1 us w v Hnd Hw Hv Hvid).
  replace (_id (fields d1)) with (_id w) by reflexivity. rewrite String.eqb_refl.
  destruct (fold_write_path_reset (fields d1) (modifiedPaths d1) w) as [_ Hc].
  rewrite Hc. unfold d1, set_confirmed, touch.
  cbn [fields modifiedPaths loaded confirmed with_confirmed with_password].
  destruct (confirmed w); reflexivity.
Qed.

(** X14. [confirmMail] with a token that is signed with the server's key, not
    expired and names a stored, active user (ids being unique) answers 201
    with a fresh token for that user, leaves every stored user's identity as
    it was, and the user of that id is confirmed afterwards.  The handler asks
    neither what the token was issued for nor whether the password was
    changed since. *)
Theorem confirmMail_confirms :
  forall (us : list User) (a : Ambient) (req : Request) (t : Jwt) (w : User),
    params_tokenId req = Some (Signed t) ->
    signed_with t = JWT_SECRET_KEY cfg -> seconds (now a) < exp (payload t) ->
    NoDup (map _id us) -> In w us -> _id w = jwt_id (payload t) -> isActive w = true ->
    let res := confirmMail cfg us a req in
    outcome res = sendJwtToken cfg a (with_confirmed true (with_password None w)) 201 req
    /\ mails res = []
    /\ map identity_of (users_after res) = map identity_of us
    /\ (forall v, In v (users_after res) -> _id v = _id w -> confirmed v = true).
Proof. exact confirmMail_found. Qed.

End SoftDeleted.

Lemma soft_deleted_user_is_out_of_reach_witness :
  @forgotPassword sample_primitives [alice; carol_deleted] (at_time 1700000000000 true)
    (request [("email", VStr "carol@example.org")] [] None)
  = {| users_after := [alice; carol_deleted]; mails := [];
       outcome := Fail (Operational (new_ErrorHandler
                    "No user exists with that email id" 404)) |}.
Proof.
  refine (proj1 (proj1 (@soft_deleted_user_is_out_of_reach sample_primitives
                          development [alice; carol_deleted]
                          (at_time 1700000000000 true)
                          (request [("email", VStr "carol@example.org")] [] None))
                       (VStr "carol@example.org") eq_refl eq_refl _)).
  intros u [<-|[<-|[]]] He; [discriminate|reflexivity].
Defined.

Lemma confirmMail_confirms_witness :
  let us := [with_confirmed false alice; bob] in
  let req := {| body := []; params := [];
                params_tokenId := Some (Signed (getJwtToken production
                                                  (at_time 1700000000000 true)
                                                  "user-alice"));
                authorization := None; cookies_jwt := None; secure := false;
                protocol := "https"; host := "emploi.example.org"; user := None |} in
  let res := @confirmMail sample_primitives production us
               (at_time 1700000050000 true) req in
  outcome res
  = sendJwtToken production (at_time 1700000050000 true)
      (with_confirmed true (with_password None (with_confirmed false alice))) 201 req
  /\ mails res = []
  /\ users_after res = [with_confirmed true alice; bob].
Proof.
  intros us req res.
  destruct (@confirmMail_confirms sample_primitives production us
              (at_time 1700000050000 true) req
              (getJwtToken production (at_time 1700000000000 true) "user-alice")
              (with_confirmed false alice) eq_refl eq_refl)
    as [Hout [Hmails _]].
  - vm_compute. reflexivity.
  - repeat constructor; simpl; intuition discriminate.
  - left. reflexivity.
  - reflexivity.
  - reflexivity.
  - split; [exact Hout|]. split; [exact Hmails|]. reflexivity.
Defined.

(* ------------------------------------------------------------------ *)
(** ** The token in the confirmation mail *)

Section ConfirmationLink.
Context {P : Primitives}.
Variable cfg : Config.

Lemma new_User_blank (a : Ambient) (b : JsObject) (d0 : Doc) :
  new_User a b = Some d0 ->
  isActive (fields d0) = true /\ passwordChangedAt (fields d0) = None.
Proof.
  unfold new_User.
  destruct (match get "confirmed" b with
            | Some v => castBoolean v
            | None => Some false
            end); [|discriminate].
  intros H. injection H as <-. split; reflexivity.
Qed.

(** The user behind the one mail a production sign-up sends. *)
Lemma signUp_production_mail (us : list User) (a : Ambient) (req : Request) (m : Mail) :
  NODE_ENV cfg = "production" ->
  mails (signUp cfg us a req) = [m] ->
  exists u, users_after (signUp cfg us a req) = (us ++ [u])%list
            /\ _id u = fresh_id a /\ isActive u = true /\ confirmed u = false
            /\ passwordChangedAt u = None
            /\ mail_to m = u /\ mail_kind m = ConfirmationMail
            /\ snd (mail_url m) = Signed (getJwtToken cfg a (fresh_id a)).
Proof.
  intros Hprod. unfold signUp. rewrite Hprod. cbn [String.eqb Ascii.eqb Bool.eqb].
  destruct (User_create us a _) as [e|[us' d]] eqn:Ec; [discriminate|].
  destruct (User_create_inr _ _ _ _ _ Ec) as [d0 [E0 [-> Hd]]].
  destruct (new_User_some _ _ _ E0) as [_ [_ [Hid [_ [Hconf _]]]]].
  destruct (new_User_blank _ _ _ E0) as [Hact Hstamp].
  rewrite get_filterBody_dropped in Hconf by reflexivity. specialize (Hconf eq_refl).
  assert (Hu : _id (fields d) = fresh_id a /\ isActive (fields d) = true
               /\ confirmed (fields d) = false /\ passwordChangedAt (fields d) = None).
  { destruct Hd as [[_ ->]|[p [_ [_ ->]]]]; cbn; auto. }
  destruct Hu as [Hu1 [Hu2 [Hu3 Hu4]]].
  unfold sendConfirmationMail. destruct (mail_delivers a); [|discriminate].
  intros H. injection H as <-.
  exists (fields d). cbn [mail_to mail_kind mail_url snd]. rewrite Hu1.
  repeat split; assumption.
Qed.

(** X15. The token in the confirmation link is a session token.  After a
    production sign-up whose mail went out (the new id not being in use), a
    request that presents the token of the mailed link is let through by
    [isAuthenticated] until the token expires, as the user just created, who
    is not confirmed: [isAuthenticated] does not read [confirmed], which only
    [login] does. *)
Theorem confirmation_link_token_authenticates :
  forall (us : list User) (a : Ambient) (req : Request) (m : Mail),
    NODE_ENV cfg = "production" ->
    mails (signUp cfg us a req) = [m] ->
    ~ In (fresh_id a) (map _id us) ->
    0 <= now a -> stamps_in_past (now a) us ->
    forall (a1 : Ambient) (req1 : Request),
      tokenId_of req1 = Some (snd (mail_url m)) ->
      seconds (now a1) < seconds (now a) + JWT_EXPIRATION_TIME cfg ->
      exists u, In u (users_after (signUp cfg us a req))
                /\ mail_to m = u /\ confirmed u = false
                /\ isAuthenticated cfg (users_after (signUp cfg us a req)) a1 req1
                   = Continue (set_user (with_password None u) req1).
Proof.
  intros us a req m Hprod Hmail Hfresh Ha Hpast a1 req1 Htok Hexp.
  destruct (signUp_production_mail us a req m Hprod Hmail)
    as [u [Hus [Hid [Hact [Hconf [Hstamp [Hto [_ Hurl]]]]]]]].
  rewrite Hurl in Htok. rewrite Hus.
  destruct (fresh_token_passes cfg (us ++ [u]) a a1 req1 (fresh_id a) Ha)
    as [v [Hv [Hvid [_ Hauth]]]]; try assumption.
  - intros x c Hx Hc. apply in_app_or in Hx. destruct Hx as [Hx|[<-|[]]].
    + exact (Hpast x c Hx Hc).
    + congruence.
  - exists u. split; [apply in_or_app; right; now left|auto].
  - assert (v = u).
    { apply in_app_or in Hv. destruct Hv as [Hv|[<-|[]]]; [|reflexivity].
      exfalso. apply Hfresh. rewrite <- Hvid. now apply in_map. }
    subst v. exists u. split; [apply in_or_app; right; now left|auto].
Qed.

Lemma link_confirms (us : list User) (a a1 : Ambient) (req1 : Request) (u : User) :
  NoDup (map _id us) -> In u us -> isActive u = true ->
  params_tokenId req1 = Some (Signed (getJwtToken cfg a (_id u))) ->
  seconds (now a1) < seconds (now a) + JWT_EXPIRATION_TIME cfg ->
  outcome (confirmMail cfg us a1 req1)
  = sendJwtToken cfg a1 (with_confirmed true (with_password None u)) 201 req1
  /\ map identity_of (users_after (confirmMail cfg us a1 req1)) = map identity_of us
  /\ (forall v, In v (users_after (confirmMail cfg us a1 req1)) ->
        _id v = _id u -> confirmed v = true).
Proof.
  intros Hnd Hu Hact Htok Hexp.
  destruct (confirmMail_found cfg us a1 req1 (getJwtToken cfg a (_id u)) u
              Htok eq_refl Hexp Hnd Hu eq_refl Hact) as [H1 [_ [H2 H3]]].
  auto.
Qed.

(** X22. Following the mailed link confirms the new user.  After a production
    sign-up whose mail went out (ids unique, the new id not in use),
    [confirmMail] with the token of the mailed link, before the token
    expires, answers 201 with a token for the user just created, who was
    unconfirmed and is confirmed afterwards; every user's identity stays as
    it was. *)
Theorem mailed_link_confirms_new_user :
  forall (us : list User) (a : Ambient) (req : Request) (m : Mail),
    NODE_ENV cfg = "production" ->
    mails (signUp cfg us a req) = [m] ->
    NoDup (map _id us) -> ~ In (fresh_id a) (map _id us) ->
    forall (a1 : Ambient) (req1 : Request),
      params_tokenId req1 = Some (snd (mail_url m)) ->
      seconds (now a1) < seconds (now a) + JWT_EXPIRATION_TIME cfg ->
      let res := confirmMail cfg (users_after (signUp cfg us a req)) a1 req1 in
      confirmed (mail_to m) = false
      /\ outcome res
         = sendJwtToken cfg a1 (with_confirmed true (with_password None (mail_to m)))
             201 req1
      /\ map identity_of (users_after res) = map identity_of (us ++ [mail_to m])
      /\ (forall v, In v (users_after res) -> _id v = fresh_id a -> confirmed v = true).
Proof.
  intros us a req m Hprod Hmail Hnd Hfresh a1 req1 Htok Hexp res.
  destruct (signUp_production_mail us a req m Hprod Hmail)
    as [u [Hus [Hid [Hact [Hconf [_ [Hto [_ Hurl]]]]]]]].
  unfold res. rewrite Hus, Hto. rewrite Hurl, <- Hid in Htok.
  destruct (link_confirms (us ++ [u]) a a1 req1 u) as [H1 [H2 H3]]; try assumption.
  - rewrite map_app. apply NoDup_snoc; [assumption|]. cbn [map]. now rewrite Hid.
  - apply in_or_app. right. now left.
  - rewrite <- Hid. auto.
Qed.


(* ------------------------------------------------------------------ *)
(** ** What a token answer holds *)






End ConfirmationLink.

Lemma confirmation_link_token_authenticates_witness :
  let res := @signUp sample_primitives production [alice] (at_time 1700000000000 true)
               (request carols_payload [] None) in
  let tok := getJwtToken production (at_time 1700000000000 true) "fresh-id" in
  exists m, mails res = [m]
    /\ exists u, In u (users_after res) /\ mail_to m = u /\ confirmed u = false
         /\ isAuthenticated production (users_after res) (at_time 1700000050000 true)
              (bearer tok)
            = Continue (set_user (with_password None u) (bearer tok)).
Proof.
  intros res tok. eexists. split; [reflexivity|].
  eapply (@confirmation_link_token_authenticates sample_primitives production [alice]
            (at_time 1700000000000 true) (request carols_payload [] None)).
  - reflexivity.
  - reflexivity.
  - simpl. intuition discriminate.
  - vm_compute. discriminate.
  - intros u c [<-|[]]; discriminate.
  - reflexivity.
  - vm_compute. reflexivity.
Defined.

Lemma mailed_link_confirms_new_user_witness :
  let a := at_time 1700000000000 true in
  let a1 := at_time 1700000050000 true in
  let res0 := @signUp sample_primitives production [alice] a
                (request carols_payload [] None) in
  let req1 := {| body := []; params := [];
                 params_tokenId := Some (Signed (getJwtToken production a "fresh-id"));
                 authorization := None; cookies_jwt := None; secure := false;
                 protocol := "https"; host := "emploi.example.org"; user := None |} in
  let res := @confirmMail sample_primitives production (users_after res0) a1 req1 in
  exists m, mails res0 = [m]
    /\ confirmed (mail_to m) = false
    /\ outcome res
       = sendJwtToken production a1
           (with_confirmed true (with_password None (mail_to m))) 201 req1.
Proof.
  intros a a1 res0 req1 res. eexists. split; [reflexivity|].
  destruct (@mailed_link_confirms_new_user sample_primitives production [alice] a
              (request carols_payload [] None) _ eq_refl eq_refl)
    with (a1 := a1) (req1 := req1) as [H1 [H2 _]].
  - repeat constructor; simpl; intuition discriminate.
  - simpl. intuition discriminate.
  - reflexivity.
  - vm_compute. reflexivity.
  - split; [exact H1|exact H2].
Defined.



(* ------------------------------------------------------------------ *)
(** ** The Completed controller *)

Lemma get_put_same (k : string) (v : JsVal) (o : JsObject) :
  get k (put k v o) = Some v.
Proof.
  induction o as [|[k' v'] o IH]; cbn [put get].
  - now rewrite String.eqb_refl.
  - destruct (String.eqb k k') eqn:E; cbn [get]; rewrite ?String.eqb_refl, ?E; auto.
Qed.

Lemma get_put_other (k k0 : string) (v : JsVal) (o : JsObject) :
  k0 <> k -> get k0 (put k v o) = get k0 o.
Proof.
  intros Hne. apply String.eqb_neq in Hne.
  induction o as [|[k' v'] o IH]; cbn [put get].
  - now rewrite Hne.
  - destruct (String.eqb_spec k k') as [<-|Hk]; cbn [get].
    + now rewrite Hne.
    + destruct (String.eqb k0 k'); [reflexivity|exact IH].
Qed.

Lemma get_unset_same (k : string) (o : JsObject) : get k (unset k o) = None.
Proof.
  induction o as [|[k' v'] o IH]; cbn [unset filter get fst]; [reflexivity|].
  destruct (String.eqb k k') eqn:E; cbn [negb get]; [exact IH|].
  rewrite E. exact IH.
Qed.

Lemma get_unset_other (k k0 : string) (o : JsObject) :
  k0 <> k -> get k0 (unset k o) = get k0 o.
Proof.
  intros Hne.
  induction o as [|[k' v'] o IH]; cbn [unset filter get fst]; [reflexivity|].
  destruct (String.eqb_spec k k') as [<-|Hk]; cbn [negb get].
  - apply String.eqb_neq in Hne. rewrite Hne. exact IH.
  - destruct (String.eqb k0 k'); [reflexivity|exact IH].
Qed.

(** X17. [setCompletedBody] never replaces a user the body names.  When the
    body names none, or a falsy one (an empty string, [0], [false]),
    [body.user] becomes what the route has as [userId]: that id, or
    [undefined] when the route has none; every other field of the body and
    the rest of the request are as before. *)
Theorem setCompletedBody_fills_in_route_user :
  forall (req : Request),
    (truthy (get "user" (body req)) = true -> setCompletedBody req = req)
    /\ (truthy (get "user" (body req)) = false ->
        let req' := setCompletedBody req in
        get "user" (body req') = option_map VStr (param "userId" (params req))
        /\ (forall k, k <> "user" -> get k (body req') = get k (body req))
        /\ req' = set_body (body req') req).
Proof.
  intros req. unfold setCompletedBody. split.
  - intros ->. reflexivity.
  - intros ->. cbn [negb].
    destruct (param "userId" (params req)) as [uid|]; cbn [set_body body option_map].
    + split; [apply get_put_same|]. split; [|reflexivity].
      intros k Hk. now apply get_put_other.
    + split; [apply get_unset_same|]. split; [|reflexivity].
      intros k Hk. now apply get_unset_other.
Qed.

Lemma setCompletedBody_fills_in_route_user_witness :
  get "user" (body (setCompletedBody
                      (request [("test", VStr "test-1")] [("userId", "user-bob")]
                               (Some bob))))
  = Some (VStr "user-bob")
  /\ get "user" (body (setCompletedBody
                         (request [("user", VStr ""); ("test", VStr "test-1")] []
                                  (Some bob))))
     = None.
Proof.
  split.
  - apply (proj2 (setCompletedBody_fills_in_route_user
                    (request [("test", VStr "test-1")] [("userId", "user-bob")]
                             (Some bob)))
                 eq_refl).
  - apply (proj2 (setCompletedBody_fills_in_route_user
                    (request [("user", VStr ""); ("test", VStr "test-1")] []
                             (Some bob)))
                 eq_refl).
Defined.

Lemma find_map_kept {A} (f : A -> bool) (g : A -> A) (l : list A) :
  (forall x, f (g x) = f x) -> find f (map g l) = option_map g (find f l).
Proof.
  intros H. induction l as [|y l IH]; cbn [find map]; [reflexivity|].
  rewrite H. destruct (f y); [reflexivity|exact IH].
Qed.

Section CompletedRecords.
Context {P : Primitives}.

Lemma addNewCompleted_cases (db : Collections) (a : Ambient) (req : Request)
      (cs' : list Completed) (out : Outcome) :
  addNewCompleted db a req = (cs', out) ->
  (cs' = completeds db /\ exists f, out = Fail f)
  \/ (exists userId w testv ownerv,
        param "userId" (params req) = Some userId
        /\ In w (users db) /\ _id w = userId /\ isActive w = true
        /\ get "test" (body req) = Some testv /\ In (castString testv) (tests db)
        /\ (isMemberOfSameTeam (castString testv) userId = true
            \/ exists me, user req = Some me /\ role me = "admin")
        /\ get "user" (body req) = Some ownerv
        /\ let created :=
             {| c_id := fresh_id a; c_test := castString testv;
                c_user := castString ownerv;
                c_completedAt := match get "completedAt" (body req) with
                                 | Some (VNum n) => Some n
                                 | _ => None
                                 end |} in
           cs' = (completeds db ++ [created])%list
           /\ out = Json 201 None (DocumentReply created)).
Proof.
  unfold addNewCompleted.
  destruct (param "userId" (params req)) as [userId|];
    [|intros H; inversion H; left; eauto].
  destruct (findById (users db) userId false) as [d|] eqn:Ef;
    [|intros H; inversion H; left; eauto].
  apply findOne_some in Ef. destruct Ef as [w [Hw [Hid [Hact _]]]].
  apply String.eqb_eq in Hid.
  unfold Test_findById.
  destruct (get "test" (body req)) as [testv|] eqn:Et;
    [|intros H; inversion H; left; eauto].
  destruct (find (String.eqb (castString testv)) (tests db)) as [testId|] eqn:Eft;
    [|intros H; inversion H; left; eauto].
  apply find_some in Eft. destruct Eft as [Htin Hteq].
  apply String.eqb_eq in Hteq. subst testId.
  assert (Hcreate :
    forall cs'' out',
      (match Completed_create a (body req) with
       | inl exn => (completeds db, Fail (Raised exn))
       | inr completed => ((completeds db ++ [completed])%list,
                           Json 201 None (DocumentReply completed))
       end) = (cs'', out') ->
      (cs'' = completeds db /\ exists f, out' = Fail f)
      \/ exists ownerv,
           get "user" (body req) = Some ownerv
           /\ cs'' = (completeds db
                      ++ [{| c_id := fresh_id a; c_test := castString testv;
                             c_user := castString ownerv;
                             c_completedAt := match get "completedAt" (body req) with
                                              | Some (VNum n) => Some n
                                              | _ => None
                                              end |}])%list
           /\ out' = Json 201 None
                       (DocumentReply
                          {| c_id := fresh_id a; c_test := castString testv;
                             c_user := castString ownerv;
                             c_completedAt := match get "completedAt" (body req) with
                                              | Some (VNum n) => Some n
                                              | _ => None
                                              end |})).
  { intros cs'' out'. unfold Completed_create. rewrite Et.
    destruct (get "user" (body req)) as [ownerv|];
      intros H; inversion H; [right|left]; eauto. }
  destruct (isMemberOfSameTeam (castString testv) userId) eqn:Em; cbn [negb].
  - intros H. destruct (Hcreate _ _ H) as [Hfail|[ownerv [Ho [-> ->]]]]; [now left|].
    right. exists userId, w, testv, ownerv. repeat split; auto.
  - destruct (user req) as [me|] eqn:Eme; [|intros H; inversion H; left; eauto].
    destruct (String.eqb_spec (role me) "admin") as [Hadm|Hadm]; cbn [negb];
      [|intros H; inversion H; left; eauto].
    intros H. destruct (Hcreate _ _ H) as [Hfail|[ownerv [Ho [-> ->]]]]; [now left|].
    right. exists userId, w, testv, ownerv. repeat split; eauto.
Qed.

(** X18. [addNewCompleted] either fails and leaves the Completed records as
    they are, or appends exactly one record and answers 201 with it.  It
    appends only when the user named in the route is stored and active, the
    test named in the body is stored, and that route user is a member of the
    test's team or the caller has role [admin].  The record gets a new id,
    the body's test, and as owner the [user] field of the body. *)
Theorem addNewCompleted_appends_one_or_nothing :
  forall (db : Collections) (a : Ambient) (req : Request)
         (cs' : list Completed) (out : Outcome),
    addNewCompleted db a req = (cs', out) ->
    (cs' = completeds db /\ exists f, out = Fail f)
    \/ (exists userId w testv ownerv,
          param "userId" (params req) = Some userId
          /\ In w (users db) /\ _id w = userId /\ isActive w = true
          /\ get "test" (body req) = Some testv /\ In (castString testv) (tests db)
          /\ (isMemberOfSameTeam (castString testv) userId = true
              \/ exists me, user req = Some me /\ role me = "admin")
          /\ get "user" (body req) = Some ownerv
          /\ let created :=
               {| c_id := fresh_id a; c_test := castString testv;
                  c_user := castString ownerv;
                  c_completedAt := match get "completedAt" (body req) with
                                   | Some (VNum n) => Some n
                                   | _ => None
                                   end |} in
             cs' = (completeds db ++ [created])%list
             /\ out = Json 201 None (DocumentReply created)).
Proof. exact addNewCompleted_cases. Qed.

(** X19. A record [addNewCompleted] has created can be fetched: when the new
    id was not in use, [getCompleted] for the id of the answered document, on
    the collection the creation leaves, answers 200 with that document. *)
Theorem created_record_can_be_fetched :
  forall (db : Collections) (a : Ambient) (req : Request) (cs' : list Completed)
         (code : Z) (c : option Cookie) (doc : Completed),
    addNewCompleted db a req = (cs', Json code c (DocumentReply doc)) ->
    (forall x, In x (completeds db) -> c_id x <> fresh_id a) ->
    forall req', param "id" (params req') = Some (c_id doc) ->
      getCompleted (with_completeds cs' db) req' = Json 200 None (DocumentReply doc).
Proof.
  intros db a req cs' code c doc Hadd Hfresh req' Hid.
  destruct (addNewCompleted_cases db a req cs' _ Hadd)
    as [[_ [f Hf]]|[userId [w [testv [ownerv [_ [_ [_ [_ [_ [_ [_ [_ [Hcs Hout]]]]]]]]]]]]]];
    [discriminate|].
  inversion Hout; subst doc. subst cs'.
  unfold getCompleted, with_completeds. cbn [completeds]. rewrite Hid.
  unfold Completed_findById. cbn [c_id].
  rewrite find_snoc_none.
  - cbn [c_id]. now rewrite String.eqb_refl.
  - apply find_none_iff. intros x Hx. apply String.eqb_neq. now apply Hfresh.
Qed.

Lemma patch_keeps_id (b : JsObject) (c : Completed) : c_id (patch b c) = c_id c.
Proof. reflexivity. Qed.

(** X20. What [updateCompleted] answers is what is stored: when it answers
    200 with a document, [getCompleted] for the same request, on the
    collection the update leaves, answers 200 with that same document; and
    the update adds or removes no record and changes no id. *)
Theorem updated_record_is_what_is_fetched :
  forall (db : Collections) (req : Request) (cs' : list Completed)
         (code : Z) (c : option Cookie) (doc : Completed),
    updateCompleted db req = (cs', Json code c (DocumentReply doc)) ->
    getCompleted (with_completeds cs' db) req = Json 200 None (DocumentReply doc)
    /\ map c_id cs' = map c_id (completeds db).
Proof.
  intros db req cs' code c doc. unfold updateCompleted.
  destruct (param "id" (params req)) as [id|] eqn:Eid; [|discriminate].
  destruct (Completed_findById (completeds db) id) as [cur|] eqn:Ef; [|discriminate].
  destruct (user req) as [me|]; [|discriminate].
  destruct (negb (String.eqb (c_user cur) (_id me))
            && negb (String.eqb (role me) "admin"))%bool; [discriminate|].
  intros H. inversion H; subst. split.
  - unfold getCompleted, with_completeds. cbn [completeds]. rewrite Eid.
    unfold Completed_findById, Completed_findByIdAndUpdate in *.
    rewrite find_map_kept.
    + rewrite Ef. cbn [option_map].
      apply find_some in Ef. destruct Ef as [_ Hc]. now rewrite Hc.
    + intros x. destruct (String.eqb (c_id x) id) eqn:E; [|exact E].
      now rewrite patch_keeps_id.
  - unfold Completed_findByIdAndUpdate. rewrite map_map. apply map_ext.
    intros x. now destruct (String.eqb (c_id x) id).
Qed.

End CompletedRecords.

(** X21. A record [deleteCompleted] has deleted is gone and nothing else is:
    when it answers (204), [getCompleted] for the same request, on the
    collection the deletion leaves, answers 404, and the records left are
    exactly the earlier ones with another id, in their order. *)
Theorem deleted_record_is_gone :
  forall (db : Collections) (req : Request) (cs' : list Completed)
         (code : Z) (c : option Cookie) (r : Reply),
    deleteCompleted db req = (cs', Json code c r) ->
    exists id,
      param "id" (params req) = Some id
      /\ code = 204
      /\ cs' = filter (fun x => negb (String.eqb (c_id x) id)) (completeds db)
      /\ (forall x, In x cs' <-> In x (completeds db) /\ c_id x <> id)
      /\ getCompleted (with_completeds cs' db) req
         = Fail (Operational (new_ErrorHandler
                   "No Completed Test was found with the given id." 404)).
Proof.
  intros db req cs' code c r. unfold deleteCompleted.
  destruct (param "id" (params req)) as [id|] eqn:Eid; [|discriminate].
  destruct (Completed_findById (completeds db) id) as [cur|] eqn:Ef; [|discriminate].
  destruct (user req) as [me|]; [|discriminate].
  destruct (negb (String.eqb (c_user cur) (_id me))
            && negb (String.eqb (role me) "admin"))%bool; [discriminate|].
  intros H. inversion H; subst. exists id.
  assert (Hin : forall x, In x (Completed_findByIdAndDelete (completeds db) id)
                          <-> In x (completeds db) /\ c_id x <> id).
  { intros x. unfold Completed_findByIdAndDelete. rewrite filter_In.
    rewrite negb_true_iff, String.eqb_neq. tauto. }
  split; [reflexivity|]. split; [reflexivity|]. split; [reflexivity|].
  split; [exact Hin|].
  unfold getCompleted, with_completeds. cbn [completeds]. rewrite Eid.
  replace (Completed_findById _ id) with (@None Completed); [reflexivity|].
  symmetry. apply find_none_iff. intros x Hx. apply Hin in Hx.
  apply String.eqb_neq. tauto.
Qed.

Section CompletedRecordsSample.
#[local] Existing Instance sample_primitives.

Lemma addNewCompleted_appends_one_or_nothing_witness :
  let req := request [("test", VStr "test-1"); ("user", VStr "user-bob")]
                     [("userId", "user-bob")] (Some bob) in
  let created := {| c_id := "fresh-id"; c_test := "test-1"; c_user := "user-bob";
                    c_completedAt := None |} in
  @addNewCompleted sample_primitives collections (at_time 1700000000000 true) req
  = ((completeds collections ++ [created])%list, Json 201 None (DocumentReply created))
  /\ ((completeds collections ++ [created])%list = completeds collections
      /\ (exists f, Json 201 None (DocumentReply created) = Fail f)
      \/ In "test-1" (tests collections)).
Proof.
  intros req created. split; [reflexivity|].
  destruct (@addNewCompleted_appends_one_or_nothing sample_primitives collections
              (at_time 1700000000000 true) req
              (completeds collections ++ [created])%list
              (Json 201 None (DocumentReply created)) eq_refl)
    as [H|[userId [w [testv [ownerv [_ [_ [_ [_ [Ht [Hin _]]]]]]]]]]].
  - left. exact H.
  - right. inversion Ht; subst testv. exact Hin.
Defined.

Lemma created_record_can_be_fetched_witness :
  let req := request [("test", VStr "test-1"); ("user", VStr "user-bob")]
                     [("userId", "user-bob")] (Some bob) in
  let created := {| c_id := "fresh-id"; c_test := "test-1"; c_user := "user-bob";
                    c_completedAt := None |} in
  getCompleted
    (with_completeds (completeds collections ++ [created])%list collections)
    (request [] [("id", "fresh-id")] (Some alice))
  = Json 200 None (DocumentReply created).
Proof.
  intros req created.
  apply (@created_record_can_be_fetched sample_primitives collections
           (at_time 1700000000000 true) req
           (completeds collections ++ [created])%list 201 None created eq_refl).
  - intros x [<-|[<-|[]]]; discriminate.
  - reflexivity.
Defined.

Lemma updated_record_is_what_is_fetched_witness :
  let req := request [("completedAt", VNum 1700000000000)] [("id", "completed-1")]
                     (Some alice) in
  let cs' := Completed_findByIdAndUpdate (completeds collections) "completed-1"
               [("completedAt", VNum 1700000000000)] in
  getCompleted (with_completeds cs' collections) req
  = Json 200 None
      (DocumentReply (patch [("completedAt", VNum 1700000000000)] alices_completed))
  /\ map c_id cs' = map c_id (completeds collections).
Proof.
  intros req cs'.
  apply (updated_record_is_what_is_fetched collections req cs' 200 None
           (patch [("completedAt", VNum 1700000000000)] alices_completed) eq_refl).
Defined.

Lemma deleted_record_is_gone_witness :
  exists id,
    param "id" [("id", "completed-1")] = Some id
    /\ 204 = 204
    /\ [bobs_completed]
       = filter (fun x => negb (String.eqb (c_id x) id)) (completeds collections)
    /\ (forall x, In x [bobs_completed] <-> In x (completeds collections) /\ c_id x <> id)
    /\ getCompleted (with_completeds [bobs_completed] collections)
         (request [] [("id", "completed-1")] (Some alice))
       = Fail (Operational (new_ErrorHandler
                 "No Completed Test was found with the given id." 404)).
Proof.
  apply (deleted_record_is_gone collections
           (request [] [("id", "completed-1")] (Some alice))
           [bobs_completed] 204 None NullData eq_refl).
Defined.

End CompletedRecordsSample.

Lemma find_unique_key (cs : list Completed) (c : Completed) :
  NoDup (map c_id cs) -> In c cs ->
  find (fun x => String.eqb (c_id x) (c_id c)) cs = Some c.
Proof.
  induction cs as [|y cs IH]; intros Hnd Hin; [destruct Hin|].
  inversion Hnd as [|? ? Hy Hcs]; subst. cbn [find].
  destruct Hin as [->|Hin]; [now rewrite String.eqb_refl|].
  destruct (String.eqb_spec (c_id y) (c_id c)) as [E|_]; [|now apply IH].
  exfalso. apply Hy. rewrite E. now apply in_map.
Qed.

(** X24. [getCompleted] asks nothing about the caller: with unique ids, a
    request for the id of any stored record is answered 200 with that record,
    whoever [req.user] is, owner or not, present or not. *)
Theorem getCompleted_serves_any_caller :
  forall (db : Collections) (req : Request) (c : Completed),
    NoDup (map c_id (completeds db)) -> In c (completeds db) ->
    param "id" (params req) = Some (c_id c) ->
    getCompleted db req = Json 200 None (DocumentReply c).
Proof.
  intros db req c Hnd Hin Hid. unfold getCompleted. rewrite Hid.
  unfold Completed_findById. now rewrite (find_unique_key _ _ Hnd Hin).
Qed.

Lemma getCompleted_serves_any_caller_witness :
  getCompleted collections (request [] [("id", "completed-1")] (Some bob))
  = Json 200 None (DocumentReply alices_completed)
  /\ getCompleted collections (request [] [("id", "completed-1")] None)
     = Json 200 None (DocumentReply alices_completed).
Proof.
  assert (Hnd : NoDup (map c_id (completeds collections))).
  { repeat constructor; simpl; intuition discriminate. }
  split.
  - apply (getCompleted_serves_any_caller collections
             (request [] [("id", "completed-1")] (Some bob)) alices_completed Hnd).
    + left. reflexivity.
    + reflexivity.
  - apply (getCompleted_serves_any_caller collections
             (request [] [("id", "completed-1")] None) alices_completed Hnd).
    + left. reflexivity.
    + reflexivity.
Defined.
